(** * GradeMate: a shallow embedding of the grading application's logic

    The first part embeds the TypeScript sources:
    - [services/pdfSplittingService.ts]  (module [PdfSplittingService])
    - [types.ts]                         (modules [RubricItem], [QuestionGrade], ...)
    - [views/GradingView.tsx]            (module [GradingView])
    - [views/RubricSetup.tsx], [views/StudentSetup.tsx], [App.tsx]
                                         (modules of the same names)
    - [services/geminiService.ts]        (module [GeminiService])
    followed by the notions the statements use ([Lifecycle]) and concrete
    inputs ([Examples]). The second part proves the properties of the
    splitter ([PdfSplittingProofs]), of the grading workspace
    ([GradingProofs]), of a student's status ([LifecycleProofs]) and of the
    AI gateway ([GeminiProofs]).

    Conventions of the embedding.
    - A JavaScript [number] that holds a page number, a page count, a score
      or a point value is an integer of [Z]; fractional values and the
      rounding of IEEE doubles are outside the model.
    - A JavaScript string is a [string] of 8-bit characters; [trim] and
      [toUpperCase] are the ASCII fragments of the built-ins.
    - An optional field ([x?: T], [T | null]) is an [option]; [None] is
      [undefined]/[null]/an absent key.
    - A [Record<string, V>] used as a dictionary is a [gmap string V].
    - A handler that may return without calling [onUpdate] returns an
      [option Assessment]: [None] when no replacement assessment is emitted.
    - A promise that may reject is a [Result]. *)

From Stdlib Require Import ZArith List String Ascii Lia Bool.
From stdpp Require Import base option list list_numbers strings pretty gmap fin_maps.

Local Open Scope Z_scope.

(** ** JavaScript values used by the sources *)

Module Js.

(** What a [throw] or a rejected promise carries. *)
Inductive Exn : Type :=
| Error (message : string)
| TypeError (message : string)
| SyntaxError (message : string)
| Rejection (reason : string).

Inductive Result (A : Type) : Type :=
| Ok (value : A)
| Throw (e : Exn).
Global Arguments Ok {A} value.
Global Arguments Throw {A} e.

(** White space removed by [String.prototype.trim], ASCII part:
    TAB, LF, VT, FF, CR and SPACE. *)
Definition isWhiteSpace (c : ascii) : bool :=
  let n := N_of_ascii c in
  ((9 <=? n)%N && (n <=? 13)%N) || (n =? 32)%N.

Fixpoint trimStartChars (l : list ascii) : list ascii :=
  match l with
  | [] => []
  | c :: l' => if isWhiteSpace c then trimStartChars l' else l
  end.

Definition trim (s : string) : string :=
  string_of_list_ascii
    (rev (trimStartChars (rev (trimStartChars (list_ascii_of_string s))))).

Definition upperChar (c : ascii) : ascii :=
  let n := N_of_ascii c in
  if ((97 <=? n)%N && (n <=? 122)%N)%bool then ascii_of_N (n - 32) else c.

Fixpoint toUpperCase (s : string) : string :=
  match s with
  | EmptyString => EmptyString
  | String c s' => String (upperChar c) (toUpperCase s')
  end.

(** Truthiness of a string: every string but the empty one. *)
Definition truthy (s : string) : bool :=
  match s with
  | EmptyString => false
  | String _ _ => true
  end.

(** Truthiness of [string | undefined] (or [string | null]). *)
Definition truthyOpt (o : option string) : bool :=
  match o with
  | Some s => truthy s
  | None => false
  end.

End Js.

Import Js.

(** ** pdf-lib, as far as the splitting service uses it

    A loaded document is the list of its pages. [copyPages] returns the
    pages found at the given zero-based indices, in the order of the indices,
    and throws when an index names no page of the source. *)

Module PdfLib.
Abbreviation PDFDocument := list (only parsing).

Section Doc.
Context {Page : Type}.

Definition create : PDFDocument Page := [].

Definition getPageCount (doc : PDFDocument Page) : Z := Z.of_nat (length doc).

Definition pageAt (doc : PDFDocument Page) (index : Z) : option Page :=
  if 0 <=? index then doc !! Z.to_nat index else None.

Definition copyPages (src : PDFDocument Page) (indices : list Z)
  : Result (list Page) :=
  match mapM (pageAt src) indices with
  | Some copied => Ok copied
  | None => Throw (TypeError "Cannot read properties of undefined (reading 'node')")
  end.

Definition addPage (doc : PDFDocument Page) (page : Page) : PDFDocument Page :=
  doc ++ [page].
End Doc.
End PdfLib.

(** ** services/pdfSplittingService.ts *)

Module SplitRange.
Record t : Type := mk {
  studentName : string;
  startPage : Z;   (* 1-indexed *)
  endPage : Z      (* 1-indexed *)
}.
End SplitRange.

Module PdfSplittingService.
Import PdfLib.

Section Service.
Context {Page File : Type}.
(** [PDFDocument.load(await originalFile.arrayBuffer())]: the parser of
    pdf-lib, which rejects a file that is not a PDF. *)
Variable load : File -> Result (PDFDocument Page).

(** A [Blob] of type [application/pdf]; the saved bytes are represented
    by the document they serialise. *)
Record Blob : Type := mkBlob {
  saved : PDFDocument Page;
  type : string
}.

Record SplitResult : Type := mkSplitResult {
  studentName : string;
  blob : Blob
}.

(** The inner loop: [i] runs over [startPage, startPage + 1, ..., endPage]
    (no value at all when [endPage < startPage]) and [i - 1] is pushed
    when it is below the page count. *)
Definition pageIndices (range : SplitRange.t) (pageCount : Z) : list Z :=
  foldl
    (fun pageIndices i =>
       if i - 1 <? pageCount then pageIndices ++ [i - 1] else pageIndices)
    []
    (seqZ (SplitRange.startPage range)
          (SplitRange.endPage range - SplitRange.startPage range + 1)).

(** The body of the outer loop for one range: [None] when nothing is
    pushed on [results]. *)
Definition splitRange (pdfDoc : PDFDocument Page) (range : SplitRange.t)
  : Result (option SplitResult) :=
  let subDocument := create in
  let pageIndices := pageIndices range (getPageCount pdfDoc) in
  if (0 <? length pageIndices)%nat then
    match copyPages pdfDoc pageIndices with
    | Throw e => Throw e
    | Ok copiedPages =>
        let subDocument := foldl addPage subDocument copiedPages in
        let blob := mkBlob subDocument "application/pdf" in
        Ok (Some (mkSplitResult (SplitRange.studentName range) blob))
    end
  else Ok None.

Fixpoint splitLoop (pdfDoc : PDFDocument Page) (ranges : list SplitRange.t)
  (results : list SplitResult) : Result (list SplitResult) :=
  match ranges with
  | [] => Ok results
  | range :: ranges' =>
      match splitRange pdfDoc range with
      | Throw e => Throw e
      | Ok None => splitLoop pdfDoc ranges' results
      | Ok (Some r) => splitLoop pdfDoc ranges' (results ++ [r])
      end
  end.

Definition splitPdfByRanges (originalFile : File) (ranges : list SplitRange.t)
  : Result (list SplitResult) :=
  match load originalFile with
  | Throw e => Throw e
  | Ok pdfDoc => splitLoop pdfDoc ranges []
  end.

(** *** Reference descriptions used in the statements *)

(** The source's pages [startPage .. endPage] (1-indexed, inclusive), in
    their original order; pages past the end of the source do not exist
    and are not part of it. *)
Definition sourcePages (pdfDoc : PDFDocument Page) (range : SplitRange.t)
  : list Page :=
  take (Z.to_nat (SplitRange.endPage range - SplitRange.startPage range + 1))
       (drop (Z.to_nat (SplitRange.startPage range - 1)) pdfDoc).

(** The entry a range contributes to the output: none when it has no
    page, else one document with its pages under the student's name. *)
Definition entryOf (pdfDoc : PDFDocument Page) (range : SplitRange.t)
  : option SplitResult :=
  match sourcePages pdfDoc range with
  | [] => None
  | pages =>
      Some (mkSplitResult (SplitRange.studentName range)
                          (mkBlob pages "application/pdf"))
  end.

Definition validRange (pdfDoc : PDFDocument Page) (range : SplitRange.t) : Prop :=
  1 <= SplitRange.startPage range
  /\ SplitRange.startPage range <= SplitRange.endPage range
  /\ SplitRange.endPage range <= getPageCount pdfDoc.

(** No page below page 1 is asked for (the loop does not run at all when
    [endPage < startPage]). *)
Definition startsInDocument (range : SplitRange.t) : Prop :=
  1 <= SplitRange.startPage range
  \/ SplitRange.endPage range < SplitRange.startPage range.
End Service.
End PdfSplittingService.

(** ** types.ts *)

Inductive AssessmentStatus : Type := DRAFT | READY | GRADING | COMPLETED.

Inductive QuestionType : Type := FRQ | MCQ.

Inductive StudentStatus : Type := PENDING | GRADED.

Global Instance QuestionType_eq_dec : EqDecision QuestionType.
Proof. solve_decision. Defined.

Global Instance StudentStatus_eq_dec : EqDecision StudentStatus.
Proof. solve_decision. Defined.

Module RubricItem.
Record t : Type := mk {
  id : string;
  question : string;
  maxPoints : Z;
  criteria : string;
  type : QuestionType;
  correctAnswer : option string   (* e.g., 'A', 'B', 'C', 'D' *)
}.

(** [{ ...r, correctAnswer: key }] *)
Definition withCorrectAnswer (r : t) (key : string) : t :=
  mk (id r) (question r) (maxPoints r) (criteria r) (type r) (Some key).
End RubricItem.

Module QuestionGrade.
Record t : Type := mk {
  score : Z;
  comment : string;
  studentAnswer : option string;   (* The detected answer (e.g. 'A') *)
  isAiSuggested : option bool
}.

(** [{ ...g, score: newScore }] *)
Definition withScore (g : t) (newScore : Z) : t :=
  mk newScore (comment g) (studentAnswer g) (isAiSuggested g).
End QuestionGrade.

(** [Partial<QuestionGrade>]: each key is absent ([None]) or carries a value. *)
Module PartialGrade.
Record t : Type := mk {
  score : option Z;
  comment : option string;
  studentAnswer : option string;
  isAiSuggested : option bool
}.

(** [{ ...current, ...update }]: a key of [update] wins over [current]. *)
Definition spreadOver (current : QuestionGrade.t) (update : t) : QuestionGrade.t :=
  QuestionGrade.mk
    (default (QuestionGrade.score current) (score update))
    (default (QuestionGrade.comment current) (comment update))
    (match studentAnswer update with
     | Some a => Some a
     | None => QuestionGrade.studentAnswer current
     end)
    (match isAiSuggested update with
     | Some b => Some b
     | None => QuestionGrade.isAiSuggested current
     end).
End PartialGrade.

Module StudentSubmission.
Record t : Type := mk {
  id : string;
  studentName : string;
  fileData : option string;   (* Base64 *)
  fileType : string;
  fileName : string;
  grades : gmap string QuestionGrade.t;   (* Keyed by RubricItem.id *)
  status : StudentStatus;
  totalScore : Z
}.
End StudentSubmission.

Module Assessment.
Record t : Type := mk {
  id : string;
  title : string;
  description : string;
  status : AssessmentStatus;
  rubric : list RubricItem.t;
  students : list StudentSubmission.t;
  cannedComments : list string;
  created : Z
}.

(** [{ ...assessment, students: updatedStudents }] *)
Definition withStudents (a : t) (updatedStudents : list StudentSubmission.t) : t :=
  mk (id a) (title a) (description a) (status a) (rubric a) updatedStudents
     (cannedComments a) (created a).

(** [{ ...assessment, rubric: updatedRubric }] *)
Definition withRubric (a : t) (updatedRubric : list RubricItem.t) : t :=
  mk (id a) (title a) (description a) (status a) updatedRubric (students a)
     (cannedComments a) (created a).

(** [{ ...assessment, cannedComments: comments }] *)
Definition withCannedComments (a : t) (comments : list string) : t :=
  mk (id a) (title a) (description a) (status a) (rubric a) (students a)
     comments (created a).
End Assessment.

Module AiGradingResult.
Record t : Type := mk {
  questionId : string;
  score : Z;
  comment : string;
  studentAnswer : option string
}.
End AiGradingResult.

(** ** views/GradingView.tsx *)

Module GradingView.

(** [Object.values(grades).reduce((sum, g) => sum + g.score, 0)] *)
Definition sumScores (grades : gmap string QuestionGrade.t) : Z :=
  foldl (fun sum g => sum + QuestionGrade.score g) 0 (map_to_list grades).*2.

(** [rubric.find(r => r.id === questionId)] *)
Definition findRubricItem (rubric : list RubricItem.t) (questionId : string)
  : option RubricItem.t :=
  List.find (fun r => bool_decide (RubricItem.id r = questionId)) rubric.

(** [students.find(s => s.id === selectedStudentId)], where the state
    [selectedStudentId] is a string or [null]. *)
Definition findStudent (students : list StudentSubmission.t)
  (selectedStudentId : option string) : option StudentSubmission.t :=
  List.find (fun s => bool_decide (Some (StudentSubmission.id s) = selectedStudentId))
            students.

(** [students.map(s => s.id === studentId ? updatedStudent : s)] *)
Definition replaceStudent (students : list StudentSubmission.t)
  (studentId : option string) (updatedStudent : StudentSubmission.t)
  : list StudentSubmission.t :=
  (fun s => if bool_decide (Some (StudentSubmission.id s) = studentId)
            then updatedStudent else s) <$> students.

(** [a.trim().toUpperCase() === b.trim().toUpperCase()] *)
Definition sameLetter (a b : string) : bool :=
  bool_decide (toUpperCase (trim a) = toUpperCase (trim b)).

Definition defaultGrade : QuestionGrade.t :=
  QuestionGrade.mk 0 "" None None.

(** The first part of [handleGradeChange]: the score of a multiple-choice
    item is recalculated when the student's answer is edited. *)
Definition newGradeData (rubricItem : option RubricItem.t) (gradeData : PartialGrade.t)
  : PartialGrade.t :=
  match rubricItem, PartialGrade.studentAnswer gradeData with
  | Some item, Some answer =>
      match RubricItem.type item, RubricItem.correctAnswer item with
      | MCQ, Some key =>
          if truthy key then
            let newVal := toUpperCase (trim answer) in
            let correct := toUpperCase (trim key) in
            PartialGrade.mk
              (Some (if bool_decide (newVal = correct)
                     then RubricItem.maxPoints item else 0))
              (PartialGrade.comment gradeData)
              (Some newVal)
              (PartialGrade.isAiSuggested gradeData)
          else gradeData
      | _, _ => gradeData
      end
  | _, _ => gradeData
  end.

Definition handleGradeChange (assessment : Assessment.t)
  (selectedStudentId : option string)
  (questionId : string) (gradeData : PartialGrade.t) : option Assessment.t :=
  match findStudent (Assessment.students assessment) selectedStudentId with
  | None => None
  | Some selectedStudent =>
      let rubricItem := findRubricItem (Assessment.rubric assessment) questionId in
      let newGradeData := newGradeData rubricItem gradeData in
      let currentGrade :=
        default defaultGrade (StudentSubmission.grades selectedStudent !! questionId) in
      let newGrades :=
        <[questionId := PartialGrade.spreadOver currentGrade newGradeData]>
          (StudentSubmission.grades selectedStudent) in
      (* Recalculate total *)
      let total := sumScores newGrades in
      let updatedStudent :=
        StudentSubmission.mk
          (StudentSubmission.id selectedStudent)
          (StudentSubmission.studentName selectedStudent)
          (StudentSubmission.fileData selectedStudent)
          (StudentSubmission.fileType selectedStudent)
          (StudentSubmission.fileName selectedStudent)
          newGrades
          GRADED   (* Mark as graded once touched *)
          total in
      let updatedStudents :=
        replaceStudent (Assessment.students assessment) selectedStudentId
                       updatedStudent in
      Some (Assessment.withStudents assessment updatedStudents)
  end.

Definition handleKeyChange (assessment : Assessment.t)
  (selectedStudentId : option string)
  (questionId : string) (newKey : string) : Assessment.t :=
  (* 1. Update the Rubric *)
  let updatedRubric :=
    (fun r => if bool_decide (RubricItem.id r = questionId)
              then RubricItem.withCorrectAnswer r (toUpperCase newKey)
              else r) <$> Assessment.rubric assessment in
  (* 2. Re-grade the current student for this specific question immediately *)
  let updatedStudents :=
    match findStudent (Assessment.students assessment) selectedStudentId with
    | None => Assessment.students assessment
    | Some selectedStudent =>
        match findRubricItem updatedRubric questionId,
              StudentSubmission.grades selectedStudent !! questionId with
        | Some rubricItem, Some currentGrade =>
            match QuestionGrade.studentAnswer currentGrade with
            | Some answer =>
                if truthy answer then
                  let isCorrect := sameLetter answer newKey in
                  let newScore :=
                    if isCorrect then RubricItem.maxPoints rubricItem else 0 in
                  let newGrades :=
                    <[questionId := QuestionGrade.withScore currentGrade newScore]>
                      (StudentSubmission.grades selectedStudent) in
                  let newTotal := sumScores newGrades in
                  let updatedStudent :=
                    StudentSubmission.mk
                      (StudentSubmission.id selectedStudent)
                      (StudentSubmission.studentName selectedStudent)
                      (StudentSubmission.fileData selectedStudent)
                      (StudentSubmission.fileType selectedStudent)
                      (StudentSubmission.fileName selectedStudent)
                      newGrades
                      (StudentSubmission.status selectedStudent)
                      newTotal in
                  replaceStudent (Assessment.students assessment)
                                 (Some (StudentSubmission.id selectedStudent))
                                 updatedStudent
                else Assessment.students assessment
            | None => Assessment.students assessment
            end
        | _, _ => Assessment.students assessment
        end
    end in
  Assessment.mk
    (Assessment.id assessment) (Assessment.title assessment)
    (Assessment.description assessment) (Assessment.status assessment)
    updatedRubric updatedStudents
    (Assessment.cannedComments assessment) (Assessment.created assessment).

(** The score stored for one AI result: for a multiple-choice item with a
    key and a detected answer the suggestion is replaced by strict scoring. *)
Definition finalScore (rubric : list RubricItem.t) (res : AiGradingResult.t) : Z :=
  match findRubricItem rubric (AiGradingResult.questionId res) with
  | Some rubricItem =>
      match RubricItem.type rubricItem, RubricItem.correctAnswer rubricItem,
            AiGradingResult.studentAnswer res with
      | MCQ, Some key, Some answer =>
          if truthy key && truthy answer then
            let isCorrect := sameLetter key answer in
            if isCorrect then RubricItem.maxPoints rubricItem else 0
          else AiGradingResult.score res
      | _, _, _ => AiGradingResult.score res
      end
  | None => AiGradingResult.score res
  end.

(** The grade object built for one AI result. *)
Definition aiGrade (rubric : list RubricItem.t) (res : AiGradingResult.t)
  : QuestionGrade.t :=
  QuestionGrade.mk (finalScore rubric res) (AiGradingResult.comment res)
                   (AiGradingResult.studentAnswer res) (Some true).

(** The body of [results.forEach]: it updates [newGrades] and [newTotal]. *)
Definition applyResult (rubric : list RubricItem.t)
  (acc : gmap string QuestionGrade.t * Z) (res : AiGradingResult.t)
  : gmap string QuestionGrade.t * Z :=
  let '(newGrades, newTotal) := acc in
  (<[AiGradingResult.questionId res := aiGrade rubric res]> newGrades,
   newTotal + finalScore rubric res).

(** [runAiGrading]; [response] is how the awaited call of
    [gradeStudentSubmission] ended. A rejection is caught and reported to
    the user; no assessment is emitted then. *)
Definition runAiGrading (assessment : Assessment.t)
  (selectedStudentId : option string)
  (response : Result (list AiGradingResult.t)) : option Assessment.t :=
  match findStudent (Assessment.students assessment) selectedStudentId with
  | None => None
  | Some selectedStudent =>
      if truthyOpt (StudentSubmission.fileData selectedStudent) then
        match response with
        | Throw _ => None
        | Ok results =>
            let '(newGrades, newTotal) :=
              foldl (applyResult (Assessment.rubric assessment))
                    (StudentSubmission.grades selectedStudent, 0) results in
            let updatedStudent :=
              StudentSubmission.mk
                (StudentSubmission.id selectedStudent)
                (StudentSubmission.studentName selectedStudent)
                (StudentSubmission.fileData selectedStudent)
                (StudentSubmission.fileType selectedStudent)
                (StudentSubmission.fileName selectedStudent)
                newGrades
                GRADED
                newTotal in
            let updatedStudents :=
              replaceStudent (Assessment.students assessment) selectedStudentId
                             updatedStudent in
            Some (Assessment.withStudents assessment updatedStudents)
        end
      else None
  end.

(** [cannedComments.includes(text)] *)
Definition includes (comments : list string) (text : string) : bool :=
  bool_decide (text ∈ comments).

Definition addCannedComment (assessment : Assessment.t) (text : string)
  : option Assessment.t :=
  if negb (includes (Assessment.cannedComments assessment) text) then
    Some (Assessment.withCannedComments assessment
            (Assessment.cannedComments assessment ++ [text]))
  else None.

End GradingView.

(** ** views/RubricSetup.tsx *)

Module RubricSetup.

(** A key of [RubricItem] with the value written to it:
    the [field] and [value] arguments of [updateQuestion]. *)
Inductive FieldValue : Type :=
| SetId (value : string)
| SetQuestion (value : string)
| SetMaxPoints (value : Z)
| SetCriteria (value : string)
| SetType (value : QuestionType)
| SetCorrectAnswer (value : string).

(** [{ ...q, [field]: value }] *)
Definition withField (q : RubricItem.t) (fv : FieldValue) : RubricItem.t :=
  match fv with
  | SetId v =>
      RubricItem.mk v (RubricItem.question q) (RubricItem.maxPoints q)
        (RubricItem.criteria q) (RubricItem.type q) (RubricItem.correctAnswer q)
  | SetQuestion v =>
      RubricItem.mk (RubricItem.id q) v (RubricItem.maxPoints q)
        (RubricItem.criteria q) (RubricItem.type q) (RubricItem.correctAnswer q)
  | SetMaxPoints v =>
      RubricItem.mk (RubricItem.id q) (RubricItem.question q) v
        (RubricItem.criteria q) (RubricItem.type q) (RubricItem.correctAnswer q)
  | SetCriteria v =>
      RubricItem.mk (RubricItem.id q) (RubricItem.question q) (RubricItem.maxPoints q)
        v (RubricItem.type q) (RubricItem.correctAnswer q)
  | SetType v =>
      RubricItem.mk (RubricItem.id q) (RubricItem.question q) (RubricItem.maxPoints q)
        (RubricItem.criteria q) v (RubricItem.correctAnswer q)
  | SetCorrectAnswer v =>
      RubricItem.mk (RubricItem.id q) (RubricItem.question q) (RubricItem.maxPoints q)
        (RubricItem.criteria q) (RubricItem.type q) (Some v)
  end.

(** [handleFileUpload], once the file is read; [generated] is how the
    awaited call of [generateRubricFromPDF] ended. *)
Definition handleFileUpload (assessment : Assessment.t)
  (generated : Result (list RubricItem.t)) : option Assessment.t :=
  match generated with
  | Ok rubric => Some (Assessment.withRubric assessment rubric)
  | Throw _ => None
  end.

(** [addQuestion]; [now] is the reading of [Date.now()]. *)
Definition addQuestion (assessment : Assessment.t) (now : Z) : Assessment.t :=
  let newQ :=
    RubricItem.mk ("q-" +:+ pretty now) "New Question" 1 "Criteria description"
                  FRQ None in
  Assessment.withRubric assessment (Assessment.rubric assessment ++ [newQ]).

Definition updateQuestion (assessment : Assessment.t) (id : string)
  (fv : FieldValue) : Assessment.t :=
  let updated :=
    (fun q => if bool_decide (RubricItem.id q = id) then withField q fv else q)
      <$> Assessment.rubric assessment in
  Assessment.withRubric assessment updated.

Definition removeQuestion (assessment : Assessment.t) (id : string) : Assessment.t :=
  Assessment.withRubric assessment
    (filter (fun q => RubricItem.id q <> id) (Assessment.rubric assessment)).

End RubricSetup.

(** ** views/StudentSetup.tsx *)

Module StudentSetup.

(** A browser [File] as the handlers read it: its name, its media type and
    the Base64 text [FileReader.readAsDataURL] yields after the comma. *)
Record UploadedFile : Type := mkUploadedFile {
  name : string;
  type : string;
  base64 : string
}.

(** [name.split('.')[0]] *)
Fixpoint beforeFirstDot (s : string) : string :=
  match s with
  | EmptyString => EmptyString
  | String c s' => if Ascii.eqb c "." then EmptyString else String c (beforeFirstDot s')
  end.

(** [name.replace(/\s+/g, '_')]: every run of white space becomes one
    underscore. *)
Fixpoint underscoreRuns (inRun : bool) (s : string) : string :=
  match s with
  | EmptyString => EmptyString
  | String c s' =>
      if isWhiteSpace c then
        if inRun then underscoreRuns true s' else String "_" (underscoreRuns true s')
      else String c (underscoreRuns false s')
  end.

(** The object literal shared by the three places that create a student:
    no grades, status [PENDING], total 0. *)
Definition newStudent (id studentName : string) (fileData : option string)
  (fileType fileName : string) : StudentSubmission.t :=
  StudentSubmission.mk id studentName fileData fileType fileName ∅ PENDING 0.

(** [handleStudentSubmissionUpload], once the file is read; [now] and
    [random] are [Date.now()] and the printed [Math.random()]. *)
Definition handleStudentSubmissionUpload (assessment : Assessment.t)
  (file : UploadedFile) (studentId : option string) (now : Z) (random : string)
  : Assessment.t :=
  if truthyOpt studentId then
    (* Attach file to existing student (from roster) *)
    let updatedStudents :=
      (fun s =>
         if bool_decide (Some (StudentSubmission.id s) = studentId) then
           StudentSubmission.mk
             (StudentSubmission.id s) (StudentSubmission.studentName s)
             (Some (base64 file)) (type file) (name file)
             (StudentSubmission.grades s) (StudentSubmission.status s)
             (StudentSubmission.totalScore s)
         else s) <$> Assessment.students assessment in
    Assessment.withStudents assessment updatedStudents
  else
    (* Create new student from file *)
    let newStudent :=
      newStudent ("s-" +:+ pretty now +:+ "-" +:+ random)
                 (beforeFirstDot (name file))
                 (Some (base64 file)) (type file) (name file) in
    Assessment.withStudents assessment (Assessment.students assessment ++ [newStudent]).

(** [handleRosterImport], once the file is read; [parsed] is how the
    awaited call of [parseStudentRoster] ended and [now idx] the reading of
    [Date.now()] when name number [idx] is mapped. *)
Definition handleRosterImport (assessment : Assessment.t)
  (parsed : Result (list string)) (now : nat -> Z) : option Assessment.t :=
  match parsed with
  | Throw _ => None
  | Ok names =>
      if (length names =? 0)%nat then None
      else
        let newStudents :=
          imap (fun idx name =>
                  newStudent ("s-" +:+ pretty (now idx) +:+ "-" +:+ pretty idx)
                             name None "" "")
               names in
        Some (Assessment.withStudents assessment
                (Assessment.students assessment ++ newStudents))
  end.

Section BulkSplit.
Context {Page File : Type}.
Variable load : File -> Result (PdfLib.PDFDocument Page).
(** [blobToBase64]: the browser's [FileReader], which may fail. *)
Variable blobToBase64 : @PdfSplittingService.Blob Page -> Result string.

(** The loop of [finalizeSplit] over the split results; [idx] counts the
    results already turned into students. *)
Fixpoint studentsOfResults (results : list (@PdfSplittingService.SplitResult Page))
  (idx : nat) (now : nat -> Z) (random : nat -> string)
  (newStudents : list StudentSubmission.t) : Result (list StudentSubmission.t) :=
  match results with
  | [] => Ok newStudents
  | res :: results' =>
      match blobToBase64 (PdfSplittingService.blob res) with
      | Throw e => Throw e
      | Ok base64 =>
          let studentName := PdfSplittingService.studentName res in
          studentsOfResults results' (S idx) now random
            (newStudents ++
               [newStudent ("s-" +:+ pretty (now idx) +:+ "-" +:+ random idx)
                           studentName (Some base64) "application/pdf"
                           (underscoreRuns false studentName +:+ "_work.pdf")])
      end
  end.

Definition finalizeSplit (assessment : Assessment.t) (bulkFile : option File)
  (detectedRanges : list SplitRange.t) (now : nat -> Z) (random : nat -> string)
  : option Assessment.t :=
  match bulkFile with
  | None => None
  | Some bulkFile =>
      if (length detectedRanges =? 0)%nat then None
      else
        match PdfSplittingService.splitPdfByRanges load bulkFile detectedRanges with
        | Throw _ => None
        | Ok results =>
            match studentsOfResults results 0%nat now random [] with
            | Throw _ => None
            | Ok newStudents =>
                Some (Assessment.withStudents assessment
                        (Assessment.students assessment ++ newStudents))
            end
        end
  end.
End BulkSplit.

Definition removeStudent (assessment : Assessment.t) (id : string) : Assessment.t :=
  Assessment.withStudents assessment
    (filter (fun s => StudentSubmission.id s <> id) (Assessment.students assessment)).

(** The [Clear All] button: [onUpdate({ ...assessment, students: [] })]. *)
Definition clearAll (assessment : Assessment.t) : Assessment.t :=
  Assessment.withStudents assessment [].

End StudentSetup.

(** ** App.tsx *)

Module App.

(** Initial empty state; [created] is the reading of [Date.now()]. *)
Definition initialAssessment (created : Z) : Assessment.t :=
  Assessment.mk "draft-1" "Untitled Assessment" "" DRAFT [] []
    ["Great work!"; "Needs more detail here."; "Excellent analysis.";
     "Please show your calculations."]
    created.

(** Every user action that ends in a call of [onUpdate] ([setAssessment]),
    with what the environment contributes to it (the outcome of an awaited
    call, clock readings, random numbers, the grading view's selection). *)
Section Actions.
Context {Page File : Type}.
Variable load : File -> Result (PdfLib.PDFDocument Page).
Variable blobToBase64 : @PdfSplittingService.Blob Page -> Result string.

Inductive Action : Type :=
(* RubricSetup *)
| RubricFileUpload (generated : Result (list RubricItem.t))
| AddQuestion (now : Z)
| UpdateQuestion (id : string) (fv : RubricSetup.FieldValue)
| RemoveQuestion (id : string)
(* StudentSetup *)
| SubmissionUpload (file : StudentSetup.UploadedFile) (studentId : option string)
                   (now : Z) (random : string)
| RosterImport (parsed : Result (list string)) (now : nat -> Z)
| FinalizeSplit (bulkFile : option File) (detectedRanges : list SplitRange.t)
                (now : nat -> Z) (random : nat -> string)
| RemoveStudent (id : string)
| ClearAll
(* GradingView *)
| GradeChange (selectedStudentId : option string) (questionId : string)
              (gradeData : PartialGrade.t)
| KeyChange (selectedStudentId : option string) (questionId : string)
            (newKey : string)
| AiGrading (selectedStudentId : option string)
            (response : Result (list AiGradingResult.t))
| AddCannedComment (text : string).

(** The assessment passed to [onUpdate], if the handler calls it. *)
Definition perform (assessment : Assessment.t) (action : Action)
  : option Assessment.t :=
  match action with
  | RubricFileUpload generated => RubricSetup.handleFileUpload assessment generated
  | AddQuestion now => Some (RubricSetup.addQuestion assessment now)
  | UpdateQuestion id fv => Some (RubricSetup.updateQuestion assessment id fv)
  | RemoveQuestion id => Some (RubricSetup.removeQuestion assessment id)
  | SubmissionUpload file studentId now random =>
      Some (StudentSetup.handleStudentSubmissionUpload assessment file studentId
              now random)
  | RosterImport parsed now => StudentSetup.handleRosterImport assessment parsed now
  | FinalizeSplit bulkFile detectedRanges now random =>
      StudentSetup.finalizeSplit load blobToBase64 assessment bulkFile
        detectedRanges now random
  | RemoveStudent id => Some (StudentSetup.removeStudent assessment id)
  | ClearAll => Some (StudentSetup.clearAll assessment)
  | GradeChange selectedStudentId questionId gradeData =>
      GradingView.handleGradeChange assessment selectedStudentId questionId gradeData
  | KeyChange selectedStudentId questionId newKey =>
      Some (GradingView.handleKeyChange assessment selectedStudentId questionId newKey)
  | AiGrading selectedStudentId response =>
      GradingView.runAiGrading assessment selectedStudentId response
  | AddCannedComment text => GradingView.addCannedComment assessment text
  end.

(** The assessments the application can hold: the initial one and what
    the actions make of it. *)
Inductive reachable : Assessment.t -> Prop :=
| reachable_initial created : reachable (initialAssessment created)
| reachable_perform assessment action assessment' :
    reachable assessment ->
    perform assessment action = Some assessment' ->
    reachable assessment'.
End Actions.

End App.

(** ** services/geminiService.ts

    The remote model, the JSON parser, the clock and the console are the
    environment of the four operations. The prompt and schema constants are
    named, not spelled out. *)

Module GeminiService.

Inductive Prompt : Type :=
| RubricPrompt
| RosterPrompt
| RangesPrompt
| GradingPrompt (rubricContext : string).

Inductive Schema : Type :=
| RubricSchema
| NamesSchema
| RangesSchema
| ResultsSchema.

(** The argument of [ai.models.generateContent]. *)
Record Request : Type := mkRequest {
  model : string;
  mimeType : string;
  data : string;
  text : Prompt;
  responseSchema : Schema;
  systemInstruction : option string
}.

Record Response : Type := mkResponse {
  responseText : option string
}.

(** An item of the parsed rubric response, before it is given an id. *)
Module GeneratedItem.
Record t : Type := mk {
  id : option string;
  question : string;
  maxPoints : Z;
  criteria : string;
  type : QuestionType;
  correctAnswer : option string
}.
End GeneratedItem.

Module StudentRange.
Record t : Type := mk {
  studentName : string;
  startPage : Z;
  endPage : Z
}.
End StudentRange.

(** What the operations leave behind: the requests sent to the model, in
    order, and the lines written with [console.error]. *)
Record World : Type := mkWorld {
  requests : list Request;
  console : list (string * Exn)
}.

(** A computation that reads and extends the world and returns or throws. *)
Definition Gateway (A : Type) : Type := World -> Result A * World.

Global Instance gateway_ret : MRet Gateway :=
  fun A (a : A) w => (Ok a, w).

Global Instance gateway_bind : MBind Gateway :=
  fun A B (k : A -> Gateway B) (m : Gateway A) w =>
    match m w with
    | (Ok a, w') => k a w'
    | (Throw e, w') => (Throw e, w')
    end.

Definition throw {A : Type} (e : Exn) : Gateway A :=
  fun w => (Throw e, w).

(** [try { body } catch (error) { handler }] *)
Definition tryCatch {A : Type} (body : Gateway A) (handler : Exn -> Gateway A)
  : Gateway A :=
  fun w =>
    match body w with
    | (Ok a, w') => (Ok a, w')
    | (Throw e, w') => handler e w'
    end.

(** A call that returns or throws without touching the world. *)
Definition lift {A : Type} (r : Result A) : Gateway A :=
  fun w => (r, w).

Definition consoleError (label : string) (error : Exn) : Gateway unit :=
  fun w => (Ok tt, mkWorld (requests w) (console w ++ [(label, error)])).

Section Service.
(** [process.env.API_KEY || ''] *)
Variable apiKey : string.
(** The remote model: how call number [n] (counting from 0) of
    [ai.models.generateContent] ends, given its request. *)
Variable remote : nat -> Request -> Result Response.
(** [JSON.parse] at the four result types. *)
Variable parseRubric : string -> Result (list GeneratedItem.t).
Variable parseNames : string -> Result (list string).
Variable parseRanges : string -> Result (list StudentRange.t).
Variable parseResults : string -> Result (list AiGradingResult.t).
(** [JSON.stringify] of the rubric context. *)
Variable stringifyRubric : list RubricItem.t -> string.
(** The reading of [Date.now()] when item number [index] is given its id. *)
Variable dateNow : nat -> Z.

Definition generateContent (request : Request) : Gateway Response :=
  fun w =>
    (remote (length (requests w)) request,
     mkWorld (requests w ++ [request]) (console w)).

Definition rubricRequest (base64Data mimeType : string) : Request :=
  mkRequest "gemini-2.5-flash" mimeType base64Data RubricPrompt RubricSchema
    (Some "You are an educational assessment specialist. Parse answer keys accurately.").

Definition generateRubricFromPDF (base64Data mimeType : string)
  : Gateway (list RubricItem.t) :=
  if negb (truthy apiKey) then throw (Error "API Key not found")
  else
    tryCatch
      (response ← generateContent (rubricRequest base64Data mimeType);
       let text := responseText response in
       match text with
       | None => mret []
       | Some text =>
           if negb (truthy text) then mret []
           else
             data ← lift (parseRubric text);
             (* Add unique IDs *)
             mret (imap
                     (fun index item =>
                        RubricItem.mk
                          (default ("q-" +:+ pretty (dateNow index) +:+ "-" +:+ pretty index)
                                   (GeneratedItem.id item))
                          (GeneratedItem.question item)
                          (GeneratedItem.maxPoints item)
                          (GeneratedItem.criteria item)
                          (GeneratedItem.type item)
                          (GeneratedItem.correctAnswer item))
                     data)
       end)
      (fun error =>
         consoleError "Gemini Rubric Generation Error:" error;;
         throw error).

Definition rosterRequest (base64Data mimeType : string) : Request :=
  mkRequest "gemini-2.5-flash" mimeType base64Data RosterPrompt NamesSchema
    (Some "You are a helpful assistant that extracts data from documents. Extract full names of people found in the list/table.").

Definition parseStudentRoster (base64Data mimeType : string)
  : Gateway (list string) :=
  if negb (truthy apiKey) then throw (Error "API Key not found")
  else
    tryCatch
      (response ← generateContent (rosterRequest base64Data mimeType);
       let text := responseText response in
       match text with
       | None => mret []
       | Some text =>
           if negb (truthy text) then mret []
           else lift (parseNames text)
       end)
      (fun error =>
         consoleError "Gemini Roster Parsing Error:" error;;
         throw error).

Definition rangesRequest (base64Data mimeType : string) : Request :=
  mkRequest "gemini-2.5-flash" mimeType base64Data RangesPrompt RangesSchema None.

Definition identifyStudentRanges (base64Data mimeType : string)
  : Gateway (list StudentRange.t) :=
  if negb (truthy apiKey) then throw (Error "API Key not found")
  else
    tryCatch
      (response ← generateContent (rangesRequest base64Data mimeType);
       let text := responseText response in
       match text with
       | None => mret []
       | Some text =>
           if negb (truthy text) then mret []
           else lift (parseRanges text)
       end)
      (fun error =>
         consoleError "Gemini Split Analysis Error:" error;;
         throw error).

Definition gradingRequest (rubric : list RubricItem.t)
  (studentBase64 mimeType : string) : Request :=
  (* Filter rubric to send relevant info *)
  let rubricContext := stringifyRubric rubric in
  mkRequest "gemini-2.5-flash" mimeType studentBase64 (GradingPrompt rubricContext)
    ResultsSchema None.

Definition gradeStudentSubmission (rubric : list RubricItem.t)
  (studentBase64 mimeType : string) : Gateway (list AiGradingResult.t) :=
  if negb (truthy apiKey) then throw (Error "API Key not found")
  else
    tryCatch
      (response ← generateContent (gradingRequest rubric studentBase64 mimeType);
       let text := responseText response in
       match text with
       | None => mret []
       | Some text =>
           if negb (truthy text) then mret []
           else lift (parseResults text)
       end)
      (fun error =>
         consoleError "Gemini Grading Error:" error;;
         throw error).

(** *** The contract of an operation, used in the statements

    [operation] sends [request] and decodes the response text with
    [decode]. Started in any world [w]:
    - without a credential it throws the configuration error at once:
      no request is sent and nothing is logged;
    - with a credential it sends exactly one request, whatever the
      outcome, and
      - when the call fails with [e], it throws [e];
      - when the response has no text or an empty text, it returns [[]];
      - when decoding the text fails with [e], it throws [e];
      - otherwise it returns the decoded value. *)
Definition meetsContract {A : Type} (operation : Gateway (list A))
  (request : Request) (decode : string -> Result (list A)) : Prop :=
  forall w : World,
    (apiKey = "" ->
       operation w = (Throw (Error "API Key not found"), w))
    /\ (apiKey <> "" ->
          requests (operation w).2 = requests w ++ [request]
          /\ match remote (length (requests w)) request with
             | Throw e => (operation w).1 = Throw e
             | Ok response =>
                 match responseText response with
                 | None => (operation w).1 = Ok []
                 | Some text =>
                     if decide (text = "") then (operation w).1 = Ok []
                     else
                       match decode text with
                       | Throw e => (operation w).1 = Throw e
                       | Ok value => (operation w).1 = Ok value
                       end
                 end
             end).

(** How [generateRubricFromPDF] decodes: [JSON.parse], then the ids. *)
Definition decodeRubric (text : string) : Result (list RubricItem.t) :=
  match parseRubric text with
  | Throw e => Throw e
  | Ok data =>
      Ok (imap
            (fun index item =>
               RubricItem.mk
                 (default ("q-" +:+ pretty (dateNow index) +:+ "-" +:+ pretty index)
                          (GeneratedItem.id item))
                 (GeneratedItem.question item)
                 (GeneratedItem.maxPoints item)
                 (GeneratedItem.criteria item)
                 (GeneratedItem.type item)
                 (GeneratedItem.correctAnswer item))
            data)
  end.
End Service.

End GeminiService.

(** ** The life of a student record, as the statements speak of it *)

Module Lifecycle.

Global Instance QuestionGrade_eq_dec : EqDecision QuestionGrade.t.
Proof. solve_decision. Defined.

(** [s'] is the record of the student [s] after an action: it has the id
    of [s]; it is graded if [s] was; and it is graded if its grades are not
    those of [s]. *)
Definition keepsGraded (s s' : StudentSubmission.t) : Prop :=
  StudentSubmission.id s' = StudentSubmission.id s
  /\ (StudentSubmission.status s = GRADED -> StudentSubmission.status s' = GRADED)
  /\ (StudentSubmission.grades s' <> StudentSubmission.grades s ->
      StudentSubmission.status s' = GRADED).

(** A record as it is created: pending, without grades, total 0. *)
Definition freshStudent (s : StudentSubmission.t) : Prop :=
  StudentSubmission.status s = PENDING
  /\ StudentSubmission.grades s = ∅
  /\ StudentSubmission.totalScore s = 0.

(** What an action does to the list of students: it updates records in
    place, or appends new records, or removes records. *)
Inductive studentsEvolve (students students' : list StudentSubmission.t) : Prop :=
| evolve_updated :
    Forall2 keepsGraded students students' ->
    studentsEvolve students students'
| evolve_added newStudents :
    students' = students ++ newStudents ->
    Forall freshStudent newStudents ->
    studentsEvolve students students'
| evolve_removed :
    students' `sublist_of` students ->
    studentsEvolve students students'.

(** A pending student has no grade. *)
Definition pendingUngraded (a : Assessment.t) : Prop :=
  forall s,
    s ∈ Assessment.students a ->
    StudentSubmission.status s = PENDING ->
    StudentSubmission.grades s = ∅.

End Lifecycle.

(** ** Concrete inputs

    A small class used to run the handlers: a keyed multiple-choice item
    worth 5 points, a free-response item worth 10, and two students with an
    uploaded submission. *)

Module Examples.
Import GradingView.

Definition q1 : RubricItem.t := RubricItem.mk "q1" "Q1" 5 "" MCQ (Some "B").
Definition q2 : RubricItem.t := RubricItem.mk "q2" "Q2" 10 "Explain." FRQ None.

Definition ann : StudentSubmission.t :=
  StudentSetup.newStudent "s1" "Ann" (Some "JVBERi0=") "application/pdf" "ann.pdf".
Definition bob : StudentSubmission.t :=
  StudentSetup.newStudent "s2" "Bob" (Some "JVBERi0=") "application/pdf" "bob.pdf".

Definition quiz : Assessment.t :=
  Assessment.mk "draft-1" "Quiz" "" DRAFT [q1; q2] [ann; bob] ["Great work!"] 0.

Definition answer (letter : string) : PartialGrade.t :=
  PartialGrade.mk None None (Some letter) None.
Definition points (n : Z) : PartialGrade.t :=
  PartialGrade.mk (Some n) None None None.

(** Ann's essay is graded by hand with 7 points. *)
Definition essayGraded : Assessment.t :=
  default quiz (handleGradeChange quiz (Some "s1") "q2" (points 7)).

(** The model then returns a result for the multiple-choice item only. *)
Definition aiResults : list AiGradingResult.t :=
  [AiGradingResult.mk "q1" 3 "Correct." (Some "b")].

(** Ann and Bob both answer [c] to the item keyed [B]. *)
Definition annAnswered : Assessment.t :=
  default quiz (handleGradeChange quiz (Some "s1") "q1" (answer "c")).
Definition bothAnswered : Assessment.t :=
  default annAnswered (handleGradeChange annAnswered (Some "s2") "q1" (answer "c")).
(** With Ann selected, the key of the item is changed to [C]. *)
Definition keyChanged : Assessment.t :=
  handleKeyChange bothAnswered (Some "s1") "q1" "C".

(** The 4-page source and the range list of the splitting scenario. *)
Definition loadPages (file : list nat) : Result (list nat) := Ok file.
Definition fourPages : list nat := [101; 102; 103; 104]%nat.
Definition aliceBob : list SplitRange.t :=
  [SplitRange.mk "Alice" 1 2; SplitRange.mk "Bob" 3 2].
Definition fourRanges : list SplitRange.t :=
  [SplitRange.mk "Alice" 1 2; SplitRange.mk "Bob" 3 2; SplitRange.mk "Cy" 4 9;
   SplitRange.mk "Di" 7 8].

(** A session: the application starts, a submission is uploaded (which
    creates a student), and the student is graded by hand. *)
Definition toBase64 (blob : @PdfSplittingService.Blob nat) : Result string :=
  Ok "JVBERi0=".
Definition uploaded : StudentSetup.UploadedFile :=
  StudentSetup.mkUploadedFile "ann.pdf" "application/pdf" "JVBERi0=".
Definition started : Assessment.t := App.initialAssessment 0.
Definition upload : @App.Action (list nat) :=
  App.SubmissionUpload uploaded None 17 "0.5".
Definition withAnn : Assessment.t :=
  default started (App.perform loadPages toBase64 started upload).
Definition gradeAnn : @App.Action (list nat) :=
  App.GradeChange (Some "s-17-0.5") "q1" (points 3).
Definition annGraded : Assessment.t :=
  default withAnn (App.perform loadPages toBase64 withAnn gradeAnn).

(** An environment of the AI gateway: the model is unreachable, and
    nothing parses. *)
Definition unreachable (n : nat) (request : GeminiService.Request)
  : Result GeminiService.Response :=
  Throw (Rejection "503 Service Unavailable").
Definition noParse {A : Type} (text : string) : Result (list A) :=
  Throw (SyntaxError "Unexpected end of JSON input").
Definition printRubric (rubric : list RubricItem.t) : string := "[]".
Definition clock (index : nat) : Z := 17.
Definition quiet : GeminiService.World := GeminiService.mkWorld [] [].
End Examples.

(** ** services/pdfSplittingService.ts: [blobToBase64] *)

Module FileReading.

(** [s.split(sep)] for a separator of one character. *)
Fixpoint split (sep : ascii) (s : string) : list string :=
  match s with
  | EmptyString => [EmptyString]
  | String c s' =>
      if Ascii.eqb c sep then EmptyString :: split sep s'
      else
        match split sep s' with
        | piece :: pieces => String c piece :: pieces
        | [] => [String c EmptyString]
        end
  end.

(** [result.split(',')[1]]: [undefined] when [result] has no comma. *)
Definition afterComma (result : string) : option string :=
  split "," result !! 1%nat.

Section Reader.
Context {Blob : Type}.
(** [FileReader.readAsDataURL]: the data URL of the blob ([reader.result] at
    [onloadend]), or the error event passed to [reject]. *)
Variable readAsDataURL : Blob -> Result string.

Definition blobToBase64 (blob : Blob) : Result (option string) :=
  match readAsDataURL blob with
  | Ok result =>
      (* Remove data:application/pdf;base64, prefix *)
      let base64 := afterComma result in
      Ok base64
  | Throw e => Throw e
  end.
End Reader.

End FileReading.

(** ** The results view ([Analytics])

    The percentage of a student is a floating-point number; the test
    [(totalScore / maxScore) * 100 <= threshold] is a parameter of the
    embedding. The average ([toFixed]) is not embedded. *)

Module Analytics.

Definition gradedStudents (assessment : Assessment.t) : list StudentSubmission.t :=
  filter (fun s => StudentSubmission.status s = GRADED) (Assessment.students assessment).

(** [rubric.reduce((acc, r) => acc + r.maxPoints, 0)] *)
Definition maxScore (assessment : Assessment.t) : Z :=
  foldl (fun acc r => acc + RubricItem.maxPoints r) 0 (Assessment.rubric assessment).

Record Bar : Type := mkBar {
  name : string;
  count : nat
}.

Definition emptyDistribution : list Bar :=
  [mkBar "0-20%" 0; mkBar "21-40%" 0; mkBar "41-60%" 0; mkBar "61-80%" 0;
   mkBar "81-100%" 0].

(** [distributionData[i].count++] *)
Definition increment (i : nat) (distributionData : list Bar) : list Bar :=
  alter (fun bar => mkBar (name bar) (S (count bar))) i distributionData.

Section Distribution.
(** [percentAtMost totalScore maxScore threshold]: the outcome of
    [(totalScore / maxScore) * 100 <= threshold] on doubles. *)
Variable percentAtMost : Z -> Z -> Z -> bool.

(** The index of the bar a graded student is counted in. When [maxScore] is
    not positive the percentage is [0], which is at most 20. *)
Definition barOf (maxScore : Z) (s : StudentSubmission.t) : nat :=
  if 0 <? maxScore then
    let totalScore := StudentSubmission.totalScore s in
    if percentAtMost totalScore maxScore 20 then 0%nat
    else if percentAtMost totalScore maxScore 40 then 1%nat
    else if percentAtMost totalScore maxScore 60 then 2%nat
    else if percentAtMost totalScore maxScore 80 then 3%nat
    else 4%nat
  else 0%nat.

Definition distributionData (assessment : Assessment.t) : list Bar :=
  foldl (fun data s => increment (barOf (maxScore assessment) s) data)
        emptyDistribution (gradedStudents assessment).
End Distribution.

(** [Math.max(...gradedStudents.map(s => s.totalScore), 0)] *)
Definition topScore (assessment : Assessment.t) : Z :=
  foldr Z.max 0 (StudentSubmission.totalScore <$> gradedStudents assessment).

(** *** [downloadCSV]: the text of the export, before [encodeURI] *)

Definition quote : ascii := "034"%char.
Definition newline : ascii := "010"%char.

(** The template literal that puts [s] between two double quotes. *)
Definition quoted (s : string) : string :=
  String quote (s +:+ String quote EmptyString).

(** [s.replace] with the global pattern of one double quote and the
    replacement of two: every double quote is doubled. *)
Fixpoint doubleQuotes (s : string) : string :=
  match s with
  | EmptyString => EmptyString
  | String c s' =>
      if Ascii.eqb c quote then String quote (String quote (doubleQuotes s'))
      else String c (doubleQuotes s')
  end.

(** [cells.join(sep)] *)
Fixpoint join (sep : string) (cells : list string) : string :=
  match cells with
  | [] => EmptyString
  | [cell] => cell
  | cell :: cells' => cell +:+ sep +:+ join sep cells'
  end.

Definition questionHeaders (rubric : list RubricItem.t) : string :=
  join ","
    ((fun r => quoted (RubricItem.question r +:+ " (" +:+ pretty (RubricItem.maxPoints r)
                         +:+ ")")) <$> rubric).

Definition csvHeader (rubric : list RubricItem.t) : string :=
  "data:text/csv;charset=utf-8,Student Name,Total Score," +:+ questionHeaders rubric
    +:+ ",Comments" +:+ String newline EmptyString.

(** [student.grades[r.id]?.score || 0] *)
Definition scoreCell (student : StudentSubmission.t) (r : RubricItem.t) : Z :=
  match StudentSubmission.grades student !! RubricItem.id r with
  | Some g => QuestionGrade.score g
  | None => 0
  end.

(** The comment of the grade for [r], or the empty string, with its double
    quotes doubled, between double quotes. *)
Definition commentCell (student : StudentSubmission.t) (r : RubricItem.t) : string :=
  quoted (doubleQuotes
            (match StudentSubmission.grades student !! RubricItem.id r with
             | Some g => QuestionGrade.comment g
             | None => EmptyString
             end)).

Definition csvRow (rubric : list RubricItem.t) (student : StudentSubmission.t) : string :=
  let qScores := join "," ((fun r => pretty (scoreCell student r)) <$> rubric) in
  let comments := join " | " (commentCell student <$> rubric) in
  quoted (StudentSubmission.studentName student) +:+ ","
    +:+ pretty (StudentSubmission.totalScore student) +:+ ","
    +:+ qScores +:+ "," +:+ quoted comments +:+ String newline EmptyString.

Definition csvContent (assessment : Assessment.t) : string :=
  foldl (fun csvContent student => csvContent +:+ csvRow (Assessment.rubric assessment) student)
        (csvHeader (Assessment.rubric assessment))
        (Assessment.students assessment).


End Analytics.

(** ** The assessment over time

    [App] keeps the assessment in a state variable and hands it, with its
    setter [onUpdate], to the views. A handler computes from the
    [assessment] of the render it was created in. The handlers that call
    [onUpdate] in a [FileReader] callback or after an [await] write when the
    callback runs: what the user has updated in between is not in the
    assessment they read. *)

Module Session.
Import App.

Section Events.
Context {Page File : Type}.
Variable load : File -> Result (PdfLib.PDFDocument Page).
Variable blobToBase64 : @PdfSplittingService.Blob Page -> Result string.

(** The handlers that call [onUpdate] in a callback: the rubric upload,
    the submission upload, the roster import, the bulk split and the AI
    grading. *)
Definition completesLater (action : @Action File) : bool :=
  match action with
  | RubricFileUpload _ | SubmissionUpload _ _ _ _ | RosterImport _ _
  | FinalizeSplit _ _ _ _ | AiGrading _ _ => true
  | _ => false
  end.

(** What happens to the state: a handler runs to its call of [onUpdate] on
    the assessment held ([Now]), or a handler started when the assessment
    of [updatesAgo] updates ago was held reaches its call of [onUpdate]
    ([Later]). *)
Inductive Event : Type :=
| Now (action : @Action File)
| Later (updatesAgo : nat) (action : @Action File).

(** [onUpdate] with what the handler makes of the assessment it read, if it
    calls it; [past] lists the assessments held so far, the latest first. *)
Definition emit (past : list Assessment.t) (read : option Assessment.t)
  (action : @Action File) : list Assessment.t :=
  match read ≫= (fun assessment => perform load blobToBase64 assessment action) with
  | Some assessment' => assessment' :: past
  | None => past
  end.

Definition after (past : list Assessment.t) (event : Event) : list Assessment.t :=
  match event with
  | Now action => emit past (head past) action
  | Later updatesAgo action =>
      if completesLater action then emit past (past !! updatesAgo) action else past
  end.

(** The assessments held in a session, the latest first. *)
Definition session (created : Z) (events : list Event) : list Assessment.t :=
  foldl after [initialAssessment created] events.
End Events.

End Session.

(** ** Further notions the statements use *)

Module Reference.

(** The character [c] occurs in the string [s]. *)
Definition occurs (c : ascii) (s : string) : Prop :=
  In c (list_ascii_of_string s).

(** The ranges tile the pages [next .. last]: the first starts at [next],
    each is non-empty and starts right after the one before, and the last
    ends at [last]. *)
Fixpoint tiles (next : Z) (ranges : list SplitRange.t) (last : Z) : Prop :=
  match ranges with
  | [] => next = last + 1
  | range :: ranges' =>
      SplitRange.startPage range = next
      /\ next <= SplitRange.endPage range
      /\ tiles (SplitRange.endPage range + 1) ranges' last
  end.

(** How a reader of CSV takes the content of a quoted cell: two double
    quotes in a row stand for one. *)
Fixpoint undoubleQuotes (s : string) : string :=
  match s with
  | EmptyString => EmptyString
  | String c rest =>
      if Ascii.eqb c Analytics.quote then
        match rest with
        | String d rest' =>
            if Ascii.eqb d Analytics.quote then String c (undoubleQuotes rest')
            else String c (String d (undoubleQuotes rest'))
        | EmptyString => String c EmptyString
        end
      else String c (undoubleQuotes rest)
  end.

(** A list of characters that does not start with white space. *)
Definition startsClean (l : list ascii) : Prop :=
  match l with
  | [] => True
  | c :: _ => isWhiteSpace c = false
  end.

(** Every student's cached total is the sum of the scores of the student's
    grades. *)
Definition totalsConsistent (a : Assessment.t) : Prop :=
  forall s,
    s ∈ Assessment.students a ->
    StudentSubmission.totalScore s = GradingView.sumScores (StudentSubmission.grades s).

(** [s'] is the record of the student [s] after [action], for an action
    that updates the records in place: it has the id of [s], and it is
    graded exactly when [s] was graded, or its grades are not those of [s],
    or the action applied AI results to the id of [s]. *)
Definition statusFollows {File : Type} (action : @App.Action File)
  (s s' : StudentSubmission.t) : Prop :=
  StudentSubmission.id s' = StudentSubmission.id s
  /\ (StudentSubmission.status s' = GRADED
      <-> StudentSubmission.status s = GRADED
          \/ StudentSubmission.grades s' <> StudentSubmission.grades s
          \/ exists response,
               action = App.AiGrading (Some (StudentSubmission.id s)) response).

End Reference.

Module MoreExamples.

Definition pageTiling : list SplitRange.t :=
  [SplitRange.mk "Alice" 1 2; SplitRange.mk "Bob" 3 3; SplitRange.mk "Cy" 4 4].

Definition belowFirstPage : list SplitRange.t :=
  [SplitRange.mk "Alice" 1 2; SplitRange.mk "Bob" 0 1].

Definition readPdf (blob : list nat) : Result string :=
  Ok "data:application/pdf;base64,JVBERi0=".

(** The model answers, without text or with a text that parses to two
    items without id. *)
Definition silent (n : nat) (request : GeminiService.Request)
  : Result GeminiService.Response :=
  Ok (GeminiService.mkResponse (Some "")).
Definition answering (n : nat) (request : GeminiService.Request)
  : Result GeminiService.Response :=
  Ok (GeminiService.mkResponse (Some "[...]")).
Definition twoGenerated : list GeminiService.GeneratedItem.t :=
  [GeminiService.GeneratedItem.mk None "1" 5 "" MCQ (Some "B");
   GeminiService.GeneratedItem.mk None "2" 10 "Explain." FRQ None].
Definition twoItems (text : string) : Result (list GeminiService.GeneratedItem.t) :=
  Ok twoGenerated.


(** A grading session: a question is added and two submissions are
    uploaded; AI grading of the first student is started; while the call is
    awaited the second student is graded by hand; then the call returns and
    [runAiGrading] goes on with the assessment it read one update ago. *)
Definition bobUploaded : StudentSetup.UploadedFile :=
  StudentSetup.mkUploadedFile "bob.pdf" "application/pdf" "JVBERi0=".
Definition overlap : list (@Session.Event (list nat)) :=
  [Session.Now (App.AddQuestion 5);
   Session.Now (App.SubmissionUpload Examples.uploaded None 17 "0.5");
   Session.Now (App.SubmissionUpload bobUploaded None 18 "0.25");
   Session.Now (App.GradeChange (Some "s-18-0.25") "q-5" (Examples.points 1));
   Session.Later 1
     (App.AiGrading (Some "s-17-0.5") (Ok [AiGradingResult.mk "q-5" 1 "Good." None]))].

End MoreExamples.

(** * Verification *)

(** ** The PDF splitter *)

Module PdfSplittingProofs.
Import PdfLib PdfSplittingService.

Section Proofs.
Context {Page File : Type}.
Variable load : File -> Result (PDFDocument Page).

Implicit Types (doc : PDFDocument Page) (range : SplitRange.t).

Lemma push_loop_filter (pageCount : Z) (l acc : list Z) :
  foldl (fun pageIndices i =>
           if i - 1 <? pageCount then pageIndices ++ [i - 1] else pageIndices)
        acc l
  = acc ++ filter (fun j => j < pageCount) ((fun i => i - 1) <$> l).
Proof.
  revert acc. induction l as [|i l IH]; intros acc; simpl.
  - by rewrite app_nil_r.
  - rewrite IH, filter_cons. destruct (Z.ltb_spec (i - 1) pageCount).
    + rewrite decide_True by done. by rewrite <- app_assoc.
    + rewrite decide_False by lia. done.
Qed.

(** The indices collected for a range: those of its pages, in increasing
    order, without the ones at or beyond the page count. *)
Lemma pageIndices_filter range pageCount :
  pageIndices range pageCount
  = filter (fun j => j < pageCount)
      ((fun i => i - 1) <$>
         seqZ (SplitRange.startPage range)
              (SplitRange.endPage range - SplitRange.startPage range + 1)).
Proof. unfold pageIndices. by rewrite push_loop_filter. Qed.

Lemma elem_of_pageIndices range pageCount j :
  j ∈ pageIndices range pageCount
  <-> (SplitRange.startPage range - 1 <= j <= SplitRange.endPage range - 1
       /\ j < pageCount).
Proof.
  rewrite pageIndices_filter, list_elem_of_filter, list_elem_of_fmap.
  split.
  - intros [Hlt (i & -> & Hi)]. apply elem_of_seqZ in Hi. lia.
  - intros [Hj Hlt]. split; [done|]. exists (j + 1). split; [lia|].
    apply elem_of_seqZ. lia.
Qed.

Lemma pageIndices_empty_range range pageCount :
  SplitRange.endPage range < SplitRange.startPage range ->
  pageIndices range pageCount = [].
Proof.
  intros Hlt. rewrite pageIndices_filter, seqZ_nil by lia. done.
Qed.

(** Copying the clipped indices of [k] pages from offset [s] on. *)
Lemma copy_clipped doc (k s : nat) :
  mapM (pageAt doc)
       (filter (fun j => j < getPageCount doc)
               ((fun i => i - 1) <$> seqZ (Z.of_nat s + 1) (Z.of_nat k)))
  = Some (take k (drop s doc)).
Proof.
  revert s. induction k as [|k IH]; intros s.
  - rewrite seqZ_nil by lia. simpl. by rewrite take_0.
  - rewrite seqZ_cons by lia. rewrite fmap_cons, filter_cons.
    replace (Z.succ (Z.of_nat s + 1)) with (Z.of_nat (S s) + 1) by lia.
    replace (Z.pred (Z.of_nat (S k))) with (Z.of_nat k) by lia.
    unfold getPageCount in *.
    destruct (decide (Z.of_nat s + 1 - 1 < Z.of_nat (length doc))) as [Hin|Hout].
    + destruct (lookup_lt_is_Some_2 doc s ltac:(lia)) as [x Hx].
      rewrite (drop_S _ _ _ Hx). simpl. rewrite IH.
      unfold pageAt. destruct (Z.leb_spec 0 (Z.of_nat s + 1 - 1)); [|lia].
      replace (Z.to_nat (Z.of_nat s + 1 - 1)) with s by lia.
      rewrite Hx. done.
    + rewrite IH. rewrite !drop_ge by lia. by rewrite !take_nil.
Qed.

Lemma foldl_addPage (copiedPages subDocument : list Page) :
  foldl addPage subDocument copiedPages = subDocument ++ copiedPages.
Proof.
  revert subDocument. induction copiedPages as [|p l IH]; intros d; simpl.
  - by rewrite app_nil_r.
  - rewrite IH. unfold addPage. by rewrite <- app_assoc.
Qed.

(** With no page below page 1 asked for, copying succeeds and yields the
    source's pages of the range. *)
Lemma copyPages_pageIndices doc range :
  1 <= SplitRange.startPage range ->
  copyPages doc (pageIndices range (getPageCount doc)) = Ok (sourcePages doc range).
Proof.
  intros Hstart. unfold copyPages, sourcePages. rewrite pageIndices_filter.
  set (s := Z.to_nat (SplitRange.startPage range - 1)).
  set (k := Z.to_nat (SplitRange.endPage range - SplitRange.startPage range + 1)).
  replace (SplitRange.startPage range) with (Z.of_nat s + 1) by lia.
  destruct (Z.le_gt_cases (SplitRange.endPage range - (Z.of_nat s + 1) + 1) 0) as [Hn|Hn].
  - rewrite seqZ_nil by lia. simpl.
    replace k with 0%nat by lia. by rewrite take_0.
  - replace (SplitRange.endPage range - (Z.of_nat s + 1) + 1) with (Z.of_nat k) by lia.
    by rewrite copy_clipped.
Qed.

Lemma length_pageIndices doc range :
  1 <= SplitRange.startPage range ->
  length (pageIndices range (getPageCount doc)) = length (sourcePages doc range).
Proof.
  intros Hstart. pose proof (copyPages_pageIndices doc range Hstart) as Hc.
  unfold copyPages in Hc.
  destruct (mapM _ _) as [copied|] eqn:Hm; [|done].
  apply length_mapM in Hm. congruence.
Qed.

(** The loop body adds the entry of the range, or nothing. *)
Lemma splitRange_entryOf doc range :
  startsInDocument range ->
  splitRange doc range = Ok (entryOf doc range).
Proof.
  intros [Hstart|Hempty]; unfold splitRange, entryOf.
  - rewrite length_pageIndices, copyPages_pageIndices by done.
    destruct (sourcePages doc range) as [|p ps] eqn:Hp; simpl; [done|].
    by rewrite foldl_addPage.
  - rewrite pageIndices_empty_range by done. simpl.
    unfold sourcePages.
    replace (Z.to_nat _) with 0%nat by lia. by rewrite take_0.
Qed.

Lemma splitLoop_omap doc ranges results :
  Forall startsInDocument ranges ->
  splitLoop doc ranges results = Ok (results ++ omap (entryOf doc) ranges).
Proof.
  intros Hall. revert results.
  induction Hall as [|range ranges Hr _ IH]; intros results; simpl.
  - by rewrite app_nil_r.
  - rewrite splitRange_entryOf by done.
    destruct (entryOf doc range) as [r|]; rewrite IH; [|done].
    by rewrite <- app_assoc.
Qed.

Lemma sourcePages_valid doc range :
  validRange doc range ->
  Z.of_nat (length (sourcePages doc range))
  = SplitRange.endPage range - SplitRange.startPage range + 1
  /\ forall k : nat,
       (k < length (sourcePages doc range))%nat ->
       sourcePages doc range !! k
       = doc !! (Z.to_nat (SplitRange.startPage range - 1) + k)%nat.
Proof.
  intros (Hs & He & Hc). unfold sourcePages, getPageCount in *.
  rewrite length_take, length_drop. split; [lia|].
  intros k Hk. rewrite lookup_take_lt by lia. by rewrite lookup_drop.
Qed.

Lemma entryOf_valid doc range :
  validRange doc range ->
  entryOf doc range
  = Some (mkSplitResult (SplitRange.studentName range)
            (mkBlob (sourcePages doc range) "application/pdf")).
Proof.
  intros Hv. destruct (sourcePages_valid doc range Hv) as [Hlen _].
  unfold entryOf. destruct Hv as (Hs & He & Hc).
  destruct (sourcePages doc range); [simpl in Hlen; lia|done].
Qed.

Lemma validRange_startsInDocument doc range :
  validRange doc range -> startsInDocument range.
Proof. intros (Hs & _). by left. Qed.

Lemma entryOf_nonempty doc range res :
  entryOf doc range = Some res -> saved (blob res) <> [].
Proof.
  unfold entryOf. destruct (sourcePages doc range) eqn:Hp; [done|].
  intros [= <-]. done.
Qed.

(** A range that asks for a page below page 1 makes the copy throw: the
    index [startPage - 1] is negative, passes the bound check and names no
    page. *)
Lemma splitRange_below_first_page doc range :
  ~ startsInDocument range ->
  exists e, splitRange doc range = Throw e.
Proof.
  intros Hbad. unfold startsInDocument in Hbad.
  assert (Hin : SplitRange.startPage range - 1
                ∈ pageIndices range (getPageCount doc)).
  { apply elem_of_pageIndices. unfold getPageCount. lia. }
  unfold splitRange, copyPages.
  destruct (pageIndices range (getPageCount doc)) as [|j l] eqn:Hidx;
    [by apply elem_of_nil in Hin|].
  change (0 <? length (j :: l))%nat with true. cbv iota.
  destruct (mapM (pageAt doc) (j :: l)) as [copied|] eqn:Hm; [|by eexists].
  apply mapM_Some_1 in Hm.
  apply list_elem_of_lookup in Hin as [i Hi].
  destruct (Forall2_lookup_l _ _ _ _ _ Hm Hi) as (page & _ & Hpage).
  unfold pageAt in Hpage.
  destruct (Z.leb_spec 0 (SplitRange.startPage range - 1)); [lia|done].
Qed.

Lemma splitLoop_below_first_page doc ranges results :
  Exists (fun range => ~ startsInDocument range) ranges ->
  exists e, splitLoop doc ranges results = Throw e.
Proof.
  intros Hex. revert results.
  induction ranges as [|range ranges IH]; intros results;
    [by apply Exists_nil in Hex|].
  simpl. destruct (splitRange doc range) as [[r|]|e] eqn:Hr; [| |by eexists].
  - apply Exists_cons in Hex as [Hbad|Hex]; [|by apply IH].
    destruct (splitRange_below_first_page doc range Hbad) as [e He]. congruence.
  - apply Exists_cons in Hex as [Hbad|Hex]; [|by apply IH].
    destruct (splitRange_below_first_page doc range Hbad) as [e He]. congruence.
Qed.

(** The call on a loaded source succeeds exactly when no range asks for a
    page below page 1; one such range fails the whole batch. *)
Lemma splitPdfByRanges_succeeds_iff (originalFile : File) doc ranges :
  load originalFile = Ok doc ->
  (exists results, splitPdfByRanges load originalFile ranges = Ok results)
  <-> Forall startsInDocument ranges.
Proof.
  intros Hload. unfold splitPdfByRanges. rewrite Hload. split.
  - intros [results Hres].
    apply Forall_forall. intros range Hin.
    destruct (decide (1 <= SplitRange.startPage range)) as [?|Hlow]; [by left|].
    destruct (decide (SplitRange.endPage range < SplitRange.startPage range))
      as [?|Hnonempty]; [by right|].
    destruct (splitLoop_below_first_page doc ranges []) as [e He]; [|congruence].
    apply Exists_exists. exists range. split; [done|].
    unfold startsInDocument. lia.
  - intros Hall. rewrite splitLoop_omap by done. by eexists.
Qed.

(** For a range list that asks for no page below page 1, splitting a
    loaded source succeeds; the output is the list of the ranges'
    entries in the order of the ranges; a range with
    [1 <= startPage <= endPage <= pageCount] contributes exactly one
    entry, named after its student, whose document holds
    [endPage - startPage + 1] pages: the source's pages
    [startPage .. endPage], page [k] of the output being page
    [startPage + k] of the source; and when every range is such a range,
    the output has one document per range, in the order of the ranges. *)
Theorem splitPdfByRanges_valid_ranges
  (originalFile : File) doc (ranges : list SplitRange.t) :
  load originalFile = Ok doc ->
  Forall startsInDocument ranges ->
  exists results,
    splitPdfByRanges load originalFile ranges = Ok results
    /\ results = omap (entryOf doc) ranges
    /\ (forall range,
          range ∈ ranges -> validRange doc range ->
          entryOf doc range
          = Some (mkSplitResult (SplitRange.studentName range)
                    (mkBlob (sourcePages doc range) "application/pdf"))
          /\ Z.of_nat (length (sourcePages doc range))
             = SplitRange.endPage range - SplitRange.startPage range + 1
          /\ forall k : nat,
               (k < length (sourcePages doc range))%nat ->
               sourcePages doc range !! k
               = doc !! (Z.to_nat (SplitRange.startPage range - 1) + k)%nat)
    /\ (Forall (validRange doc) ranges ->
        results
        = (fun range =>
             mkSplitResult (SplitRange.studentName range)
               (mkBlob (sourcePages doc range) "application/pdf")) <$> ranges).
Proof.
  intros Hload Hall. exists (omap (entryOf doc) ranges).
  unfold splitPdfByRanges. rewrite Hload, splitLoop_omap by done.
  split; [done|]. split; [done|]. split.
  - intros range _ Hv. split; [by apply entryOf_valid|].
    by apply sourcePages_valid.
  - clear Hall. induction 1 as [|range ranges Hv _ IH]; simpl; [done|].
    rewrite entryOf_valid by done. f_equal. exact IH.
Qed.

(** C2. In every range, the page indices kept are exactly those of the
    range that lie below the page count: an index at or beyond it is
    skipped; and a range with [startPage > endPage] keeps no index. For
    a range list that asks for no page below page 1, splitting a loaded
    source succeeds, also when an [endPage] exceeds the page count; the
    output lists the entries of the ranges in order; none of its
    documents is empty; a range that keeps no index has no entry; and a
    range with [endPage > pageCount] holds the source's pages from
    [startPage] up to the last one. *)
Theorem splitPdfByRanges_clipping :
  (forall range pageCount j,
      j ∈ pageIndices range pageCount
      <-> SplitRange.startPage range - 1 <= j <= SplitRange.endPage range - 1
          /\ j < pageCount)
  /\ (forall range pageCount,
        SplitRange.endPage range < SplitRange.startPage range ->
        pageIndices range pageCount = [])
  /\ (forall (originalFile : File) doc (ranges : list SplitRange.t),
        load originalFile = Ok doc ->
        Forall startsInDocument ranges ->
        exists results,
          splitPdfByRanges load originalFile ranges = Ok results
          /\ results = omap (entryOf doc) ranges
          /\ Forall (fun res => saved (blob res) <> []) results
          /\ forall range,
               range ∈ ranges ->
               (pageIndices range (getPageCount doc) = [] ->
                entryOf doc range = None)
               /\ (1 <= SplitRange.startPage range ->
                   getPageCount doc < SplitRange.endPage range ->
                   sourcePages doc range
                   = drop (Z.to_nat (SplitRange.startPage range - 1)) doc)).
Proof.
  split; [intros; apply elem_of_pageIndices|].
  split; [intros; by apply pageIndices_empty_range|].
  intros originalFile doc ranges Hload Hall.
  exists (omap (entryOf doc) ranges).
  unfold splitPdfByRanges. rewrite Hload, splitLoop_omap by done.
  split; [done|]. split; [done|]. split.
  - apply Forall_forall. intros res Hres.
    apply list_elem_of_omap in Hres as (range & _ & Hentry).
    by eapply entryOf_nonempty.
  - intros range Hin. split.
    + intros Hnil. unfold entryOf.
      assert (Hr : startsInDocument range)
        by (eapply Forall_forall in Hall; eauto).
      destruct Hr as [Hs|He].
      * pose proof (length_pageIndices doc range Hs) as Hlen.
        rewrite Hnil in Hlen. by destruct (sourcePages doc range).
      * unfold sourcePages. replace (Z.to_nat _) with 0%nat by lia.
        by rewrite take_0.
    + intros Hs He. unfold sourcePages, getPageCount in *.
      apply take_ge. rewrite length_drop. lia.
Qed.
End Proofs.

Lemma splitPdfByRanges_valid_ranges_witness :
  splitPdfByRanges Examples.loadPages Examples.fourPages Examples.aliceBob
  = Ok [mkSplitResult "Alice" (mkBlob [101; 102]%nat "application/pdf")].
Proof.
  assert (Hstart : Forall startsInDocument Examples.aliceBob)
    by (repeat constructor; unfold startsInDocument; simpl; lia).
  destruct (splitPdfByRanges_valid_ranges Examples.loadPages Examples.fourPages
              Examples.fourPages Examples.aliceBob eq_refl Hstart)
    as (results & Hsplit & Hres & _).
  rewrite Hsplit, Hres. reflexivity.
Defined.

Lemma splitPdfByRanges_clipping_witness :
  exists results,
    splitPdfByRanges Examples.loadPages Examples.fourPages Examples.fourRanges
    = Ok results
    /\ results
       = [mkSplitResult "Alice" (mkBlob [101; 102]%nat "application/pdf");
          mkSplitResult "Cy" (mkBlob [104]%nat "application/pdf")].
Proof.
  assert (Hstart : Forall startsInDocument Examples.fourRanges)
    by (repeat constructor; unfold startsInDocument; simpl; lia).
  destruct (splitPdfByRanges_clipping Examples.loadPages) as (_ & _ & Hsplits).
  destruct (Hsplits Examples.fourPages Examples.fourPages Examples.fourRanges
              eq_refl Hstart)
    as (results & Hsplit & Hres & _).
  exists results. split; [exact Hsplit|]. rewrite Hres. reflexivity.
Defined.

(** C1 (the code departs from it). One range that asks for a page below
    page 1 costs the valid ranges of the same call their documents. With a source of 4
    pages and the ranges Alice 1-2 and Bob 0-1, the range of Alice has
    [1 <= startPage <= endPage <= pageCount]; the guard of the inner loop
    only keeps the indices below the page count, so Bob's indices are -1
    and 0; [copyPages] throws on -1 and the call ends there: it returns
    no list, hence no document for Alice. *)
Theorem splitPdfByRanges_valid_range_dropped :
  SplitRange.mk "Alice" 1 2 ∈ MoreExamples.belowFirstPage
  /\ validRange Examples.fourPages (SplitRange.mk "Alice" 1 2)
  /\ pageIndices (SplitRange.mk "Bob" 0 1) (PdfLib.getPageCount Examples.fourPages)
     = [-1; 0]
  /\ splitPdfByRanges Examples.loadPages Examples.fourPages MoreExamples.belowFirstPage
     = Throw (TypeError "Cannot read properties of undefined (reading 'node')").
Proof.
  split; [apply list_elem_of_here|].
  split; [unfold validRange, PdfLib.getPageCount; simpl; lia|].
  split; reflexivity.
Qed.
End PdfSplittingProofs.

(** ** The grading workspace *)

Module GradingProofs.
Import GradingView.

Implicit Types (a : Assessment.t) (s : StudentSubmission.t)
  (sel : option string) (q : string) (g : QuestionGrade.t).

(** *** Finding and replacing students *)

Lemma findStudent_Some students sel s :
  findStudent students sel = Some s ->
  s ∈ students /\ Some (StudentSubmission.id s) = sel.
Proof.
  unfold findStudent. intros Hf. apply find_some in Hf as [Hin Hb].
  split; [by apply list_elem_of_In|]. by apply bool_decide_eq_true in Hb.
Qed.

Lemma findStudent_replaceStudent students sel s u :
  findStudent students sel = Some s ->
  Some (StudentSubmission.id u) = sel ->
  findStudent (replaceStudent students sel u) sel = Some u.
Proof.
  unfold findStudent, replaceStudent. intros Hf Hu.
  induction students as [|x l IH]; simpl in *; [done|].
  destruct (bool_decide (Some (StudentSubmission.id x) = sel)) eqn:Hx.
  - rewrite bool_decide_eq_true_2 by done. done.
  - rewrite Hx. by apply IH.
Qed.

Lemma elem_of_replaceStudent students sel u s' :
  s' ∈ replaceStudent students sel u ->
  Some (StudentSubmission.id u) = sel ->
  Some (StudentSubmission.id s') = sel ->
  s' = u.
Proof.
  unfold replaceStudent. intros Hin Hu Hs'.
  apply list_elem_of_fmap in Hin as (s & -> & _).
  destruct (bool_decide (Some (StudentSubmission.id s) = sel)) eqn:Hb; [done|].
  by apply bool_decide_eq_false in Hb.
Qed.

Lemma replaceStudent_lookup_ne students sel u i s :
  students !! i = Some s ->
  Some (StudentSubmission.id s) <> sel ->
  replaceStudent students sel u !! i = Some s.
Proof.
  intros Hi Hne. unfold replaceStudent. rewrite list_lookup_fmap, Hi. simpl.
  by rewrite bool_decide_eq_false_2.
Qed.

Lemma replaceStudent_lookup_eq students sel u i s :
  students !! i = Some s ->
  Some (StudentSubmission.id s) = sel ->
  replaceStudent students sel u !! i = Some u.
Proof.
  intros Hi Heq. unfold replaceStudent. rewrite list_lookup_fmap, Hi. simpl.
  by rewrite bool_decide_eq_true_2.
Qed.

Lemma length_replaceStudent students sel u :
  length (replaceStudent students sel u) = length students.
Proof. unfold replaceStudent. apply length_fmap. Qed.

(** *** The total is a sum, whatever the order of traversal *)

Lemma foldl_scores (l : list QuestionGrade.t) (z : Z) :
  foldl (fun sum g => sum + QuestionGrade.score g) z l
  = z + foldr (fun g sum => QuestionGrade.score g + sum) 0 l.
Proof.
  revert z. induction l as [|g l IH]; intros z; simpl; [lia|].
  rewrite IH. lia.
Qed.

Lemma foldr_scores_perm (l k : list QuestionGrade.t) :
  l ≡ₚ k ->
  foldr (fun g sum => QuestionGrade.score g + sum) 0 l
  = foldr (fun g sum => QuestionGrade.score g + sum) 0 k.
Proof.
  induction 1; simpl; lia.
Qed.

(** Reducing the grades in any order of traversal gives [sumScores]. *)
Lemma sumScores_any_order (grades : gmap string QuestionGrade.t)
  (values : list QuestionGrade.t) :
  values ≡ₚ (map_to_list grades).*2 ->
  foldl (fun sum g => sum + QuestionGrade.score g) 0 values = sumScores grades.
Proof.
  intros Hp. unfold sumScores. rewrite !foldl_scores.
  by rewrite (foldr_scores_perm _ _ Hp).
Qed.

Lemma sumScores_insert_fresh (grades : gmap string QuestionGrade.t) q g :
  grades !! q = None ->
  sumScores (<[q := g]> grades) = QuestionGrade.score g + sumScores grades.
Proof.
  intros Hq. unfold sumScores. rewrite !foldl_scores.
  rewrite (foldr_scores_perm _ (g :: (map_to_list grades).*2)); [simpl; lia|].
  rewrite map_to_list_insert by done. done.
Qed.

(** *** [handleGradeChange] *)

(** The student record [handleGradeChange] builds for the selection. *)
Lemma handleGradeChange_inv a sel q gd a' :
  handleGradeChange a sel q gd = Some a' ->
  exists s newGrades,
    findStudent (Assessment.students a) sel = Some s
    /\ newGrades
       = <[q := PartialGrade.spreadOver
                  (default defaultGrade (StudentSubmission.grades s !! q))
                  (newGradeData (findRubricItem (Assessment.rubric a) q) gd)]>
           (StudentSubmission.grades s)
    /\ a' = Assessment.withStudents a
              (replaceStudent (Assessment.students a) sel
                 (StudentSubmission.mk
                    (StudentSubmission.id s) (StudentSubmission.studentName s)
                    (StudentSubmission.fileData s) (StudentSubmission.fileType s)
                    (StudentSubmission.fileName s) newGrades GRADED
                    (sumScores newGrades))).
Proof.
  unfold handleGradeChange.
  destruct (findStudent (Assessment.students a) sel) as [s|] eqn:Hs; [|done].
  intros [= <-]. by eexists _, _.
Qed.

Lemma handleGradeChange_emits a sel q gd s :
  findStudent (Assessment.students a) sel = Some s ->
  is_Some (handleGradeChange a sel q gd).
Proof. unfold handleGradeChange. intros ->. by eexists. Qed.

(** After a manual edit the selected student's total is the sum of the
    scores in the student's mapping. *)
Lemma handleGradeChange_total a sel q gd a' s' :
  handleGradeChange a sel q gd = Some a' ->
  s' ∈ Assessment.students a' ->
  Some (StudentSubmission.id s') = sel ->
  StudentSubmission.totalScore s' = sumScores (StudentSubmission.grades s')
  /\ StudentSubmission.status s' = GRADED.
Proof.
  intros (s & newGrades & Hs & _ & ->)%handleGradeChange_inv Hin Hid.
  apply findStudent_Some in Hs as [_ Hsel]. simpl in Hin.
  apply elem_of_replaceStudent in Hin; [|done..]. by subst s'.
Qed.

(** *** [handleKeyChange] *)

Lemma truthy_true (x : string) : truthy x = true <-> x <> "".
Proof. destruct x; simpl; split; done. Qed.

Lemma findRubricItem_Some rubric q item :
  findRubricItem rubric q = Some item ->
  item ∈ rubric /\ RubricItem.id item = q.
Proof.
  unfold findRubricItem. intros Hf. apply find_some in Hf as [Hin Hb].
  split; [by apply list_elem_of_In|]. by apply bool_decide_eq_true in Hb.
Qed.

(** The rubric after a key change: the first item with the id is the old
    first item with the id, with the upper-cased key. *)
Lemma findRubricItem_key_update rubric q newKey :
  findRubricItem
    ((fun r => if bool_decide (RubricItem.id r = q)
               then RubricItem.withCorrectAnswer r (toUpperCase newKey) else r)
       <$> rubric) q
  = (fun r => RubricItem.withCorrectAnswer r (toUpperCase newKey))
      <$> findRubricItem rubric q.
Proof.
  unfold findRubricItem. induction rubric as [|r l IH]; simpl; [done|].
  destruct (bool_decide (RubricItem.id r = q)) eqn:Hr; simpl.
  - by rewrite Hr.
  - rewrite Hr. exact IH.
Qed.

(** The students after a key change, when the selected student has a
    non-empty answer for the item: the selected student is re-graded. *)
Lemma handleKeyChange_regrade a sel q newKey s item g answer :
  findStudent (Assessment.students a) sel = Some s ->
  findRubricItem (Assessment.rubric a) q = Some item ->
  StudentSubmission.grades s !! q = Some g ->
  QuestionGrade.studentAnswer g = Some answer ->
  answer <> "" ->
  Assessment.students (handleKeyChange a sel q newKey)
  = replaceStudent (Assessment.students a) sel
      (StudentSubmission.mk
         (StudentSubmission.id s) (StudentSubmission.studentName s)
         (StudentSubmission.fileData s) (StudentSubmission.fileType s)
         (StudentSubmission.fileName s)
         (<[q := QuestionGrade.withScore g
                   (if sameLetter answer newKey then RubricItem.maxPoints item else 0)]>
            (StudentSubmission.grades s))
         (StudentSubmission.status s)
         (sumScores
            (<[q := QuestionGrade.withScore g
                      (if sameLetter answer newKey then RubricItem.maxPoints item else 0)]>
               (StudentSubmission.grades s)))).
Proof.
  intros Hs Hitem Hg Hans Hne. unfold handleKeyChange. simpl.
  rewrite Hs, findRubricItem_key_update, Hitem, Hg. simpl. rewrite Hans.
  rewrite (proj2 (truthy_true answer) Hne).
  apply findStudent_Some in Hs as [_ <-]. done.
Qed.

(** A key change either leaves the students as they are or re-grades the
    selected student, who then has a grade for the item. *)
Lemma handleKeyChange_students a sel q newKey :
  Assessment.students (handleKeyChange a sel q newKey) = Assessment.students a
  \/ exists s g newScore,
       findStudent (Assessment.students a) sel = Some s
       /\ StudentSubmission.grades s !! q = Some g
       /\ Assessment.students (handleKeyChange a sel q newKey)
          = replaceStudent (Assessment.students a) sel
              (StudentSubmission.mk
                 (StudentSubmission.id s) (StudentSubmission.studentName s)
                 (StudentSubmission.fileData s) (StudentSubmission.fileType s)
                 (StudentSubmission.fileName s)
                 (<[q := QuestionGrade.withScore g newScore]>
                    (StudentSubmission.grades s))
                 (StudentSubmission.status s)
                 (sumScores (<[q := QuestionGrade.withScore g newScore]>
                               (StudentSubmission.grades s)))).
Proof.
  destruct (findStudent (Assessment.students a) sel) as [s|] eqn:Hs;
    [|left; unfold handleKeyChange; simpl; by rewrite Hs].
  destruct (findRubricItem (Assessment.rubric a) q) as [item|] eqn:Hitem;
    [|left; unfold handleKeyChange; simpl;
      by rewrite Hs, findRubricItem_key_update, Hitem].
  destruct (StudentSubmission.grades s !! q) as [g|] eqn:Hg;
    [|left; unfold handleKeyChange; simpl;
      by rewrite Hs, findRubricItem_key_update, Hitem, Hg].
  destruct (QuestionGrade.studentAnswer g) as [answer|] eqn:Hans;
    [|left; unfold handleKeyChange; simpl;
      by rewrite Hs, findRubricItem_key_update, Hitem, Hg; simpl; rewrite Hans].
  destruct (decide (answer = "")) as [->|Hne].
  - left. unfold handleKeyChange. simpl.
    rewrite Hs, findRubricItem_key_update, Hitem, Hg. simpl. by rewrite Hans.
  - right. exists s, g. eexists. split; [done|]. split; [done|].
    by eapply handleKeyChange_regrade.
Qed.

(** After a key change that re-grades, the selected student's total is the
    sum of the scores in the student's mapping. *)
Lemma handleKeyChange_total a sel q newKey s g answer s' :
  findStudent (Assessment.students a) sel = Some s ->
  is_Some (findRubricItem (Assessment.rubric a) q) ->
  StudentSubmission.grades s !! q = Some g ->
  QuestionGrade.studentAnswer g = Some answer ->
  answer <> "" ->
  s' ∈ Assessment.students (handleKeyChange a sel q newKey) ->
  Some (StudentSubmission.id s') = sel ->
  StudentSubmission.totalScore s' = sumScores (StudentSubmission.grades s').
Proof.
  intros Hs [item Hitem] Hg Hans Hne Hin Hid.
  rewrite (handleKeyChange_regrade _ _ _ _ _ _ _ _ Hs Hitem Hg Hans Hne) in Hin.
  apply findStudent_Some in Hs as [_ Hsel].
  apply elem_of_replaceStudent in Hin; [|done..]. by subst s'.
Qed.

(** *** [runAiGrading] *)

Lemma foldl_applyResult_app rubric acc pre post :
  foldl (applyResult rubric) acc (pre ++ post)
  = foldl (applyResult rubric) (foldl (applyResult rubric) acc pre) post.
Proof. apply foldl_app. Qed.

Lemma foldl_applyResult_lookup_other rubric acc results q :
  Forall (fun r => AiGradingResult.questionId r <> q) results ->
  (foldl (applyResult rubric) acc results).1 !! q = acc.1 !! q.
Proof.
  intros Hall. revert acc.
  induction Hall as [|r l Hr _ IH]; intros [newGrades newTotal]; simpl; [done|].
  rewrite IH. simpl. by rewrite lookup_insert_ne.
Qed.

Lemma applyResult_lookup rubric acc res :
  (applyResult rubric acc res).1 !! AiGradingResult.questionId res
  = Some (aiGrade rubric res).
Proof. destruct acc. simpl. by rewrite lookup_insert_eq. Qed.

Lemma foldl_applyResult_total rubric acc results :
  (foldl (applyResult rubric) acc results).2
  = acc.2 + foldr (fun res sum => finalScore rubric res + sum) 0 results.
Proof.
  revert acc. induction results as [|r l IH]; intros [newGrades newTotal]; simpl;
    [lia|].
  rewrite IH. simpl. lia.
Qed.

Lemma runAiGrading_inv a sel response a' :
  runAiGrading a sel response = Some a' ->
  exists s results,
    findStudent (Assessment.students a) sel = Some s
    /\ truthyOpt (StudentSubmission.fileData s) = true
    /\ response = Ok results
    /\ a' = Assessment.withStudents a
              (replaceStudent (Assessment.students a) sel
                 (StudentSubmission.mk
                    (StudentSubmission.id s) (StudentSubmission.studentName s)
                    (StudentSubmission.fileData s) (StudentSubmission.fileType s)
                    (StudentSubmission.fileName s)
                    (foldl (applyResult (Assessment.rubric a))
                           (StudentSubmission.grades s, 0) results).1
                    GRADED
                    (foldl (applyResult (Assessment.rubric a))
                           (StudentSubmission.grades s, 0) results).2)).
Proof.
  unfold runAiGrading.
  destruct (findStudent (Assessment.students a) sel) as [s|] eqn:Hs; [|done].
  destruct (truthyOpt (StudentSubmission.fileData s)) eqn:Hf; [|done].
  destruct response as [results|e]; [|done].
  destruct (foldl _ _ results) as [newGrades newTotal] eqn:Hfold.
  intros [= <-]. exists s, results. rewrite Hfold. done.
Qed.

Lemma runAiGrading_emits a sel results s :
  findStudent (Assessment.students a) sel = Some s ->
  truthyOpt (StudentSubmission.fileData s) = true ->
  is_Some (runAiGrading a sel (Ok results)).
Proof.
  unfold runAiGrading. intros -> ->.
  destruct (foldl _ _ results). by eexists.
Qed.

(** The score kept for a result on a keyed multiple-choice item with a
    detected answer does not depend on the suggested score. *)
Lemma finalScore_mcq rubric res item key answer :
  findRubricItem rubric (AiGradingResult.questionId res) = Some item ->
  RubricItem.type item = MCQ ->
  RubricItem.correctAnswer item = Some key ->
  key <> "" ->
  AiGradingResult.studentAnswer res = Some answer ->
  answer <> "" ->
  finalScore rubric res
  = if sameLetter key answer then RubricItem.maxPoints item else 0.
Proof.
  intros Hitem Htype Hkey Hk Hans Ha. unfold finalScore.
  rewrite Hitem, Htype, Hkey, Hans.
  by rewrite (proj2 (truthy_true key) Hk), (proj2 (truthy_true answer) Ha).
Qed.

(** The total [runAiGrading] stores is the sum of the final scores of the
    results it was given, whatever else the student's mapping holds. *)
Lemma runAiGrading_total a sel results a' s' :
  runAiGrading a sel (Ok results) = Some a' ->
  s' ∈ Assessment.students a' ->
  Some (StudentSubmission.id s') = sel ->
  StudentSubmission.totalScore s'
  = foldr (fun res sum => finalScore (Assessment.rubric a) res + sum) 0 results.
Proof.
  intros (s & results' & Hs & _ & [= <-] & ->)%runAiGrading_inv Hin Hid.
  apply findStudent_Some in Hs as [_ Hsel]. simpl in Hin.
  apply elem_of_replaceStudent in Hin; [|done..]. subst s'. simpl.
  rewrite foldl_applyResult_total. simpl. lia.
Qed.

(** The scenario of the specification: one multiple-choice item worth 5
    points with key [B]; the student's answer is set to [b]; the score
    becomes 5 and the student is graded. *)
Example answer_b_to_key_B :
  exists a' s' g',
    handleGradeChange Examples.quiz (Some "s1") "q1" (Examples.answer "b") = Some a'
    /\ findStudent (Assessment.students a') (Some "s1") = Some s'
    /\ StudentSubmission.grades s' !! "q1" = Some g'
    /\ QuestionGrade.score g' = 5
    /\ StudentSubmission.totalScore s' = 5
    /\ StudentSubmission.status s' = GRADED.
Proof.
  eexists _, _, _. split; [vm_compute; reflexivity|].
  split; [vm_compute; reflexivity|].
  split; [vm_compute; reflexivity|].
  repeat split.
Qed.

(** *** The claims on the grading workspace *)

(** C3 (the code departs from it). After AI grading the total is the sum
    of the scores of the results just applied, not of the mapping: Ann has
    7 points on the essay; a result for the multiple-choice item alone
    (re-scored to 5) leaves both grades in her mapping, whose scores sum
    to 12, with a total of 5. *)
Theorem runAiGrading_total_ignores_kept_grades :
  exists a' s',
    runAiGrading Examples.essayGraded (Some "s1") (Ok Examples.aiResults) = Some a'
    /\ findStudent (Assessment.students a') (Some "s1") = Some s'
    /\ QuestionGrade.score <$> StudentSubmission.grades s' !! "q2" = Some 7
    /\ QuestionGrade.score <$> StudentSubmission.grades s' !! "q1" = Some 5
    /\ sumScores (StudentSubmission.grades s') = 12
    /\ StudentSubmission.totalScore s' = 5.
Proof.
  eexists _, _. split; [vm_compute; reflexivity|].
  split; [vm_compute; reflexivity|].
  repeat split; vm_compute; reflexivity.
Qed.

(** C4, as stated, fails for a student who is not the selected one. Ann
    and Bob both answered [C] to the item keyed [B] and scored 0; with Ann
    selected the key is changed to [C]. The scores of the students with a
    non-empty answer are then not all the ones the comparison with the
    new key gives: Bob still has 0. *)
Lemma key_change_skips_unselected_student :
  ~ (forall s g answer item key,
        s ∈ Assessment.students Examples.keyChanged ->
        StudentSubmission.grades s !! "q1" = Some g ->
        QuestionGrade.studentAnswer g = Some answer ->
        answer <> "" ->
        findRubricItem (Assessment.rubric Examples.keyChanged) "q1" = Some item ->
        RubricItem.type item = MCQ ->
        RubricItem.correctAnswer item = Some key ->
        key <> "" ->
        QuestionGrade.score g
        = if sameLetter answer key then RubricItem.maxPoints item else 0).
Proof.
  intros Hclaim.
  specialize (Hclaim
    (default Examples.bob (Assessment.students Examples.keyChanged !! 1%nat))
    (QuestionGrade.mk 0 "" (Some "C") None) "C"
    (RubricItem.mk "q1" "Q1" 5 "" MCQ (Some "C")) "C").
  assert (Hbob : QuestionGrade.score (QuestionGrade.mk 0 "" (Some "C") None) = 5).
  { apply Hclaim; try done.
    apply list_elem_of_lookup. exists 1%nat. vm_compute. reflexivity. }
  discriminate Hbob.
Qed.

(** C4 (amended). For the selected student: editing the student's answer
    to a multiple-choice item with a non-empty key stores the trimmed,
    upper-cased answer and sets the score to [maxPoints] when it matches
    the trimmed, upper-cased key, else to 0; changing the key of an item
    for which the selected student has a non-empty answer stores the
    upper-cased key in the rubric and sets that student's score by the
    same comparison with the new key. A key change leaves every student
    with another id as it was. *)
Theorem mcq_score_follows_letters_for_selected_student :
  (forall a sel q gd s item key answer,
      findStudent (Assessment.students a) sel = Some s ->
      findRubricItem (Assessment.rubric a) q = Some item ->
      RubricItem.type item = MCQ ->
      RubricItem.correctAnswer item = Some key ->
      key <> "" ->
      PartialGrade.studentAnswer gd = Some answer ->
      exists a' s' g',
        handleGradeChange a sel q gd = Some a'
        /\ findStudent (Assessment.students a') sel = Some s'
        /\ StudentSubmission.grades s' !! q = Some g'
        /\ QuestionGrade.studentAnswer g' = Some (toUpperCase (trim answer))
        /\ QuestionGrade.score g'
           = if sameLetter answer key then RubricItem.maxPoints item else 0)
  /\ (forall a sel q newKey s item g answer,
        findStudent (Assessment.students a) sel = Some s ->
        findRubricItem (Assessment.rubric a) q = Some item ->
        StudentSubmission.grades s !! q = Some g ->
        QuestionGrade.studentAnswer g = Some answer ->
        answer <> "" ->
        exists s' g' item',
          findStudent (Assessment.students (handleKeyChange a sel q newKey)) sel
          = Some s'
          /\ StudentSubmission.grades s' !! q = Some g'
          /\ QuestionGrade.studentAnswer g' = Some answer
          /\ findRubricItem (Assessment.rubric (handleKeyChange a sel q newKey)) q
             = Some item'
          /\ RubricItem.correctAnswer item' = Some (toUpperCase newKey)
          /\ RubricItem.maxPoints item' = RubricItem.maxPoints item
          /\ QuestionGrade.score g'
             = if sameLetter answer newKey then RubricItem.maxPoints item else 0)
  /\ (forall a sel q newKey (i : nat) s,
        Assessment.students a !! i = Some s ->
        Some (StudentSubmission.id s) <> sel ->
        Assessment.students (handleKeyChange a sel q newKey) !! i = Some s).
Proof.
  split; [|split].
  - intros a sel q gd s item key answer Hs Hitem Htype Hkey Hk Hans.
    destruct (handleGradeChange_emits a sel q gd s Hs) as [a' Ha'].
    pose proof Ha' as (s0 & newGrades & Hs0 & HnewGrades & ->)%handleGradeChange_inv.
    rewrite Hs in Hs0. injection Hs0 as <-.
    pose proof (findStudent_Some _ _ _ Hs) as [_ Hsel].
    eexists _, _, _. split; [exact Ha'|]. simpl.
    split; [by eapply findStudent_replaceStudent|]. simpl.
    split; [rewrite HnewGrades; apply lookup_insert_eq|].
    unfold newGradeData. rewrite Hitem, Hans, Htype, Hkey.
    rewrite (proj2 (truthy_true key) Hk). done.
  - intros a sel q newKey s item g answer Hs Hitem Hg Hans Hne.
    pose proof (findStudent_Some _ _ _ Hs) as [_ Hsel].
    rewrite (handleKeyChange_regrade _ _ _ _ _ _ _ _ Hs Hitem Hg Hans Hne).
    eexists _, _, _.
    split; [by eapply findStudent_replaceStudent|]. simpl.
    split; [apply lookup_insert_eq|]. simpl.
    split; [done|].
    unfold handleKeyChange. simpl. rewrite findRubricItem_key_update, Hitem. done.
  - intros a sel q newKey i s Hi Hne.
    destruct (handleKeyChange_students a sel q newKey)
      as [->|(s0 & g & newScore & _ & _ & ->)]; [done|].
    by apply replaceStudent_lookup_ne.
Qed.

Lemma mcq_score_follows_letters_for_selected_student_witness :
  (exists a' s' g',
      handleGradeChange Examples.quiz (Some "s1") "q1" (Examples.answer " b")
      = Some a'
      /\ findStudent (Assessment.students a') (Some "s1") = Some s'
      /\ StudentSubmission.grades s' !! "q1" = Some g'
      /\ QuestionGrade.studentAnswer g' = Some "B"
      /\ QuestionGrade.score g' = 5)
  /\ (exists s' g',
        findStudent (Assessment.students Examples.keyChanged) (Some "s1") = Some s'
        /\ StudentSubmission.grades s' !! "q1" = Some g'
        /\ QuestionGrade.score g' = 5).
Proof.
  destruct mcq_score_follows_letters_for_selected_student as (Hedit & Hkey & _).
  split.
  - destruct (Hedit Examples.quiz (Some "s1") "q1" (Examples.answer " b")
                Examples.ann Examples.q1 "B" " b")
      as (a' & s' & g' & Ha' & Hs' & Hg' & Hans & Hscore);
      [reflexivity | reflexivity | reflexivity | reflexivity | discriminate
      | reflexivity |].
    exists a', s', g'. repeat split; assumption.
  - destruct (Hkey Examples.bothAnswered (Some "s1") "q1" "C"
                (default Examples.ann
                   (findStudent (Assessment.students Examples.bothAnswered) (Some "s1")))
                Examples.q1 (QuestionGrade.mk 0 "" (Some "C") None) "C")
      as (s' & g' & item' & Hs' & Hg' & _ & _ & _ & _ & Hscore);
      [reflexivity | reflexivity | reflexivity | reflexivity | discriminate |].
    exists s', g'. repeat split; assumption.
Defined.

(** C5. When AI results are applied to the selected student, a result for
    a multiple-choice item with a non-empty key that carries a non-empty
    student answer is not stored with the score it suggests: the grade
    written for it has [maxPoints] when the trimmed, upper-cased key
    equals the trimmed, upper-cased answer and 0 when it does not, with the
    result's comment and answer and the AI mark. That grade is in the
    mapping right after the result is applied, and it is the student's
    grade for the item in the emitted assessment when no later result
    names the same item. *)
Theorem runAiGrading_rescores_mcq a sel s pre res post item key answer :
  findStudent (Assessment.students a) sel = Some s ->
  truthyOpt (StudentSubmission.fileData s) = true ->
  findRubricItem (Assessment.rubric a) (AiGradingResult.questionId res) = Some item ->
  RubricItem.type item = MCQ ->
  RubricItem.correctAnswer item = Some key ->
  key <> "" ->
  AiGradingResult.studentAnswer res = Some answer ->
  answer <> "" ->
  (foldl (applyResult (Assessment.rubric a)) (StudentSubmission.grades s, 0)
         (pre ++ [res])).1 !! AiGradingResult.questionId res
  = Some (QuestionGrade.mk
            (if bool_decide (toUpperCase (trim key) = toUpperCase (trim answer))
             then RubricItem.maxPoints item else 0)
            (AiGradingResult.comment res) (Some answer) (Some true))
  /\ (Forall (fun r => AiGradingResult.questionId r <> AiGradingResult.questionId res)
             post ->
      exists a' s' g',
        runAiGrading a sel (Ok (pre ++ res :: post)) = Some a'
        /\ findStudent (Assessment.students a') sel = Some s'
        /\ StudentSubmission.grades s' !! AiGradingResult.questionId res = Some g'
        /\ QuestionGrade.comment g' = AiGradingResult.comment res
        /\ QuestionGrade.studentAnswer g' = Some answer
        /\ QuestionGrade.isAiSuggested g' = Some true
        /\ (toUpperCase (trim key) = toUpperCase (trim answer) ->
            QuestionGrade.score g' = RubricItem.maxPoints item)
        /\ (toUpperCase (trim key) <> toUpperCase (trim answer) ->
            QuestionGrade.score g' = 0)).
Proof.
  intros Hs Hfile Hitem Htype Hkey Hk Hans Ha.
  assert (Hgrade : aiGrade (Assessment.rubric a) res
                   = QuestionGrade.mk
                       (if bool_decide (toUpperCase (trim key) = toUpperCase (trim answer))
                        then RubricItem.maxPoints item else 0)
                       (AiGradingResult.comment res) (Some answer) (Some true)).
  { unfold aiGrade. rewrite Hans. f_equal. by eapply finalScore_mcq. }
  split.
  - rewrite foldl_applyResult_app. simpl.
    etrans; [apply applyResult_lookup|]. by rewrite Hgrade.
  - intros Hpost.
    destruct (runAiGrading_emits a sel (pre ++ res :: post) s Hs Hfile) as [a' Ha'].
    pose proof Ha' as (s0 & results & Hs0 & _ & [= <-] & ->)%runAiGrading_inv.
    rewrite Hs in Hs0. injection Hs0 as <-.
    pose proof (findStudent_Some _ _ _ Hs) as [_ Hsel].
    eexists _, _, _. split; [exact Ha'|]. simpl.
    split; [by eapply findStudent_replaceStudent|]. simpl.
    split.
    { rewrite foldl_applyResult_app. simpl.
      rewrite foldl_applyResult_lookup_other by done.
      etrans; [apply applyResult_lookup|]. by rewrite Hgrade. }
    simpl. repeat split.
    + intros Heq. by rewrite bool_decide_eq_true_2.
    + intros Hne. by rewrite bool_decide_eq_false_2.
Qed.

Lemma runAiGrading_rescores_mcq_witness :
  exists a' s' g',
    runAiGrading Examples.essayGraded (Some "s1") (Ok Examples.aiResults) = Some a'
    /\ findStudent (Assessment.students a') (Some "s1") = Some s'
    /\ StudentSubmission.grades s' !! "q1" = Some g'
    /\ QuestionGrade.score g' = 5.
Proof.
  destruct (runAiGrading_rescores_mcq Examples.essayGraded (Some "s1")
              (default Examples.ann
                 (findStudent (Assessment.students Examples.essayGraded) (Some "s1")))
              [] (AiGradingResult.mk "q1" 3 "Correct." (Some "b")) []
              Examples.q1 "B" "b")
    as [_ Hstored]; [reflexivity | reflexivity | reflexivity | reflexivity
                    | reflexivity | discriminate | reflexivity | discriminate |].
  destruct Hstored
    as (a' & s' & g' & Ha' & Hs' & Hg' & _ & _ & _ & Hmatch & _); [constructor|].
  exists a', s', g'. split; [exact Ha'|]. split; [exact Hs'|]. split; [exact Hg'|].
  apply Hmatch. reflexivity.
Defined.



(** C9. When a student is selected, [handleGradeChange] emits an
    assessment that has the id, title, description, status, rubric,
    canned comments and creation time of the old one and as many
    students; at every position a student whose id is not the selected
    one is unchanged, and a student with the selected id is replaced by
    the updated selected student, who keeps id, name and file. *)
Theorem handleGradeChange_frame a sel q gd s :
  findStudent (Assessment.students a) sel = Some s ->
  exists a',
    handleGradeChange a sel q gd = Some a'
    /\ Assessment.id a' = Assessment.id a
    /\ Assessment.title a' = Assessment.title a
    /\ Assessment.description a' = Assessment.description a
    /\ Assessment.status a' = Assessment.status a
    /\ Assessment.rubric a' = Assessment.rubric a
    /\ Assessment.cannedComments a' = Assessment.cannedComments a
    /\ Assessment.created a' = Assessment.created a
    /\ length (Assessment.students a') = length (Assessment.students a)
    /\ (forall (i : nat) s0,
          Assessment.students a !! i = Some s0 ->
          Some (StudentSubmission.id s0) <> sel ->
          Assessment.students a' !! i = Some s0)
    /\ (forall (i : nat) s0,
          Assessment.students a !! i = Some s0 ->
          Some (StudentSubmission.id s0) = sel ->
          exists s',
            Assessment.students a' !! i = Some s'
            /\ StudentSubmission.id s' = StudentSubmission.id s
            /\ StudentSubmission.studentName s' = StudentSubmission.studentName s
            /\ StudentSubmission.fileData s' = StudentSubmission.fileData s
            /\ StudentSubmission.fileType s' = StudentSubmission.fileType s
            /\ StudentSubmission.fileName s' = StudentSubmission.fileName s).
Proof.
  intros Hs.
  destruct (handleGradeChange_emits a sel q gd s Hs) as [a' Ha'].
  pose proof Ha' as (s0 & newGrades & Hs0 & _ & ->)%handleGradeChange_inv.
  rewrite Hs in Hs0. injection Hs0 as <-.
  eexists. split; [exact Ha'|]. simpl.
  repeat (split; [reflexivity|]).
  split; [apply length_replaceStudent|]. split.
  - intros i s0 Hi Hne. by apply replaceStudent_lookup_ne.
  - intros i s0 Hi Heq. eexists. split; [by eapply replaceStudent_lookup_eq|].
    done.
Qed.

Lemma handleGradeChange_frame_witness :
  exists a',
    handleGradeChange Examples.quiz (Some "s1") "q2" (Examples.points 7) = Some a'
    /\ Assessment.rubric a' = Assessment.rubric Examples.quiz
    /\ Assessment.students a' !! 1%nat = Some Examples.bob.
Proof.
  destruct (handleGradeChange_frame Examples.quiz (Some "s1") "q2"
              (Examples.points 7) Examples.ann eq_refl)
    as (a' & Ha' & _ & _ & _ & _ & Hrubric & _ & _ & _ & Hothers & _).
  exists a'. split; [exact Ha'|]. split; [exact Hrubric|].
  apply Hothers; [reflexivity | discriminate].
Defined.

(** C10. [addCannedComment] emits nothing when the text is already among
    the canned comments, so the assessment stays as it is; otherwise it
    emits the assessment with the text appended to the canned comments
    and nothing else changed; and if the canned comments held no
    duplicate before, they hold none afterwards. *)
Theorem addCannedComment_no_duplicate a text :
  (text ∈ Assessment.cannedComments a -> addCannedComment a text = None)
  /\ (text ∉ Assessment.cannedComments a ->
      addCannedComment a text
      = Some (Assessment.mk
                (Assessment.id a) (Assessment.title a) (Assessment.description a)
                (Assessment.status a) (Assessment.rubric a) (Assessment.students a)
                (Assessment.cannedComments a ++ [text]) (Assessment.created a)))
  /\ (NoDup (Assessment.cannedComments a) ->
      NoDup (Assessment.cannedComments (default a (addCannedComment a text)))).
Proof.
  unfold addCannedComment, includes.
  destruct (decide (text ∈ Assessment.cannedComments a)) as [Hin|Hnin].
  - rewrite bool_decide_eq_true_2 by done. simpl. repeat split; done.
  - rewrite bool_decide_eq_false_2 by done. simpl. repeat split; try done.
    intros Hnd. apply NoDup_app. repeat split; [done| |apply NoDup_singleton].
    intros x Hx ->%list_elem_of_singleton. done.
Qed.

Lemma addCannedComment_no_duplicate_witness :
  addCannedComment Examples.quiz "Great work!" = None
  /\ NoDup (Assessment.cannedComments
              (default Examples.quiz (addCannedComment Examples.quiz "Show your work."))).
Proof.
  destruct (addCannedComment_no_duplicate Examples.quiz "Great work!")
    as (Hpresent & _ & _).
  destruct (addCannedComment_no_duplicate Examples.quiz "Show your work.")
    as (_ & _ & Hnodup).
  split.
  - apply Hpresent. simpl. apply list_elem_of_here.
  - apply Hnodup. simpl. apply NoDup_singleton.
Defined.
End GradingProofs.

(** ** The status of a student *)

Module LifecycleProofs.
Import GradingView Lifecycle App GradingProofs.

Lemma status_cases (st : StudentStatus) : st = PENDING \/ st = GRADED.
Proof. destruct st; auto. Qed.

Lemma keepsGraded_refl s : keepsGraded s s.
Proof. unfold keepsGraded. repeat split; done. Qed.

Lemma Forall2_keepsGraded_fmap (f : StudentSubmission.t -> StudentSubmission.t)
  (students : list StudentSubmission.t) :
  (forall s, s ∈ students -> keepsGraded s (f s)) ->
  Forall2 keepsGraded students (f <$> students).
Proof.
  intros Hf. apply Forall2_fmap_r. apply Forall2_same_length_lookup.
  split; [done|]. intros i x y Hx Hy. rewrite Hx in Hy. injection Hy as <-.
  apply Hf. by eapply list_elem_of_lookup_2.
Qed.

Lemma studentsEvolve_refl students : studentsEvolve students students.
Proof.
  apply evolve_updated. rewrite <- (list_fmap_id students) at 2.
  apply Forall2_keepsGraded_fmap. intros. apply keepsGraded_refl.
Qed.

(** Replacing the records that carry the selected id by a graded record
    of that id. *)
Lemma replaceStudent_graded students sel u :
  Some (StudentSubmission.id u) = sel ->
  StudentSubmission.status u = GRADED ->
  Forall2 keepsGraded students (replaceStudent students sel u).
Proof.
  intros Hu Hgraded. unfold replaceStudent. apply Forall2_keepsGraded_fmap.
  intros s _. destruct (bool_decide (Some (StudentSubmission.id s) = sel)) eqn:Hb;
    [|apply keepsGraded_refl].
  apply bool_decide_eq_true in Hb. unfold keepsGraded.
  split; [congruence|]. by split.
Qed.

Lemma newStudent_fresh id studentName fileData fileType fileName :
  freshStudent (StudentSetup.newStudent id studentName fileData fileType fileName).
Proof. by repeat split. Qed.

Section Actions.
Context {Page File : Type}.
Variable load : File -> Result (PdfLib.PDFDocument Page).
Variable blobToBase64 : @PdfSplittingService.Blob Page -> Result string.

Lemma studentsOfResults_fresh results idx now random newStudents students :
  StudentSetup.studentsOfResults blobToBase64 results idx now random newStudents
  = Ok students ->
  Forall freshStudent newStudents ->
  Forall freshStudent students.
Proof.
  revert idx newStudents.
  induction results as [|res results IH]; intros idx newStudents; simpl.
  - by intros [= <-].
  - destruct (blobToBase64 _) as [base64|e]; [|done].
    intros Hrec Hfresh. eapply IH; [exact Hrec|].
    apply Forall_app. split; [done|].
    apply Forall_singleton, newStudent_fresh.
Qed.

(** Every action lets the students evolve, given that pending students
    have no grade. *)
Lemma perform_studentsEvolve a (action : @Action File) a' :
  pendingUngraded a ->
  perform load blobToBase64 a action = Some a' ->
  studentsEvolve (Assessment.students a) (Assessment.students a').
Proof.
  intros Hinv Hperform. destruct action; simpl in Hperform.
  - (* RubricFileUpload *)
    destruct generated; [|done]. injection Hperform as <-.
    apply studentsEvolve_refl.
  - injection Hperform as <-. apply studentsEvolve_refl.
  - injection Hperform as <-. apply studentsEvolve_refl.
  - injection Hperform as <-. apply studentsEvolve_refl.
  - (* SubmissionUpload *)
    injection Hperform as <-. unfold StudentSetup.handleStudentSubmissionUpload.
    destruct (truthyOpt studentId); simpl.
    + apply evolve_updated, Forall2_keepsGraded_fmap. intros s _.
      destruct (bool_decide _); [|apply keepsGraded_refl].
      by repeat split.
    + eapply evolve_added; [done|]. apply Forall_singleton, newStudent_fresh.
  - (* RosterImport *)
    unfold StudentSetup.handleRosterImport in Hperform.
    destruct parsed as [names|e]; [|done].
    destruct (length names =? 0)%nat; [done|]. injection Hperform as <-. simpl.
    eapply evolve_added; [done|]. apply Forall_forall.
    intros s (i & name & -> & _)%elem_of_lookup_imap. apply newStudent_fresh.
  - (* FinalizeSplit *)
    unfold StudentSetup.finalizeSplit in Hperform.
    destruct bulkFile as [bulkFile|]; [|done].
    destruct (length detectedRanges =? 0)%nat; [done|].
    destruct (PdfSplittingService.splitPdfByRanges _ _ _) as [results|e]; [|done].
    destruct (StudentSetup.studentsOfResults _ _ _ _ _ _) as [newStudents|e] eqn:Hnew;
      [|done].
    injection Hperform as <-. simpl.
    eapply evolve_added; [done|].
    eapply studentsOfResults_fresh; [exact Hnew|]. constructor.
  - (* RemoveStudent *)
    injection Hperform as <-. simpl. apply evolve_removed, sublist_filter.
  - (* ClearAll *)
    injection Hperform as <-. simpl. apply evolve_removed, sublist_nil_l.
  - (* GradeChange *)
    apply handleGradeChange_inv in Hperform as (s & newGrades & Hs & _ & ->).
    apply findStudent_Some in Hs as [_ Hsel]. simpl.
    by apply evolve_updated, replaceStudent_graded.
  - (* KeyChange *)
    injection Hperform as <-.
    destruct (handleKeyChange_students a selectedStudentId questionId newKey)
      as [->|(s & g & newScore & Hs & Hg & ->)]; [apply studentsEvolve_refl|].
    apply findStudent_Some in Hs as [Hin Hsel].
    apply evolve_updated, replaceStudent_graded; [done|]. simpl.
    destruct (status_cases (StudentSubmission.status s)) as [Hp|Hgr]; [|done].
    rewrite (Hinv s Hin Hp) in Hg. by rewrite lookup_empty in Hg.
  - (* AiGrading *)
    apply runAiGrading_inv in Hperform as (s & results & Hs & _ & _ & ->).
    apply findStudent_Some in Hs as [_ Hsel]. simpl.
    by apply evolve_updated, replaceStudent_graded.
  - (* AddCannedComment *)
    unfold addCannedComment in Hperform.
    destruct (negb _); [|done]. injection Hperform as <-.
    apply studentsEvolve_refl.
Qed.

Lemma studentsEvolve_pendingUngraded a a' :
  pendingUngraded a ->
  studentsEvolve (Assessment.students a) (Assessment.students a') ->
  pendingUngraded a'.
Proof.
  intros Hinv [Hupd|new Heq Hnew|Hsub] s' Hin Hpending.
  - apply list_elem_of_lookup in Hin as [i Hi].
    destruct (Forall2_lookup_r _ _ _ _ _ Hupd Hi) as (s & Hs & _ & Hgraded & Hgrades).
    destruct (decide (StudentSubmission.grades s' = StudentSubmission.grades s))
      as [->|Hne]; [|rewrite (Hgrades Hne) in Hpending; done].
    apply Hinv; [by eapply list_elem_of_lookup_2|].
    destruct (status_cases (StudentSubmission.status s)) as [Hp|Hgr]; [done|].
    rewrite (Hgraded Hgr) in Hpending. done.
  - rewrite Heq in Hin. apply elem_of_app in Hin as [Hin|Hin]; [by apply Hinv|].
    eapply Forall_forall in Hnew; [|exact Hin]. by destruct Hnew as (_ & ? & _).
  - apply Hinv; [|done]. by eapply elem_of_sublist.
Qed.

(** In every assessment the application can hold, a pending student has
    no grade. *)
Lemma reachable_pendingUngraded a :
  reachable load blobToBase64 a -> pendingUngraded a.
Proof.
  induction 1 as [created|a action a' _ IH Hperform].
  - intros s Hin. simpl in Hin. by apply elem_of_nil in Hin.
  - eapply studentsEvolve_pendingUngraded; [exact IH|].
    by eapply perform_studentsEvolve.
Qed.

Lemma Forall2_fmap_related (R : StudentSubmission.t -> StudentSubmission.t -> Prop)
  (f : StudentSubmission.t -> StudentSubmission.t)
  (students : list StudentSubmission.t) :
  (forall s, s ∈ students -> R s (f s)) ->
  Forall2 R students (f <$> students).
Proof.
  intros Hf. apply Forall2_fmap_r. apply Forall2_same_length_lookup.
  split; [done|]. intros i x y Hx Hy. rewrite Hx in Hy. injection Hy as <-.
  apply Hf. by eapply list_elem_of_lookup_2.
Qed.

(** A record that keeps id, status and grades follows, when the action
    does not apply AI results to its id. *)
Lemma statusFollows_kept (action : @Action File) s s' :
  StudentSubmission.id s' = StudentSubmission.id s ->
  StudentSubmission.status s' = StudentSubmission.status s ->
  StudentSubmission.grades s' = StudentSubmission.grades s ->
  (forall response, action <> AiGrading (Some (StudentSubmission.id s)) response) ->
  Reference.statusFollows action s s'.
Proof.
  intros Hid Hstatus Hgrades Hno. split; [done|]. rewrite Hstatus, Hgrades.
  split; [by left|]. intros [?|[?|[response Hr]]]; [done | done |].
  by destruct (Hno response).
Qed.

Lemma statusFollows_unchanged (action : @Action File) students :
  (forall sel response, action <> AiGrading sel response) ->
  Forall2 (Reference.statusFollows action) students students.
Proof.
  intros Hno. rewrite <- (list_fmap_id students) at 2.
  apply Forall2_fmap_related. intros s _. by apply statusFollows_kept.
Qed.

(** Replacing the records that carry the selected id by a graded record
    of that id. *)
Lemma statusFollows_replaced (action : @Action File) students sel u :
  Some (StudentSubmission.id u) = sel ->
  StudentSubmission.status u = GRADED ->
  (forall s,
      s ∈ students -> Some (StudentSubmission.id s) = sel ->
      StudentSubmission.status s = PENDING ->
      StudentSubmission.grades u <> StudentSubmission.grades s
      \/ exists response, action = AiGrading sel response) ->
  (forall sel' response, action = AiGrading sel' response -> sel' = sel) ->
  Forall2 (Reference.statusFollows action) students (replaceStudent students sel u).
Proof.
  intros Hu Hgraded Htouched Hai. unfold replaceStudent.
  apply Forall2_fmap_related. intros s Hin.
  destruct (bool_decide (Some (StudentSubmission.id s) = sel)) eqn:Hb.
  - apply bool_decide_eq_true in Hb. split; [congruence|].
    split; [|done]. intros _.
    destruct (status_cases (StudentSubmission.status s)) as [Hp|Hg]; [|by left].
    right. destruct (Htouched s Hin Hb Hp) as [?|[response ->]]; [by left|].
    right. exists response. by rewrite Hb.
  - apply bool_decide_eq_false in Hb. apply statusFollows_kept; [done..|].
    intros response Hr. apply Hb. by eapply Hai.
Qed.

(** What one handler, run on the assessment it reads, does to the
    students. *)
Lemma perform_statusFollows a (action : @Action File) a' :
  pendingUngraded a ->
  perform load blobToBase64 a action = Some a' ->
  Forall2 (Reference.statusFollows action)
          (Assessment.students a) (Assessment.students a')
  \/ (exists newStudents,
        Assessment.students a' = Assessment.students a ++ newStudents
        /\ Forall freshStudent newStudents)
  \/ Assessment.students a' `sublist_of` Assessment.students a.
Proof.
  intros Hinv Hperform. destruct action; simpl in Hperform.
  - (* RubricFileUpload *)
    destruct generated; [|done]. injection Hperform as <-.
    left. by apply statusFollows_unchanged.
  - injection Hperform as <-. left. by apply statusFollows_unchanged.
  - injection Hperform as <-. left. by apply statusFollows_unchanged.
  - injection Hperform as <-. left. by apply statusFollows_unchanged.
  - (* SubmissionUpload *)
    injection Hperform as <-. unfold StudentSetup.handleStudentSubmissionUpload.
    destruct (truthyOpt studentId); simpl.
    + left. apply Forall2_fmap_related. intros s _.
      destruct (bool_decide _); by apply statusFollows_kept.
    + right. left. eexists. split; [done|].
      apply Forall_singleton, newStudent_fresh.
  - (* RosterImport *)
    unfold StudentSetup.handleRosterImport in Hperform.
    destruct parsed as [names|e]; [|done].
    destruct (length names =? 0)%nat; [done|]. injection Hperform as <-. simpl.
    right. left. eexists. split; [done|]. apply Forall_forall.
    intros s (i & name & -> & _)%elem_of_lookup_imap. apply newStudent_fresh.
  - (* FinalizeSplit *)
    unfold StudentSetup.finalizeSplit in Hperform.
    destruct bulkFile as [bulkFile|]; [|done].
    destruct (length detectedRanges =? 0)%nat; [done|].
    destruct (PdfSplittingService.splitPdfByRanges _ _ _) as [results|e]; [|done].
    destruct (StudentSetup.studentsOfResults _ _ _ _ _ _) as [newStudents|e] eqn:Hnew;
      [|done].
    injection Hperform as <-. simpl.
    right. left. eexists. split; [done|].
    eapply studentsOfResults_fresh; [exact Hnew|]. constructor.
  - (* RemoveStudent *)
    injection Hperform as <-. simpl. right. right. apply sublist_filter.
  - (* ClearAll *)
    injection Hperform as <-. simpl. right. right. apply sublist_nil_l.
  - (* GradeChange *)
    apply handleGradeChange_inv in Hperform as (s0 & newGrades & Hs0 & -> & ->).
    apply findStudent_Some in Hs0 as [_ Hsel]. simpl.
    left. apply statusFollows_replaced; [done | done | | done].
    intros s Hin _ Hpending. left. simpl.
    rewrite (Hinv s Hin Hpending). intros Hempty.
    apply (f_equal (fun grades => grades !! questionId)) in Hempty.
    by rewrite lookup_insert_eq, lookup_empty in Hempty.
  - (* KeyChange *)
    injection Hperform as <-.
    destruct (handleKeyChange_students a selectedStudentId questionId newKey)
      as [->|(s0 & g & newScore & Hs0 & Hg & ->)];
      [left; by apply statusFollows_unchanged|].
    apply findStudent_Some in Hs0 as [Hin0 Hsel].
    left. apply statusFollows_replaced; [done | | | done].
    + simpl.
      destruct (status_cases (StudentSubmission.status s0)) as [Hp|Hgr]; [|done].
      rewrite (Hinv s0 Hin0 Hp) in Hg. by rewrite lookup_empty in Hg.
    + intros s Hin _ Hpending. left. simpl.
      rewrite (Hinv s Hin Hpending). intros Hempty.
      apply (f_equal (fun grades => grades !! questionId)) in Hempty.
      by rewrite lookup_insert_eq, lookup_empty in Hempty.
  - (* AiGrading *)
    apply runAiGrading_inv in Hperform as (s0 & results & Hs0 & _ & _ & ->).
    apply findStudent_Some in Hs0 as [_ Hsel]. simpl.
    left. apply statusFollows_replaced; [done | done | |].
    + intros s _ _ _. right. by eexists.
    + by intros sel' response' [= -> _].
  - (* AddCannedComment *)
    unfold addCannedComment in Hperform.
    destruct (negb _); [|done]. injection Hperform as <-.
    left. by apply statusFollows_unchanged.
Qed.

(** Taken one at a time, on the assessment it reads, every handler keeps
    the status one-way, in every assessment the application can hold: it
    updates student records in place, appends records, or removes records;
    a record updated in place keeps its id and is graded afterwards exactly
    when it was graded before, or its grades were changed, or AI results
    were applied to its id; an appended record is pending and has no
    grade; and after a manual grade edit or an application of AI results,
    the selected student exists and every record with the selected id is
    graded. *)
Theorem handlers_keep_status_one_way a (action : @Action File) a' :
  reachable load blobToBase64 a ->
  perform load blobToBase64 a action = Some a' ->
  (Forall2 (Reference.statusFollows action)
           (Assessment.students a) (Assessment.students a')
   \/ (exists newStudents,
         Assessment.students a' = Assessment.students a ++ newStudents
         /\ Forall freshStudent newStudents)
   \/ Assessment.students a' `sublist_of` Assessment.students a)
  /\ (forall sel,
        (exists q gd, action = GradeChange sel q gd)
        \/ (exists response, action = AiGrading sel response) ->
        is_Some (findStudent (Assessment.students a') sel)
        /\ forall s',
             s' ∈ Assessment.students a' ->
             Some (StudentSubmission.id s') = sel ->
             StudentSubmission.status s' = GRADED).
Proof.
  intros Hreach Hperform.
  split; [eapply perform_statusFollows;
          [by apply reachable_pendingUngraded | exact Hperform]|].
  intros sel [(q & gd & ->)|(response & ->)]; simpl in Hperform.
  - split.
    + apply handleGradeChange_inv in Hperform as (s & newGrades & Hs & _ & ->).
      pose proof (findStudent_Some _ _ _ Hs) as [_ Hsel]. simpl.
      eexists. by eapply findStudent_replaceStudent.
    + intros s' Hin Hid. by eapply handleGradeChange_total.
  - apply runAiGrading_inv in Hperform as (s & results & Hs & _ & _ & ->).
    pose proof (findStudent_Some _ _ _ Hs) as [_ Hsel]. simpl. split.
    + eexists. by eapply findStudent_replaceStudent.
    + intros s' Hin Hid.
      apply elem_of_replaceStudent in Hin; [|done..]. by subst s'.
Qed.

(** Every assessment held in a session is one the handlers make of the
    initial assessment, also when handlers complete late. *)
Lemma after_reachable past (event : @Session.Event File) :
  Forall (reachable load blobToBase64) past ->
  Forall (reachable load blobToBase64) (Session.after load blobToBase64 past event).
Proof.
  intros Hpast.
  assert (Hemit : forall read action,
             (forall a, read = Some a -> a ∈ past) ->
             Forall (reachable load blobToBase64)
                    (Session.emit load blobToBase64 past read action)).
  { intros read action Hread. unfold Session.emit.
    destruct read as [a|]; simpl; [|done].
    destruct (perform load blobToBase64 a action) as [a'|] eqn:Hperform; [|done].
    constructor; [|done]. eapply reachable_perform; [|exact Hperform].
    eapply Forall_forall; [exact Hpast|]. by apply Hread. }
  destruct event as [action|updatesAgo action]; simpl.
  - apply Hemit. intros a Ha. destruct past; [done|].
    injection Ha as ->. apply list_elem_of_here.
  - destruct (Session.completesLater action); [|done].
    apply Hemit. intros a Ha. by eapply list_elem_of_lookup_2.
Qed.

Lemma session_reachable created (events : list (@Session.Event File)) :
  Forall (reachable load blobToBase64)
         (Session.session load blobToBase64 created events).
Proof.
  unfold Session.session.
  assert (Hstart : Forall (reachable load blobToBase64) [initialAssessment created])
    by (apply Forall_singleton, reachable_initial).
  revert Hstart. generalize [initialAssessment created].
  induction events as [|event events IH]; intros past Hpast; [done|].
  simpl. by apply IH, after_reachable.
Qed.
End Actions.

Lemma handlers_keep_status_one_way_witness :
  is_Some (findStudent (Assessment.students Examples.annGraded) (Some "s-17-0.5"))
  /\ forall s',
       s' ∈ Assessment.students Examples.annGraded ->
       Some (StudentSubmission.id s') = Some "s-17-0.5" ->
       StudentSubmission.status s' = GRADED.
Proof.
  assert (Hreach : reachable Examples.loadPages Examples.toBase64 Examples.withAnn).
  { eapply reachable_perform with (action := Examples.upload);
      [apply (reachable_initial _ _ 0) | vm_compute; reflexivity]. }
  assert (Hperform : perform Examples.loadPages Examples.toBase64 Examples.withAnn
                       Examples.gradeAnn = Some Examples.annGraded)
    by (vm_compute; reflexivity).
  destruct (handlers_keep_status_one_way Examples.loadPages Examples.toBase64
              Examples.withAnn Examples.gradeAnn Examples.annGraded
              Hreach Hperform)
    as [_ Hgraded].
  apply (Hgraded (Some "s-17-0.5")). left. by eexists _, _.
Defined.

(** C6 (the code departs from it). A handler that completes late takes a
    graded student back to pending. In the session of the example a
    question is added, two submissions are uploaded and AI grading of the
    first student is started; while the call is awaited the second student
    is graded by hand and is graded in the assessment then held; when the
    call returns, [runAiGrading] writes the students of the assessment it
    read before that edit, with the first student graded: in the
    assessment held last the second student is pending again and the grade
    is gone. Every assessment held on the way is one the handlers make of
    the initial assessment. *)
Theorem late_completion_resets_graded_student :
  exists afterAi afterEdit earlier bob bob',
    Session.session Examples.loadPages Examples.toBase64 0 MoreExamples.overlap
    = afterAi :: afterEdit :: earlier
    /\ Forall (reachable Examples.loadPages Examples.toBase64)
              (afterAi :: afterEdit :: earlier)
    /\ findStudent (Assessment.students afterEdit) (Some "s-18-0.25") = Some bob
    /\ StudentSubmission.status bob = GRADED
    /\ QuestionGrade.score <$> StudentSubmission.grades bob !! "q-5" = Some 1
    /\ findStudent (Assessment.students afterAi) (Some "s-18-0.25") = Some bob'
    /\ StudentSubmission.status bob' = PENDING
    /\ StudentSubmission.grades bob' = ∅.
Proof.
  pose proof (session_reachable Examples.loadPages Examples.toBase64 0
                MoreExamples.overlap) as Hreach.
  revert Hreach.
  destruct (Session.session Examples.loadPages Examples.toBase64 0 MoreExamples.overlap)
    as [|afterAi [|afterEdit earlier]] eqn:Hsession; [done | done |].
  intros Hreach. exists afterAi, afterEdit, earlier.
  assert (Hai : afterAi
                = default Examples.started
                    (Session.session Examples.loadPages Examples.toBase64 0
                       MoreExamples.overlap !! 0%nat))
    by (by rewrite Hsession).
  assert (Hedit : afterEdit
                  = default Examples.started
                      (Session.session Examples.loadPages Examples.toBase64 0
                         MoreExamples.overlap !! 1%nat))
    by (by rewrite Hsession).
  clear Hsession. subst afterAi afterEdit.
  eexists _, _. split; [reflexivity|]. split; [exact Hreach|].
  split; [vm_compute; reflexivity|].
  split; [reflexivity|]. split; [vm_compute; reflexivity|].
  split; [vm_compute; reflexivity|]. split; reflexivity.
Qed.
End LifecycleProofs.

(** ** The AI gateway *)

Module GeminiProofs.
Import GeminiService.

Section Proofs.
Variable apiKey : string.
Variable remote : nat -> Request -> Result Response.
Variable parseRubric : string -> Result (list GeneratedItem.t).
Variable parseNames : string -> Result (list string).
Variable parseRanges : string -> Result (list StudentRange.t).
Variable parseResults : string -> Result (list AiGradingResult.t).
Variable stringifyRubric : list RubricItem.t -> string.
Variable dateNow : nat -> Z.

Lemma truthy_false (x : string) : truthy x = false <-> x = "".
Proof. destruct x; simpl; split; done. Qed.

Lemma truthy_apiKey : apiKey <> "" -> truthy apiKey = true.
Proof. destruct apiKey; simpl; done. Qed.

(** The shape shared by the four operations: guard, one call inside
    [try], empty-text default, decoding, and the handler that logs and
    throws again. *)
Lemma guarded_call_contract {A : Type} (request : Request)
  (decode : string -> Result (list A)) (label : string) :
  meetsContract apiKey remote
    (if negb (truthy apiKey) then throw (Error "API Key not found")
     else
       tryCatch
         (response ← generateContent remote request;
          match responseText response with
          | None => mret []
          | Some text => if negb (truthy text) then mret [] else lift (decode text)
          end)
         (fun error => consoleError label error;; throw error))
    request decode.
Proof.
  intros w. split.
  - intros ->. done.
  - intros Hkey. rewrite truthy_apiKey by done. simpl.
    unfold tryCatch, mbind, gateway_bind, generateContent. simpl.
    destruct (remote (length (requests w)) request) as [response|e]; simpl;
      [|done].
    destruct (responseText response) as [text|]; simpl; [|done].
    destruct (decide (text = "")) as [->|Hne]; simpl; [done|].
    rewrite (proj2 (GradingProofs.truthy_true text) Hne). simpl.
    unfold lift. by destruct (decode text).
Qed.

Lemma generateRubricFromPDF_contract base64Data mimeType :
  meetsContract apiKey remote
    (generateRubricFromPDF apiKey remote parseRubric dateNow base64Data mimeType)
    (rubricRequest base64Data mimeType)
    (decodeRubric parseRubric dateNow).
Proof.
  intros w. split.
  - intros ->. done.
  - intros Hkey. unfold generateRubricFromPDF.
    rewrite truthy_apiKey by done. simpl.
    unfold tryCatch, mbind, gateway_bind, generateContent. simpl.
    destruct (remote (length (requests w)) _) as [response|e]; simpl; [|done].
    destruct (responseText response) as [text|]; simpl; [|done].
    destruct (decide (text = "")) as [->|Hne]; simpl; [done|].
    rewrite (proj2 (GradingProofs.truthy_true text) Hne). simpl.
    unfold lift, decodeRubric. by destruct (parseRubric text).
Qed.

(** C7. Each of the four operations of the gateway meets the contract:
    with an empty credential it throws the configuration error at once,
    sending no request; with a credential it sends exactly one request,
    whatever the outcome; it throws the error of a failed call and the
    error of a failed decoding as they are; and it returns the empty
    list when the response has no text or an empty text. *)
Theorem gateway_operations_contract :
  (forall base64Data mimeType,
      meetsContract apiKey remote
        (generateRubricFromPDF apiKey remote parseRubric dateNow base64Data mimeType)
        (rubricRequest base64Data mimeType)
        (decodeRubric parseRubric dateNow))
  /\ (forall base64Data mimeType,
        meetsContract apiKey remote
          (parseStudentRoster apiKey remote parseNames base64Data mimeType)
          (rosterRequest base64Data mimeType)
          parseNames)
  /\ (forall base64Data mimeType,
        meetsContract apiKey remote
          (identifyStudentRanges apiKey remote parseRanges base64Data mimeType)
          (rangesRequest base64Data mimeType)
          parseRanges)
  /\ (forall rubric studentBase64 mimeType,
        meetsContract apiKey remote
          (gradeStudentSubmission apiKey remote parseResults stringifyRubric
             rubric studentBase64 mimeType)
          (gradingRequest stringifyRubric rubric studentBase64 mimeType)
          parseResults).
Proof.
  split; [apply generateRubricFromPDF_contract|].
  split; [|split]; intros; apply guarded_call_contract.
Qed.
End Proofs.

Lemma gateway_operations_contract_witness :
  (gradeStudentSubmission "" Examples.unreachable Examples.noParse
     Examples.printRubric [Examples.q1] "JVBERi0=" "application/pdf" Examples.quiet)
  = (Throw (Error "API Key not found"), Examples.quiet)
  /\ (parseStudentRoster "key" Examples.unreachable Examples.noParse
        "JVBERi0=" "application/pdf" Examples.quiet).1
     = Throw (Rejection "503 Service Unavailable").
Proof.
  split.
  - destruct (gateway_operations_contract "" Examples.unreachable
                Examples.noParse Examples.noParse Examples.noParse Examples.noParse
                Examples.printRubric Examples.clock) as (_ & _ & _ & Hgrade).
    destruct (Hgrade [Examples.q1] "JVBERi0=" "application/pdf" Examples.quiet)
      as [Hnokey _].
    apply Hnokey. reflexivity.
  - destruct (gateway_operations_contract "key" Examples.unreachable
                Examples.noParse Examples.noParse Examples.noParse Examples.noParse
                Examples.printRubric Examples.clock) as (_ & Hroster & _).
    destruct (Hroster "JVBERi0=" "application/pdf" Examples.quiet) as [_ Hkey].
    destruct Hkey as [_ Hthrow]; [discriminate|]. exact Hthrow.
Defined.
End GeminiProofs.

(** ** More on the PDF splitter *)

Module PdfSplittingExtras.
Import PdfLib PdfSplittingService PdfSplittingProofs Reference.

Section Proofs.
Context {Page File : Type}.
Variable load : File -> Result (PDFDocument Page).

Implicit Types (doc : PDFDocument Page) (range : SplitRange.t).

Lemma omap_entryOf_valid doc ranges :
  Forall (validRange doc) ranges ->
  omap (entryOf doc) ranges
  = (fun range =>
       mkSplitResult (SplitRange.studentName range)
         (mkBlob (sourcePages doc range) "application/pdf")) <$> ranges.
Proof.
  induction 1 as [|range ranges Hv _ IH]; simpl; [done|].
  rewrite entryOf_valid by done. f_equal. exact IH.
Qed.

Lemma tiles_le next ranges last : tiles next ranges last -> next <= last + 1.
Proof.
  revert next. induction ranges as [|range ranges IH]; intros next; simpl; [lia|].
  intros (_ & Hle & Hrest). apply IH in Hrest. lia.
Qed.

Lemma tiles_pages doc next ranges last :
  1 <= next ->
  last <= getPageCount doc ->
  tiles next ranges last ->
  Forall (validRange doc) ranges
  /\ concat (sourcePages doc <$> ranges)
     = take (Z.to_nat (last - next + 1)) (drop (Z.to_nat (next - 1)) doc).
Proof.
  intros Hnext Hlast. revert next Hnext.
  induction ranges as [|range ranges IH]; intros next Hnext; cbn [tiles].
  - intros ->. split; [constructor|]. simpl.
    replace (Z.to_nat _) with 0%nat by lia. by rewrite take_0.
  - intros (Hstart & Hle & Hrest). rewrite fmap_cons. cbn [concat].
    pose proof (tiles_le _ _ _ Hrest) as Hend.
    destruct (IH (SplitRange.endPage range + 1) ltac:(lia) Hrest) as [Hvalid Hconcat].
    split.
    + constructor; [|done]. unfold validRange. lia.
    + rewrite Hconcat. unfold sourcePages. rewrite Hstart.
      replace (Z.to_nat (SplitRange.endPage range + 1 - 1))
        with (Z.to_nat (next - 1) + Z.to_nat (SplitRange.endPage range - next + 1))%nat
        by lia.
      rewrite <- drop_drop, take_take_drop. f_equal. lia.
Qed.

(** Splitting by ranges that tile the whole document loses no page and
    repeats none: there is one output per range, under the range's name and
    in the order of the ranges, and the output documents put end to end are
    the source. *)
Theorem splitPdfByRanges_tiling (originalFile : File) doc ranges :
  load originalFile = Ok doc ->
  tiles 1 ranges (getPageCount doc) ->
  exists results,
    splitPdfByRanges load originalFile ranges = Ok results
    /\ studentName <$> results = SplitRange.studentName <$> ranges
    /\ concat ((fun res => saved (blob res)) <$> results) = doc.
Proof.
  intros Hload Htiles.
  destruct (tiles_pages doc 1 ranges (getPageCount doc)) as [Hvalid Hconcat];
    [lia | lia | done |].
  eexists. unfold splitPdfByRanges. rewrite Hload.
  rewrite splitLoop_omap
    by (eapply Forall_impl; [exact Hvalid | apply validRange_startsInDocument]).
  split; [reflexivity|]. simpl. rewrite omap_entryOf_valid by done.
  rewrite <- !list_fmap_compose. split; [done|].
  change ((fun res => saved (blob res)) ∘ _) with (sourcePages doc).
  rewrite Hconcat. simpl. rewrite drop_0. apply take_ge.
  unfold getPageCount. lia.
Qed.
End Proofs.

Lemma splitPdfByRanges_tiling_witness :
  exists results,
    splitPdfByRanges Examples.loadPages Examples.fourPages MoreExamples.pageTiling
    = Ok results
    /\ concat ((fun res => saved (blob res)) <$> results) = Examples.fourPages.
Proof.
  destruct (splitPdfByRanges_tiling Examples.loadPages Examples.fourPages
              Examples.fourPages MoreExamples.pageTiling eq_refl)
    as (results & Hsplit & _ & Hconcat).
  - simpl. unfold getPageCount. simpl. lia.
  - exists results. split; [exact Hsplit | exact Hconcat].
Defined.

Lemma splitPdfByRanges_succeeds_iff_witness :
  Forall startsInDocument Examples.aliceBob
  /\ exists results,
       splitPdfByRanges Examples.loadPages Examples.fourPages Examples.aliceBob
       = Ok results.
Proof.
  assert (Hstart : Forall startsInDocument Examples.aliceBob)
    by (repeat constructor; unfold startsInDocument; simpl; lia).
  split; [exact Hstart|].
  apply (splitPdfByRanges_succeeds_iff Examples.loadPages Examples.fourPages
           Examples.fourPages Examples.aliceBob eq_refl).
  exact Hstart.
Defined.
End PdfSplittingExtras.

(** ** Reading a blob as Base64 *)

Module FileReadingProofs.
Import FileReading Reference.

Lemma split_nonempty sep s : split sep s <> [].
Proof.
  destruct s as [|c s]; simpl; [done|].
  destruct (Ascii.eqb c sep); [done|]. by destruct (split sep s).
Qed.

Lemma split_without sep s : ~ occurs sep s -> split sep s = [s].
Proof.
  unfold occurs. induction s as [|c s IH]; simpl; [done|].
  intros Hno. destruct (Ascii.eqb_spec c sep) as [->|Hne]; [tauto|].
  rewrite IH by tauto. done.
Qed.

Lemma split_at_first sep header rest :
  ~ occurs sep header ->
  split sep (header +:+ String sep rest) = header :: split sep rest.
Proof.
  unfold occurs. induction header as [|c header IH]; simpl.
  - intros _. by rewrite Ascii.eqb_refl.
  - intros Hno. destruct (Ascii.eqb_spec c sep) as [->|Hne]; [tauto|].
    rewrite IH by tauto. done.
Qed.

Lemma split_pieces_without sep s : Forall (fun piece => ~ occurs sep piece) (split sep s).
Proof.
  unfold occurs. induction s as [|c s IH]; simpl.
  - constructor; [|constructor]. simpl. tauto.
  - destruct (Ascii.eqb_spec c sep) as [->|Hne].
    + constructor; [simpl; tauto | exact IH].
    + destruct (split sep s) as [|piece pieces] eqn:Hsplit;
        [by apply split_nonempty in Hsplit|].
      apply Forall_cons in IH as [Hpiece Hpieces].
      constructor; [|done]. simpl. intros [Heq|Hin]; [congruence|tauto].
Qed.

Section Reader.
Context {Blob : Type}.
Variable readAsDataURL : Blob -> Result string.

(** [blobToBase64] resolves with the text between the first and the second
    comma of the data URL: for a data URL made of a header without comma,
    a comma and a Base64 payload (which has no comma) it is the payload;
    what it resolves with never contains a comma; and it resolves with
    [undefined] when the text read has no comma. A failed read is
    rejected with the reader's error. *)
Theorem blobToBase64_payload (blob : Blob) :
  (forall header payload,
      readAsDataURL blob = Ok (header +:+ String "," payload) ->
      ~ occurs "," header ->
      ~ occurs "," payload ->
      blobToBase64 readAsDataURL blob = Ok (Some payload))
  /\ (forall base64,
        blobToBase64 readAsDataURL blob = Ok (Some base64) -> ~ occurs "," base64)
  /\ (forall result,
        readAsDataURL blob = Ok result ->
        ~ occurs "," result ->
        blobToBase64 readAsDataURL blob = Ok None)
  /\ (forall e,
        readAsDataURL blob = Throw e -> blobToBase64 readAsDataURL blob = Throw e).
Proof.
  unfold blobToBase64, afterComma. repeat split.
  - intros header payload -> Hheader Hpayload.
    by rewrite split_at_first, split_without.
  - intros base64. destruct (readAsDataURL blob) as [result|e]; [|done].
    intros [= Hpiece].
    pose proof (split_pieces_without "," result) as Hall.
    eapply Forall_lookup_1 in Hall; [exact Hall | exact Hpiece].
  - intros result -> Hno. by rewrite split_without.
  - by intros e ->.
Qed.
End Reader.

Lemma blobToBase64_payload_witness :
  blobToBase64 MoreExamples.readPdf Examples.fourPages = Ok (Some "JVBERi0=").
Proof.
  destruct (blobToBase64_payload MoreExamples.readPdf Examples.fourPages)
    as (Hpayload & _).
  apply (Hpayload "data:application/pdf;base64" "JVBERi0="); [reflexivity | |].
  - unfold occurs. simpl. intros H. repeat (destruct H as [H|H]; [discriminate|]). done.
  - unfold occurs. simpl. intros H. repeat (destruct H as [H|H]; [discriminate|]). done.
Defined.
End FileReadingProofs.

(** ** Trimming and upper-casing *)

Module JsProofs.
Import Reference.

Lemma isWhiteSpace_upperChar c : isWhiteSpace (upperChar c) = isWhiteSpace c.
Proof. destruct c as [[] [] [] [] [] [] [] []]; reflexivity. Qed.

Lemma upperChar_twice c : upperChar (upperChar c) = upperChar c.
Proof. destruct c as [[] [] [] [] [] [] [] []]; reflexivity. Qed.

Lemma toUpperCase_chars s :
  list_ascii_of_string (toUpperCase s) = List.map upperChar (list_ascii_of_string s).
Proof. induction s as [|c s IH]; simpl; [done|]. by rewrite IH. Qed.

Lemma toUpperCase_of_chars l :
  toUpperCase (string_of_list_ascii l) = string_of_list_ascii (List.map upperChar l).
Proof. induction l as [|c l IH]; simpl; [done|]. by rewrite IH. Qed.

Lemma toUpperCase_twice s : toUpperCase (toUpperCase s) = toUpperCase s.
Proof.
  induction s as [|c s IH]; simpl; [done|]. by rewrite upperChar_twice, IH.
Qed.

Lemma toUpperCase_empty s : toUpperCase s = "" <-> s = "".
Proof. destruct s; simpl; split; done. Qed.

Lemma trimStartChars_map l :
  trimStartChars (List.map upperChar l) = List.map upperChar (trimStartChars l).
Proof.
  induction l as [|c l IH]; simpl; [done|].
  rewrite isWhiteSpace_upperChar. by destruct (isWhiteSpace c).
Qed.

(** Trimming commutes with upper-casing. *)
Lemma trim_toUpperCase s : trim (toUpperCase s) = toUpperCase (trim s).
Proof.
  unfold trim. rewrite toUpperCase_of_chars, toUpperCase_chars.
  by rewrite trimStartChars_map, <- map_rev, trimStartChars_map, <- map_rev.
Qed.

Lemma trimStartChars_clean l : startsClean (trimStartChars l).
Proof.
  induction l as [|c l IH]; simpl; [done|].
  destruct (isWhiteSpace c) eqn:Hc; [done|]. simpl. done.
Qed.

Lemma trimStartChars_of_clean l : startsClean l -> trimStartChars l = l.
Proof. destruct l as [|c l]; simpl; [done|]. by intros ->. Qed.

Lemma trimStartChars_suffix l : exists dropped, l = dropped ++ trimStartChars l.
Proof.
  induction l as [|c l [dropped IH]]; simpl; [by exists []|].
  destruct (isWhiteSpace c); [|by exists []].
  exists (c :: dropped). simpl. by rewrite <- IH.
Qed.

Lemma startsClean_prefix (l k : list ascii) :
  startsClean (l ++ k) -> startsClean l.
Proof. destruct l; simpl; done. Qed.

(** Trimming twice is trimming once. *)
Lemma trim_twice s : trim (trim s) = trim s.
Proof.
  unfold trim. rewrite list_ascii_of_string_of_list_ascii.
  set (X := trimStartChars (list_ascii_of_string s)).
  set (Y := trimStartChars (rev X)).
  assert (Hclean : startsClean (rev Y)).
  { destruct (trimStartChars_suffix (rev X)) as [dropped Hd]. fold Y in Hd.
    apply (startsClean_prefix _ (rev dropped)).
    rewrite <- rev_app_distr, <- Hd, rev_involutive. apply trimStartChars_clean. }
  rewrite (trimStartChars_of_clean (rev Y)) by done.
  rewrite rev_involutive.
  rewrite (trimStartChars_of_clean Y) by apply trimStartChars_clean. done.
Qed.

(** Normalising a letter twice is normalising it once. *)
Lemma normalise_twice s :
  toUpperCase (trim (toUpperCase (trim s))) = toUpperCase (trim s).
Proof. by rewrite trim_toUpperCase, trim_twice, toUpperCase_twice. Qed.

End JsProofs.

(** ** More on the grading workspace *)

Module GradingExtras.
Import GradingView GradingProofs Reference.

Implicit Types (a : Assessment.t) (s : StudentSubmission.t)
  (sel : option string) (q : string) (g : QuestionGrade.t).

Lemma spreadOver_twice g (update : PartialGrade.t) :
  PartialGrade.spreadOver (PartialGrade.spreadOver g update) update
  = PartialGrade.spreadOver g update.
Proof.
  destruct g, update as [[?|] [?|] [?|] [?|]]; reflexivity.
Qed.

Lemma replaceStudent_twice students sel u :
  Some (StudentSubmission.id u) = sel ->
  replaceStudent (replaceStudent students sel u) sel u = replaceStudent students sel u.
Proof.
  intros Hu. unfold replaceStudent. rewrite <- list_fmap_compose.
  apply list_fmap_ext. intros i s _. simpl.
  destruct (bool_decide (Some (StudentSubmission.id s) = sel)) eqn:Hs; [|by rewrite Hs].
  by rewrite bool_decide_eq_true_2.
Qed.

(** The selected student after [handleGradeChange]. *)
Lemma handleGradeChange_selected a sel q gd s :
  findStudent (Assessment.students a) sel = Some s ->
  exists a' s',
    handleGradeChange a sel q gd = Some a'
    /\ findStudent (Assessment.students a') sel = Some s'
    /\ Assessment.rubric a' = Assessment.rubric a
    /\ StudentSubmission.grades s'
       = <[q := PartialGrade.spreadOver
                  (default defaultGrade (StudentSubmission.grades s !! q))
                  (newGradeData (findRubricItem (Assessment.rubric a) q) gd)]>
           (StudentSubmission.grades s)
    /\ StudentSubmission.totalScore s' = sumScores (StudentSubmission.grades s')
    /\ StudentSubmission.status s' = GRADED
    /\ StudentSubmission.id s' = StudentSubmission.id s.
Proof.
  intros Hs.
  destruct (handleGradeChange_emits a sel q gd s Hs) as [a' Ha'].
  pose proof Ha' as (s0 & newGrades & Hs0 & HnewGrades & ->)%handleGradeChange_inv.
  rewrite Hs in Hs0. injection Hs0 as <-.
  pose proof (findStudent_Some _ _ _ Hs) as [_ Hsel].
  eexists _, _. split; [exact Ha'|]. simpl.
  split; [by eapply findStudent_replaceStudent|]. simpl.
  by rewrite HnewGrades.
Qed.

(** Editing a field of an existing grade keeps what the edit does not
    supply: the comment and the AI mark of the entry stay unless the edit
    carries them, and an edit without an answer keeps the answer and
    stores its score, if it has one, as it is, whatever the type of the
    item. *)
Theorem handleGradeChange_existing_entry a sel q gd s g :
  findStudent (Assessment.students a) sel = Some s ->
  StudentSubmission.grades s !! q = Some g ->
  exists a' s' g',
    handleGradeChange a sel q gd = Some a'
    /\ findStudent (Assessment.students a') sel = Some s'
    /\ StudentSubmission.grades s' !! q = Some g'
    /\ QuestionGrade.comment g'
       = default (QuestionGrade.comment g) (PartialGrade.comment gd)
    /\ QuestionGrade.isAiSuggested g'
       = match PartialGrade.isAiSuggested gd with
         | Some b => Some b
         | None => QuestionGrade.isAiSuggested g
         end
    /\ (PartialGrade.studentAnswer gd = None ->
        QuestionGrade.score g' = default (QuestionGrade.score g) (PartialGrade.score gd)
        /\ QuestionGrade.studentAnswer g' = QuestionGrade.studentAnswer g).
Proof.
  intros Hs Hg.
  destruct (handleGradeChange_selected a sel q gd s Hs)
    as (a' & s' & Ha' & Hs' & _ & Hgrades & _).
  eexists a', s', _. split; [exact Ha'|]. split; [exact Hs'|].
  split; [rewrite Hgrades, Hg; apply lookup_insert_eq|]. simpl.
  unfold newGradeData.
  destruct (findRubricItem (Assessment.rubric a) q) as [item|];
    destruct gd as [sc co [ans|] ai]; simpl;
    try (destruct (RubricItem.type item),
           (RubricItem.correctAnswer item) as [[|c key]|]; simpl);
    repeat split; done.
Qed.

Lemma handleGradeChange_existing_entry_witness :
  exists a' s' g',
    handleGradeChange Examples.keyChanged (Some "s1") "q1" (Examples.points 2) = Some a'
    /\ findStudent (Assessment.students a') (Some "s1") = Some s'
    /\ StudentSubmission.grades s' !! "q1" = Some g'
    /\ QuestionGrade.score g' = 2
    /\ QuestionGrade.studentAnswer g' = Some "C".
Proof.
  destruct (handleGradeChange_existing_entry Examples.keyChanged (Some "s1") "q1"
              (Examples.points 2)
              (default Examples.ann
                 (findStudent (Assessment.students Examples.keyChanged) (Some "s1")))
              (QuestionGrade.mk 5 "" (Some "C") None) eq_refl eq_refl)
    as (a' & s' & g' & Ha' & Hs' & Hg' & _ & _ & Hkeep).
  destruct (Hkeep eq_refl) as [Hscore Hanswer].
  exists a', s', g'. repeat split; assumption.
Defined.

(** A manual edit leaves the selected student's grades for the other items
    as they are, and the total it stores is the sum over the new mapping,
    the edited entry included. *)
Theorem handleGradeChange_other_grades a sel q gd s :
  findStudent (Assessment.students a) sel = Some s ->
  exists a' s' g',
    handleGradeChange a sel q gd = Some a'
    /\ findStudent (Assessment.students a') sel = Some s'
    /\ StudentSubmission.grades s' !! q = Some g'
    /\ (forall q', q' <> q ->
          StudentSubmission.grades s' !! q' = StudentSubmission.grades s !! q')
    /\ StudentSubmission.totalScore s' = sumScores (StudentSubmission.grades s').
Proof.
  intros Hs.
  destruct (handleGradeChange_selected a sel q gd s Hs)
    as (a' & s' & Ha' & Hs' & _ & Hgrades & Htotal & _).
  eexists a', s', _. split; [exact Ha'|]. split; [exact Hs'|].
  split; [rewrite Hgrades; apply lookup_insert_eq|]. split; [|exact Htotal].
  intros q' Hne. rewrite Hgrades. by apply lookup_insert_ne.
Qed.

Lemma handleGradeChange_other_grades_witness :
  exists a' s',
    handleGradeChange Examples.essayGraded (Some "s1") "q1" (Examples.answer "b")
    = Some a'
    /\ findStudent (Assessment.students a') (Some "s1") = Some s'
    /\ QuestionGrade.score <$> StudentSubmission.grades s' !! "q2" = Some 7.
Proof.
  destruct (handleGradeChange_other_grades Examples.essayGraded (Some "s1") "q1"
              (Examples.answer "b")
              (default Examples.ann
                 (findStudent (Assessment.students Examples.essayGraded) (Some "s1")))
              eq_refl)
    as (a' & s' & g' & Ha' & Hs' & _ & Hother & _).
  exists a', s'. split; [exact Ha'|]. split; [exact Hs'|].
  rewrite (Hother "q2") by discriminate. reflexivity.
Defined.

(** Making the same edit twice is making it once: on the assessment
    [handleGradeChange] emits, the same edit emits that assessment again. *)
Theorem handleGradeChange_idempotent a sel q gd a' :
  handleGradeChange a sel q gd = Some a' ->
  handleGradeChange a' sel q gd = Some a'.
Proof.
  intros Ha'.
  pose proof Ha' as (s & newGrades & Hs & HnewGrades & ->)%handleGradeChange_inv.
  pose proof (findStudent_Some _ _ _ Hs) as [_ Hsel].
  unfold handleGradeChange at 1. simpl.
  erewrite findStudent_replaceStudent; [|exact Hs|done]. simpl.
  rewrite HnewGrades, lookup_insert_eq. simpl.
  rewrite spreadOver_twice, insert_insert_eq, <- HnewGrades.
  rewrite replaceStudent_twice by done. done.
Qed.

Lemma handleGradeChange_idempotent_witness :
  handleGradeChange Examples.essayGraded (Some "s1") "q2" (Examples.points 7)
  = Some Examples.essayGraded.
Proof.
  apply (handleGradeChange_idempotent Examples.quiz). reflexivity.
Defined.

(** A key change in the grading view changes nothing but the key of the
    rubric items with the given id, which becomes the upper-cased text
    typed, and the score of the selected student's grade for the item:
    the student keeps id, name, file and status, the grades for the other
    items, and the comment, answer and AI mark of the grade for the item;
    no grade is created. *)
Theorem handleKeyChange_touches_key_and_score a sel q newKey s :
  findStudent (Assessment.students a) sel = Some s ->
  (forall (i : nat) r,
      Assessment.rubric a !! i = Some r ->
      Assessment.rubric (handleKeyChange a sel q newKey) !! i
      = Some (if decide (RubricItem.id r = q)
              then RubricItem.withCorrectAnswer r (toUpperCase newKey) else r))
  /\ length (Assessment.rubric (handleKeyChange a sel q newKey))
     = length (Assessment.rubric a)
  /\ Assessment.cannedComments (handleKeyChange a sel q newKey)
     = Assessment.cannedComments a
  /\ exists s',
       findStudent (Assessment.students (handleKeyChange a sel q newKey)) sel = Some s'
       /\ StudentSubmission.id s' = StudentSubmission.id s
       /\ StudentSubmission.studentName s' = StudentSubmission.studentName s
       /\ StudentSubmission.fileData s' = StudentSubmission.fileData s
       /\ StudentSubmission.status s' = StudentSubmission.status s
       /\ (forall q', q' <> q ->
             StudentSubmission.grades s' !! q' = StudentSubmission.grades s !! q')
       /\ match StudentSubmission.grades s !! q with
          | None => StudentSubmission.grades s' !! q = None
          | Some g =>
              exists newScore,
                StudentSubmission.grades s' !! q
                = Some (QuestionGrade.withScore g newScore)
          end.
Proof.
  intros Hs. split; [|split; [|split]].
  - intros i r Hi. unfold handleKeyChange. simpl.
    rewrite list_lookup_fmap, Hi. simpl.
    destruct (decide (RubricItem.id r = q)) as [Heq|Hne].
    + by rewrite bool_decide_eq_true_2.
    + by rewrite bool_decide_eq_false_2.
  - unfold handleKeyChange. simpl. apply length_fmap.
  - reflexivity.
  - pose proof (findStudent_Some _ _ _ Hs) as [_ Hsel].
    destruct (handleKeyChange_students a sel q newKey)
      as [->|(s0 & g & newScore & Hs0 & Hg & ->)].
    + exists s. split; [done|]. repeat split.
      destruct (StudentSubmission.grades s !! q) as [g|] eqn:Hg; [|done].
      exists (QuestionGrade.score g). by destruct g.
    + rewrite Hs in Hs0. injection Hs0 as <-.
      eexists. split; [by eapply findStudent_replaceStudent|]. simpl.
      repeat split.
      * intros q' Hne. by apply lookup_insert_ne.
      * rewrite Hg. exists newScore. apply lookup_insert_eq.
Qed.

Lemma handleKeyChange_touches_key_and_score_witness :
  exists s',
    findStudent (Assessment.students Examples.keyChanged) (Some "s1") = Some s'
    /\ StudentSubmission.status s' = GRADED
    /\ QuestionGrade.studentAnswer <$> StudentSubmission.grades s' !! "q1"
       = Some (Some "C").
Proof.
  destruct (handleKeyChange_touches_key_and_score Examples.bothAnswered (Some "s1")
              "q1" "C"
              (default Examples.ann
                 (findStudent (Assessment.students Examples.bothAnswered) (Some "s1")))
              eq_refl)
    as (_ & _ & _ & s' & Hs' & _ & _ & _ & Hstatus & _ & Hgrade).
  exists s'. split; [exact Hs'|]. split; [exact Hstatus|].
  simpl in Hgrade. destruct Hgrade as [newScore ->]. reflexivity.
Defined.

(** *** Applying AI results *)

Lemma foldl_applyResult_grades rubric acc results q :
  q ∈ AiGradingResult.questionId <$> results ->
  exists res,
    res ∈ results
    /\ AiGradingResult.questionId res = q
    /\ (foldl (applyResult rubric) acc results).1 !! q = Some (aiGrade rubric res).
Proof.
  intros Hin. revert acc.
  induction results as [|r l IH] using rev_ind; intros acc;
    [by apply elem_of_nil in Hin|].
  rewrite foldl_applyResult_app. simpl.
  destruct (decide (AiGradingResult.questionId r = q)) as [Heq|Hne].
  - exists r. split; [apply elem_of_app; right; apply list_elem_of_here|].
    split; [done|]. rewrite <- Heq. apply applyResult_lookup.
  - rewrite fmap_app in Hin. apply elem_of_app in Hin as [Hin|Hin];
      [|apply list_elem_of_singleton in Hin; congruence].
    destruct (IH Hin acc) as (res & Hres & Hq & Hlookup).
    exists res. split; [apply elem_of_app; by left|]. split; [done|].
    destruct (foldl (applyResult rubric) acc l) as [newGrades newTotal].
    simpl in *. by rewrite lookup_insert_ne.
Qed.

Lemma foldl_applyResult_untouched rubric acc results q :
  q ∉ AiGradingResult.questionId <$> results ->
  (foldl (applyResult rubric) acc results).1 !! q = acc.1 !! q.
Proof.
  intros Hnot. apply foldl_applyResult_lookup_other.
  apply Forall_forall. intros r Hr Heq. apply Hnot.
  apply list_elem_of_fmap. by exists r.
Qed.

(** The selected student after [runAiGrading]. *)
Lemma runAiGrading_selected a sel results s :
  findStudent (Assessment.students a) sel = Some s ->
  truthyOpt (StudentSubmission.fileData s) = true ->
  exists a' s',
    runAiGrading a sel (Ok results) = Some a'
    /\ findStudent (Assessment.students a') sel = Some s'
    /\ StudentSubmission.grades s'
       = (foldl (applyResult (Assessment.rubric a)) (StudentSubmission.grades s, 0)
                results).1
    /\ StudentSubmission.totalScore s'
       = foldr (fun res sum => finalScore (Assessment.rubric a) res + sum) 0 results
    /\ StudentSubmission.status s' = GRADED.
Proof.
  intros Hs Hfile.
  destruct (runAiGrading_emits a sel results s Hs Hfile) as [a' Ha'].
  pose proof Ha' as (s0 & results' & Hs0 & _ & [= <-] & ->)%runAiGrading_inv.
  rewrite Hs in Hs0. injection Hs0 as <-.
  pose proof (findStudent_Some _ _ _ Hs) as [_ Hsel].
  eexists _, _. split; [exact Ha'|]. simpl.
  split; [by eapply findStudent_replaceStudent|]. simpl.
  split; [done|]. split; [|done].
  rewrite foldl_applyResult_total. simpl. lia.
Qed.

(** Applying AI results replaces, it does not merge: the student's grade
    for an item no result names is kept as it is; for an item some result
    names, the grade is the one built from a result for that item (its
    comment and answer are the result's, and it is marked as suggested by
    the AI), whatever the student had there before. *)
Theorem runAiGrading_replaces_named_grades a sel results s :
  findStudent (Assessment.students a) sel = Some s ->
  truthyOpt (StudentSubmission.fileData s) = true ->
  exists a' s',
    runAiGrading a sel (Ok results) = Some a'
    /\ findStudent (Assessment.students a') sel = Some s'
    /\ (forall q,
          q ∉ AiGradingResult.questionId <$> results ->
          StudentSubmission.grades s' !! q = StudentSubmission.grades s !! q)
    /\ (forall q,
          q ∈ AiGradingResult.questionId <$> results ->
          exists res,
            res ∈ results
            /\ AiGradingResult.questionId res = q
            /\ StudentSubmission.grades s' !! q
               = Some (QuestionGrade.mk (finalScore (Assessment.rubric a) res)
                         (AiGradingResult.comment res)
                         (AiGradingResult.studentAnswer res) (Some true))).
Proof.
  intros Hs Hfile.
  destruct (runAiGrading_selected a sel results s Hs Hfile)
    as (a' & s' & Ha' & Hs' & Hgrades & _).
  exists a', s'. split; [exact Ha'|]. split; [exact Hs'|]. rewrite Hgrades. split.
  - intros q Hq. by rewrite foldl_applyResult_untouched.
  - intros q Hq. by apply foldl_applyResult_grades.
Qed.

Lemma runAiGrading_replaces_named_grades_witness :
  exists a' s',
    runAiGrading Examples.essayGraded (Some "s1") (Ok Examples.aiResults) = Some a'
    /\ findStudent (Assessment.students a') (Some "s1") = Some s'
    /\ QuestionGrade.score <$> StudentSubmission.grades s' !! "q2" = Some 7.
Proof.
  destruct (runAiGrading_replaces_named_grades Examples.essayGraded (Some "s1")
              Examples.aiResults
              (default Examples.ann
                 (findStudent (Assessment.students Examples.essayGraded) (Some "s1")))
              eq_refl eq_refl)
    as (a' & s' & Ha' & Hs' & Hkept & _).
  exists a', s'. split; [exact Ha'|]. split; [exact Hs'|].
  rewrite (Hkept "q2"); [reflexivity|].
  simpl. intros Hin. apply list_elem_of_singleton in Hin. discriminate.
Defined.

(** [runAiGrading] emits an assessment exactly when a student is selected,
    the student has file data and the grading call returned; and what it
    emits has the other fields of the old assessment and, at every
    position, the old student unless that student carries the selected
    id. *)
Theorem runAiGrading_frame a sel response :
  (is_Some (runAiGrading a sel response)
   <-> exists s results,
         findStudent (Assessment.students a) sel = Some s
         /\ truthyOpt (StudentSubmission.fileData s) = true
         /\ response = Ok results)
  /\ (forall a',
        runAiGrading a sel response = Some a' ->
        Assessment.id a' = Assessment.id a
        /\ Assessment.title a' = Assessment.title a
        /\ Assessment.description a' = Assessment.description a
        /\ Assessment.status a' = Assessment.status a
        /\ Assessment.rubric a' = Assessment.rubric a
        /\ Assessment.cannedComments a' = Assessment.cannedComments a
        /\ Assessment.created a' = Assessment.created a
        /\ length (Assessment.students a') = length (Assessment.students a)
        /\ forall (i : nat) s0,
             Assessment.students a !! i = Some s0 ->
             Some (StudentSubmission.id s0) <> sel ->
             Assessment.students a' !! i = Some s0).
Proof.
  split; [split|].
  - intros [a' Ha'].
    apply runAiGrading_inv in Ha' as (s & results & Hs & Hfile & Hresp & _).
    by exists s, results.
  - intros (s & results & Hs & Hfile & ->). by eapply runAiGrading_emits.
  - intros a' (s & results & Hs & _ & _ & ->)%runAiGrading_inv. simpl.
    repeat (split; [reflexivity|]).
    split; [apply length_replaceStudent|].
    intros i s0 Hi Hne. by apply replaceStudent_lookup_ne.
Qed.

Lemma runAiGrading_frame_witness :
  runAiGrading Examples.quiz (Some "s1") (Throw (Rejection "503")) = None
  /\ is_Some (runAiGrading Examples.quiz (Some "s1") (Ok Examples.aiResults)).
Proof.
  destruct (runAiGrading_frame Examples.quiz (Some "s1") (Throw (Rejection "503")))
    as [Hfail _].
  destruct (runAiGrading_frame Examples.quiz (Some "s1") (Ok Examples.aiResults))
    as [Hok _].
  split.
  - destruct (runAiGrading Examples.quiz (Some "s1") (Throw (Rejection "503")))
      as [a'|] eqn:Hrun; [|reflexivity].
    destruct (proj1 Hfail (ex_intro _ a' eq_refl)) as (s & results & _ & _ & Habs).
    discriminate Habs.
  - apply Hok. exists Examples.ann, Examples.aiResults. repeat split; reflexivity.
Defined.

(** The score of a free-response item is never derived: a manual edit of
    any field stores the edit as it is over the existing grade (or the
    default grade), and the score kept for an AI result is the score the
    result suggests. *)
Theorem free_response_score_is_verbatim a sel q s item :
  findStudent (Assessment.students a) sel = Some s ->
  findRubricItem (Assessment.rubric a) q = Some item ->
  RubricItem.type item = FRQ ->
  (forall gd,
      exists a' s',
        handleGradeChange a sel q gd = Some a'
        /\ findStudent (Assessment.students a') sel = Some s'
        /\ StudentSubmission.grades s' !! q
           = Some (PartialGrade.spreadOver
                     (default defaultGrade (StudentSubmission.grades s !! q)) gd))
  /\ (forall res,
        AiGradingResult.questionId res = q ->
        finalScore (Assessment.rubric a) res = AiGradingResult.score res).
Proof.
  intros Hs Hitem Htype. split.
  - intros gd.
    destruct (handleGradeChange_selected a sel q gd s Hs)
      as (a' & s' & Ha' & Hs' & _ & Hgrades & _).
    exists a', s'. split; [exact Ha'|]. split; [exact Hs'|].
    rewrite Hgrades, lookup_insert_eq. unfold newGradeData.
    rewrite Hitem, Htype. by destruct (PartialGrade.studentAnswer gd).
  - intros res <-. unfold finalScore. by rewrite Hitem, Htype.
Qed.

Lemma free_response_score_is_verbatim_witness :
  finalScore (Assessment.rubric Examples.quiz)
             (AiGradingResult.mk "q2" 6 "Mostly right." (Some "an essay")) = 6.
Proof.
  destruct (free_response_score_is_verbatim Examples.quiz (Some "s1") "q2"
              Examples.ann Examples.q2 eq_refl eq_refl eq_refl) as [_ Hai].
  apply (Hai (AiGradingResult.mk "q2" 6 "Mostly right." (Some "an essay"))).
  reflexivity.
Defined.

Lemma sameLetter_normalised answer key :
  sameLetter (toUpperCase (trim answer)) key = sameLetter answer key.
Proof. unfold sameLetter. by rewrite JsProofs.normalise_twice. Qed.

(** Editing the answer and then changing the key scores the answer against
    the new key: after the selected student's answer to a keyed
    multiple-choice item is set to a text that is not blank, a key change
    for the item leaves the student with [maxPoints] if the trimmed,
    upper-cased answer typed equals the trimmed, upper-cased new key, and
    with 0 otherwise. *)
Theorem answer_then_key_change a sel q gd answer newKey s item key :
  findStudent (Assessment.students a) sel = Some s ->
  findRubricItem (Assessment.rubric a) q = Some item ->
  RubricItem.type item = MCQ ->
  RubricItem.correctAnswer item = Some key ->
  key <> "" ->
  PartialGrade.studentAnswer gd = Some answer ->
  trim answer <> "" ->
  exists a1 s2 g2,
    handleGradeChange a sel q gd = Some a1
    /\ findStudent (Assessment.students (handleKeyChange a1 sel q newKey)) sel = Some s2
    /\ StudentSubmission.grades s2 !! q = Some g2
    /\ QuestionGrade.score g2
       = if sameLetter answer newKey then RubricItem.maxPoints item else 0.
Proof.
  intros Hs Hitem Htype Hkey Hk Hans Hblank.
  destruct (handleGradeChange_selected a sel q gd s Hs)
    as (a1 & s1 & Ha1 & Hs1 & Hrubric & Hgrades & _ & _ & Hid).
  assert (Hg1 : exists g1,
             StudentSubmission.grades s1 !! q = Some g1
             /\ QuestionGrade.studentAnswer g1 = Some (toUpperCase (trim answer))).
  { eexists. rewrite Hgrades, lookup_insert_eq. split; [done|].
    unfold newGradeData. rewrite Hitem, Hans, Htype, Hkey.
    by rewrite (proj2 (truthy_true key) Hk). }
  destruct Hg1 as (g1 & Hg1 & Hanswer1).
  assert (Hne : toUpperCase (trim answer) <> "")
    by (intros Hempty; apply Hblank; by apply JsProofs.toUpperCase_empty).
  rewrite <- Hrubric in Hitem.
  pose proof (handleKeyChange_regrade a1 sel q newKey s1 item g1 _
                Hs1 Hitem Hg1 Hanswer1 Hne) as Hstudents.
  pose proof (findStudent_Some _ _ _ Hs1) as [_ Hsel].
  exists a1. eexists _, _. split; [exact Ha1|]. rewrite Hstudents.
  split; [by eapply findStudent_replaceStudent|]. simpl.
  split; [apply lookup_insert_eq|]. simpl.
  by rewrite sameLetter_normalised.
Qed.

Lemma answer_then_key_change_witness :
  exists a1 s2 g2,
    handleGradeChange Examples.quiz (Some "s1") "q1" (Examples.answer " c ") = Some a1
    /\ findStudent (Assessment.students (handleKeyChange a1 (Some "s1") "q1" "C"))
                   (Some "s1") = Some s2
    /\ StudentSubmission.grades s2 !! "q1" = Some g2
    /\ QuestionGrade.score g2 = 5.
Proof.
  destruct (answer_then_key_change Examples.quiz (Some "s1") "q1"
              (Examples.answer " c ") " c " "C" Examples.ann Examples.q1 "B")
    as (a1 & s2 & g2 & Ha1 & Hs2 & Hg2 & Hscore);
    [reflexivity | reflexivity | reflexivity | reflexivity | discriminate
    | reflexivity | discriminate |].
  exists a1, s2, g2. repeat split; assumption.
Defined.
End GradingExtras.

(** ** Invariants of the assessment over all handlers *)

Module LifecycleExtras.
Import GradingView Lifecycle App GradingProofs LifecycleProofs Reference.

Lemma sumScores_empty : sumScores ∅ = 0.
Proof. unfold sumScores. by rewrite map_to_list_empty. Qed.

Lemma freshStudent_consistent s :
  freshStudent s ->
  StudentSubmission.totalScore s = sumScores (StudentSubmission.grades s).
Proof. intros (_ & -> & ->). by rewrite sumScores_empty. Qed.

Lemma elem_of_replaceStudent_cases students sel u s' :
  s' ∈ replaceStudent students sel u -> s' = u \/ s' ∈ students.
Proof.
  unfold replaceStudent. intros (s & -> & Hs)%list_elem_of_fmap.
  destruct (bool_decide _); [by left | by right].
Qed.

Lemma totalsConsistent_students a a' :
  Assessment.students a' = Assessment.students a ->
  totalsConsistent a -> totalsConsistent a'.
Proof. unfold totalsConsistent. by intros ->. Qed.

Lemma totalsConsistent_added a a' newStudents :
  Assessment.students a' = Assessment.students a ++ newStudents ->
  Forall freshStudent newStudents ->
  totalsConsistent a -> totalsConsistent a'.
Proof.
  unfold totalsConsistent. intros -> Hnew Ha s [Hin|Hin]%elem_of_app; [by apply Ha|].
  apply freshStudent_consistent. eapply Forall_forall in Hnew; eauto.
Qed.

Section Actions.
Context {Page File : Type}.
Variable load : File -> Result (PdfLib.PDFDocument Page).
Variable blobToBase64 : @PdfSplittingService.Blob Page -> Result string.

(** Every handler but [runAiGrading] keeps the cached totals right: if
    every student's total is the sum of the scores of the student's
    grades, it is so again in the assessment the handler emits. *)
Theorem totals_stay_consistent a (action : @Action File) a' :
  totalsConsistent a ->
  (forall sel response, action <> AiGrading sel response) ->
  perform load blobToBase64 a action = Some a' ->
  totalsConsistent a'.
Proof.
  intros Ha Hnot Hperform. destruct action; simpl in Hperform.
  - destruct generated; [|done]. injection Hperform as <-.
    by eapply totalsConsistent_students.
  - injection Hperform as <-. by eapply totalsConsistent_students.
  - injection Hperform as <-. by eapply totalsConsistent_students.
  - injection Hperform as <-. by eapply totalsConsistent_students.
  - injection Hperform as <-. unfold StudentSetup.handleStudentSubmissionUpload.
    destruct (truthyOpt studentId); simpl.
    + intros s' (s & -> & Hs)%list_elem_of_fmap.
      destruct (bool_decide _); [simpl|]; by apply Ha.
    + eapply totalsConsistent_added; [done| |done].
      apply Forall_singleton, newStudent_fresh.
  - unfold StudentSetup.handleRosterImport in Hperform.
    destruct parsed as [names|e]; [|done].
    destruct (length names =? 0)%nat; [done|]. injection Hperform as <-.
    eapply totalsConsistent_added; [done| |done]. apply Forall_forall.
    intros s (i & name & -> & _)%elem_of_lookup_imap. apply newStudent_fresh.
  - unfold StudentSetup.finalizeSplit in Hperform.
    destruct bulkFile as [bulkFile|]; [|done].
    destruct (length detectedRanges =? 0)%nat; [done|].
    destruct (PdfSplittingService.splitPdfByRanges _ _ _) as [results|e]; [|done].
    destruct (StudentSetup.studentsOfResults _ _ _ _ _ _) as [newStudents|e] eqn:Hnew;
      [|done].
    injection Hperform as <-.
    eapply totalsConsistent_added; [done| |done].
    eapply studentsOfResults_fresh; [exact Hnew|]. constructor.
  - injection Hperform as <-. intros s Hs. simpl in Hs.
    apply list_elem_of_filter in Hs as [_ Hs]. by apply Ha.
  - injection Hperform as <-. intros s Hs. simpl in Hs. by apply elem_of_nil in Hs.
  - apply handleGradeChange_inv in Hperform as (s & newGrades & Hs & _ & ->).
    intros s' Hs'. simpl in Hs'.
    apply elem_of_replaceStudent_cases in Hs' as [->|Hs']; [done|by apply Ha].
  - injection Hperform as <-.
    destruct (handleKeyChange_students a selectedStudentId questionId newKey)
      as [Heq|(s & g & newScore & Hs & Hg & Heq)]; intros s' Hs'; rewrite Heq in Hs'.
    + by apply Ha.
    + apply elem_of_replaceStudent_cases in Hs' as [->|Hs']; [done|by apply Ha].
  - by destruct (Hnot selectedStudentId response).
  - unfold addCannedComment in Hperform.
    destruct (negb _); [|done]. injection Hperform as <-.
    by eapply totalsConsistent_students.
Qed.

Lemma perform_cannedComments a (action : @Action File) a' :
  perform load blobToBase64 a action = Some a' ->
  Assessment.cannedComments a' = Assessment.cannedComments a
  \/ exists text,
       (text ∉ Assessment.cannedComments a)
       /\ Assessment.cannedComments a' = Assessment.cannedComments a ++ [text].
Proof.
  intros Hperform. destruct action; simpl in Hperform.
  - destruct generated; [|done]. injection Hperform as <-. by left.
  - injection Hperform as <-. by left.
  - injection Hperform as <-. by left.
  - injection Hperform as <-. by left.
  - injection Hperform as <-. left.
    unfold StudentSetup.handleStudentSubmissionUpload.
    by destruct (truthyOpt studentId).
  - unfold StudentSetup.handleRosterImport in Hperform.
    destruct parsed as [names|e]; [|done].
    destruct (length names =? 0)%nat; [done|]. injection Hperform as <-. by left.
  - unfold StudentSetup.finalizeSplit in Hperform.
    destruct bulkFile as [bulkFile|]; [|done].
    destruct (length detectedRanges =? 0)%nat; [done|].
    destruct (PdfSplittingService.splitPdfByRanges _ _ _) as [results|e]; [|done].
    destruct (StudentSetup.studentsOfResults _ _ _ _ _ _) as [newStudents|e]; [|done].
    injection Hperform as <-. by left.
  - injection Hperform as <-. by left.
  - injection Hperform as <-. by left.
  - apply handleGradeChange_inv in Hperform as (s & newGrades & _ & _ & ->). by left.
  - injection Hperform as <-. by left.
  - apply runAiGrading_inv in Hperform as (s & results & _ & _ & _ & ->). by left.
  - unfold addCannedComment, includes in Hperform.
    destruct (decide (text ∈ Assessment.cannedComments a)) as [Hin|Hnin].
    + by rewrite bool_decide_eq_true_2 in Hperform.
    + rewrite bool_decide_eq_false_2 in Hperform by done.
      injection Hperform as <-. right. by exists text.
Qed.

(** In every assessment the application can hold, no canned comment
    occurs twice. *)
Theorem reachable_cannedComments_distinct a :
  reachable load blobToBase64 a -> NoDup (Assessment.cannedComments a).
Proof.
  induction 1 as [created|a action a' _ IH Hperform].
  - simpl. refine (bool_decide_unpack _ _). vm_compute. exact I.
  - destruct (perform_cannedComments a action a' Hperform) as [->|(text & Hnin & ->)];
      [done|].
    apply NoDup_app. repeat split; [done| |apply NoDup_singleton].
    intros x Hx ->%list_elem_of_singleton. done.
Qed.

(** In every assessment the application can hold, a student who has a
    grade for some item is among the graded students the results view
    counts. *)
Theorem reachable_graded_counted a s :
  reachable load blobToBase64 a ->
  s ∈ Assessment.students a ->
  StudentSubmission.grades s <> ∅ ->
  s ∈ Analytics.gradedStudents a.
Proof.
  intros Hreach Hin Hgrades. unfold Analytics.gradedStudents.
  apply list_elem_of_filter. split; [|done].
  destruct (status_cases (StudentSubmission.status s)) as [Hp|Hg]; [|done].
  destruct Hgrades. by eapply reachable_pendingUngraded.
Qed.
End Actions.

Lemma totals_stay_consistent_witness :
  totalsConsistent Examples.annGraded.
Proof.
  apply (totals_stay_consistent Examples.loadPages Examples.toBase64
           Examples.withAnn Examples.gradeAnn Examples.annGraded).
  - intros s Hs. vm_compute in Hs.
    apply list_elem_of_singleton in Hs. subst s. vm_compute. reflexivity.
  - intros sel response. discriminate.
  - vm_compute. reflexivity.
Defined.

Lemma reachable_annGraded :
  reachable Examples.loadPages Examples.toBase64 Examples.annGraded.
Proof.
  eapply reachable_perform with (action := Examples.gradeAnn);
    [eapply reachable_perform with (action := Examples.upload);
       [apply (reachable_initial _ _ 0) | vm_compute; reflexivity]
    | vm_compute; reflexivity].
Qed.

Lemma reachable_cannedComments_distinct_witness :
  NoDup (Assessment.cannedComments Examples.annGraded).
Proof.
  apply (reachable_cannedComments_distinct Examples.loadPages Examples.toBase64).
  apply reachable_annGraded.
Defined.

Lemma reachable_graded_counted_witness :
  default Examples.ann (Assessment.students Examples.annGraded !! 0%nat)
  ∈ Analytics.gradedStudents Examples.annGraded.
Proof.
  apply (reachable_graded_counted Examples.loadPages Examples.toBase64).
  - apply reachable_annGraded.
  - apply list_elem_of_lookup. exists 0%nat. vm_compute. reflexivity.
  - intros Hempty.
    assert (Hq : StudentSubmission.grades
                   (default Examples.ann (Assessment.students Examples.annGraded !! 0%nat))
                 !! "q1" = None) by (rewrite Hempty; apply lookup_empty).
    vm_compute in Hq. discriminate Hq.
Defined.
End LifecycleExtras.

(** ** Generated ids *)

Module GeneratedIds.
Import Reference.

Lemma pretty_N_go_dash (x : N) s :
  occurs "-" (pretty.pretty_N_go x s) -> occurs "-" s.
Proof.
  revert s. induction (N.lt_wf_0 x) as [x _ IH]; intros s.
  assert (x = 0 \/ 0 < x)%N as [->|Hpos] by lia.
  - by rewrite pretty.pretty_N_go_0.
  - rewrite pretty.pretty_N_go_step by done. intros Hin.
    apply IH in Hin; [|by apply N.div_lt].
    unfold occurs in *. simpl in Hin. destruct Hin as [Hchar|Hin]; [|done].
    exfalso. revert Hchar. unfold pretty.pretty_N_char.
    by repeat case_match.
Qed.

Lemma pretty_N_no_dash (x : N) : ~ occurs "-" (pretty x).
Proof.
  unfold pretty, pretty.pretty_N. destruct (decide (x = 0%N)).
  - unfold occurs. simpl. intros [?|?]; [discriminate|done].
  - intros Hin. by apply pretty_N_go_dash in Hin.
Qed.

Lemma pretty_nat_no_dash (n : nat) : ~ occurs "-" (pretty n).
Proof. apply pretty_N_no_dash. Qed.

Lemma pretty_Z_no_dash (z : Z) : 0 <= z -> ~ occurs "-" (pretty z).
Proof.
  destruct z as [|p|p]; intros Hz; [| |lia].
  - unfold occurs. simpl. intros [?|?]; [discriminate|done].
  - apply pretty_N_no_dash.
Qed.

(** Two texts without dash joined to their continuations by a dash are
    equal only if both parts are. *)
Lemma dash_separates (t t' i i' : string) :
  ~ occurs "-" t -> ~ occurs "-" t' ->
  t +:+ String "-" i = t' +:+ String "-" i' ->
  t = t' /\ i = i'.
Proof.
  unfold occurs. revert t'. induction t as [|c t IH]; intros [|c' t']; simpl.
  - intros _ _ [= ->]. done.
  - intros _ Hno [= <- _]. tauto.
  - intros Hno _ [= -> _]. tauto.
  - intros Hno Hno' [= -> Heq]. destruct (IH t') as [-> ->]; [tauto|tauto|done|done].
Qed.

Lemma generated_id_inj (prefix : string) (t t' : Z) (i i' : nat) :
  0 <= t -> 0 <= t' ->
  prefix +:+ pretty t +:+ "-" +:+ pretty i = prefix +:+ pretty t' +:+ "-" +:+ pretty i' ->
  i = i'.
Proof.
  intros Ht Ht' Heq.
  assert (Hcancel : pretty t +:+ String "-" (pretty i)
                    = pretty t' +:+ String "-" (pretty i')).
  { revert Heq. clear. induction prefix as [|c prefix IH].
    - intros Heq. exact Heq.
    - intros [= Heq]. by apply IH. }
  apply dash_separates in Hcancel as [_ Hi];
    [|by apply pretty_Z_no_dash..].
  by apply (inj pretty) in Hi.
Qed.

Lemma NoDup_imap_ids {A B : Type} (f : nat -> A -> B) (l : list A) :
  (forall i i' x x', f i x = f i' x' -> i = i') ->
  NoDup (imap f l).
Proof.
  intros Hinj. apply NoDup_alt. intros i j y Hi Hj.
  rewrite list_lookup_imap in Hi, Hj.
  destruct (l !! i) as [x|]; [|done]. destruct (l !! j) as [x'|]; [|done].
  simpl in *. injection Hi as <-. injection Hj as Hj. symmetry in Hj.
  by eapply Hinj.
Qed.
End GeneratedIds.

(** ** The setup views *)

Module SetupExtras.
Import Lifecycle LifecycleProofs Reference GeneratedIds.

Lemma filter_all {A : Type} (P : A -> Prop) `{!forall x, Decision (P x)} (l : list A) :
  Forall P l -> filter P l = l.
Proof.
  induction 1 as [|x l Hx _ IH]; [done|].
  by rewrite filter_cons, decide_True, IH.
Qed.

Lemma withStudents_same a :
  Assessment.withStudents a (Assessment.students a) = a.
Proof. by destruct a. Qed.

Lemma withRubric_same a :
  Assessment.withRubric a (Assessment.rubric a) = a.
Proof. by destruct a. Qed.




(** Uploading a submission for a named student attaches the file to every
    student with that id and changes nothing else: the list keeps its
    length; a student with another id is unchanged; a student with the id
    gets the file's data, type and name and keeps id, name, grades, status
    and total. *)
Theorem upload_attaches_file a file studentId now random :
  truthyOpt studentId = true ->
  length (Assessment.students
            (StudentSetup.handleStudentSubmissionUpload a file studentId now random))
  = length (Assessment.students a)
  /\ Assessment.rubric
       (StudentSetup.handleStudentSubmissionUpload a file studentId now random)
     = Assessment.rubric a
  /\ forall (i : nat) s,
       Assessment.students a !! i = Some s ->
       exists s',
         Assessment.students
           (StudentSetup.handleStudentSubmissionUpload a file studentId now random)
           !! i = Some s'
         /\ (Some (StudentSubmission.id s) <> studentId -> s' = s)
         /\ (Some (StudentSubmission.id s) = studentId ->
             StudentSubmission.fileData s' = Some (StudentSetup.base64 file)
             /\ StudentSubmission.fileType s' = StudentSetup.type file
             /\ StudentSubmission.fileName s' = StudentSetup.name file)
         /\ StudentSubmission.id s' = StudentSubmission.id s
         /\ StudentSubmission.studentName s' = StudentSubmission.studentName s
         /\ StudentSubmission.grades s' = StudentSubmission.grades s
         /\ StudentSubmission.status s' = StudentSubmission.status s
         /\ StudentSubmission.totalScore s' = StudentSubmission.totalScore s.
Proof.
  intros Htruthy. unfold StudentSetup.handleStudentSubmissionUpload.
  rewrite Htruthy. simpl. split; [apply length_fmap|]. split; [done|].
  intros i s Hi. rewrite list_lookup_fmap, Hi. simpl. eexists. split; [done|].
  destruct (decide (Some (StudentSubmission.id s) = studentId)) as [Heq|Hne].
  - rewrite bool_decide_eq_true_2 by done. simpl. by repeat split.
  - rewrite bool_decide_eq_false_2 by done. by repeat split.
Qed.

Lemma upload_attaches_file_witness :
  exists s',
    Assessment.students
      (StudentSetup.handleStudentSubmissionUpload Examples.keyChanged
         Examples.uploaded (Some "s1") 17 "0.5") !! 0%nat = Some s'
    /\ StudentSubmission.fileName s' = "ann.pdf"
    /\ StudentSubmission.status s' = GRADED.
Proof.
  destruct (upload_attaches_file Examples.keyChanged Examples.uploaded (Some "s1")
              17 "0.5" eq_refl) as (_ & _ & Hstudents).
  assert (Hann : Assessment.students Examples.keyChanged !! 0%nat
                 = Some (default Examples.ann
                           (Assessment.students Examples.keyChanged !! 0%nat)))
    by (vm_compute; reflexivity).
  destruct (Hstudents 0%nat _ Hann)
    as (s' & Hs' & _ & Hfile & _ & _ & _ & Hstatus & _).
  exists s'. split; [exact Hs'|]. destruct (Hfile eq_refl) as (_ & _ & Hname).
  split; [exact Hname|]. rewrite Hstatus. vm_compute. reflexivity.
Defined.

(** A roster import emits nothing when the call failed or found no name;
    otherwise it appends, after the students already there, one student
    per name in the order of the names (repeated names are not merged):
    pending, without grades, file or file name. *)
Theorem handleRosterImport_appends a parsed now :
  (StudentSetup.handleRosterImport a parsed now = None
   <-> (exists e, parsed = Throw e) \/ parsed = Ok [])
  /\ (forall names,
        parsed = Ok names ->
        names <> [] ->
        exists new,
          StudentSetup.handleRosterImport a parsed now
          = Some (Assessment.withStudents a (Assessment.students a ++ new))
          /\ StudentSubmission.studentName <$> new = names
          /\ Forall (fun s =>
                       freshStudent s
                       /\ StudentSubmission.fileData s = None
                       /\ StudentSubmission.fileName s = "") new).
Proof.
  unfold StudentSetup.handleRosterImport. split; [split|].
  - destruct parsed as [[|name names]|e]; simpl; [by right | done | left; by eexists].
  - intros [[e ->] | ->]; done.
  - intros names -> Hne. destruct names as [|name names]; [done|].
    change (length (name :: names) =? 0)%nat with false. cbv iota.
    eexists. split; [reflexivity|]. split.
    + apply list_eq. intros i. rewrite list_lookup_fmap, list_lookup_imap.
      by destruct ((name :: names) !! i).
    + apply Forall_forall. intros s (i & n & -> & _)%elem_of_lookup_imap.
      by repeat split.
Qed.

Lemma handleRosterImport_appends_witness :
  exists new,
    StudentSetup.handleRosterImport Examples.quiz (Ok ["Cy Young"; "Cy Young"])
      Examples.clock
    = Some (Assessment.withStudents Examples.quiz
              (Assessment.students Examples.quiz ++ new))
    /\ StudentSubmission.studentName <$> new = ["Cy Young"; "Cy Young"].
Proof.
  destruct (handleRosterImport_appends Examples.quiz (Ok ["Cy Young"; "Cy Young"])
              Examples.clock) as [_ Happend].
  destruct (Happend ["Cy Young"; "Cy Young"] eq_refl) as (new & Hnew & Hnames & _);
    [discriminate|].
  exists new. split; [exact Hnew | exact Hnames].
Defined.

(** The students a roster import creates have pairwise distinct ids,
    provided the clock readings are not negative. *)
Theorem roster_ids_are_distinct a names now a' :
  (forall idx, 0 <= now idx) ->
  StudentSetup.handleRosterImport a (Ok names) now = Some a' ->
  exists new,
    Assessment.students a' = Assessment.students a ++ new
    /\ length new = length names
    /\ NoDup (StudentSubmission.id <$> new).
Proof.
  intros Hclock. unfold StudentSetup.handleRosterImport.
  destruct (length names =? 0)%nat; [done|]. intros [= <-]. simpl.
  eexists. split; [done|]. split; [apply length_imap|].
  rewrite fmap_imap. apply NoDup_imap_ids.
  intros i i' x x' Heq. apply (generated_id_inj "s-" (now i) (now i')); [done..|].
  exact Heq.
Qed.

Lemma roster_ids_are_distinct_witness :
  exists new,
    Assessment.students
      (default Examples.quiz
         (StudentSetup.handleRosterImport Examples.quiz (Ok ["Cy Young"; "Di Maggio"])
            Examples.clock))
    = Assessment.students Examples.quiz ++ new
    /\ NoDup (StudentSubmission.id <$> new).
Proof.
  destruct (roster_ids_are_distinct Examples.quiz ["Cy Young"; "Di Maggio"]
              Examples.clock
              (default Examples.quiz
                 (StudentSetup.handleRosterImport Examples.quiz
                    (Ok ["Cy Young"; "Di Maggio"]) Examples.clock)))
    as (new & Hnew & _ & Hnodup).
  - intros idx. unfold Examples.clock. lia.
  - reflexivity.
  - exists new. split; [exact Hnew | exact Hnodup].
Defined.

Section BulkSplit.
Context {Page File : Type}.
Variable load : File -> Result (PdfLib.PDFDocument Page).
Variable blobToBase64 : @PdfSplittingService.Blob Page -> Result string.

Lemma studentsOfResults_total results idx now random newStudents :
  (forall blob, exists base64, blobToBase64 blob = Ok base64) ->
  exists created,
    StudentSetup.studentsOfResults blobToBase64 results idx now random newStudents
    = Ok (newStudents ++ created)
    /\ StudentSubmission.studentName <$> created
       = PdfSplittingService.studentName <$> results
    /\ Forall (fun s => StudentSubmission.fileType s = "application/pdf"
                        /\ is_Some (StudentSubmission.fileData s)) created.
Proof.
  intros Htotal. revert idx newStudents.
  induction results as [|res results IH]; intros idx newStudents; simpl.
  - exists []. by rewrite app_nil_r.
  - destruct (Htotal (PdfSplittingService.blob res)) as [base64 ->].
    destruct (IH (S idx)
                (newStudents ++
                   [StudentSetup.newStudent
                      ("s-" +:+ pretty (now idx) +:+ "-" +:+ random idx)
                      (PdfSplittingService.studentName res) (Some base64)
                      "application/pdf"
                      (StudentSetup.underscoreRuns false
                         (PdfSplittingService.studentName res) +:+ "_work.pdf")]))
      as (created & -> & Hnames & Hfiles).
    eexists (_ :: created). rewrite <- app_assoc. split; [done|]. split.
    + rewrite !fmap_cons. by rewrite Hnames.
    + constructor; [|done]. simpl. split; [done|by eexists].
Qed.

(** The bulk split is all or nothing. On a loaded file: one range that asks
    for a page below page 1 makes it emit nothing; when no range does, the
    list is not empty and every blob can be read, it appends one student
    per range that has a page, in the order of the ranges and under the
    range's name: pending, without grades, with a PDF file. *)
Theorem finalizeSplit_all_or_nothing a (bulkFile : File) doc ranges now random :
  load bulkFile = Ok doc ->
  (Exists (fun range => ~ PdfSplittingService.startsInDocument range) ranges ->
   StudentSetup.finalizeSplit load blobToBase64 a (Some bulkFile) ranges now random
   = None)
  /\ (Forall PdfSplittingService.startsInDocument ranges ->
      ranges <> [] ->
      (forall blob, exists base64, blobToBase64 blob = Ok base64) ->
      exists new,
        StudentSetup.finalizeSplit load blobToBase64 a (Some bulkFile) ranges now random
        = Some (Assessment.withStudents a (Assessment.students a ++ new))
        /\ StudentSubmission.studentName <$> new
           = PdfSplittingService.studentName
               <$> omap (PdfSplittingService.entryOf doc) ranges
        /\ Forall (fun s => freshStudent s
                            /\ StudentSubmission.fileType s = "application/pdf"
                            /\ is_Some (StudentSubmission.fileData s)) new).
Proof.
  intros Hload. unfold StudentSetup.finalizeSplit, PdfSplittingService.splitPdfByRanges.
  rewrite Hload. split.
  - intros Hbad. destruct ranges as [|range ranges]; [by apply Exists_nil in Hbad|].
    change (length (range :: ranges) =? 0)%nat with false. cbv iota.
    destruct (PdfSplittingProofs.splitLoop_below_first_page doc (range :: ranges) []
                Hbad) as [e ->].
    done.
  - intros Hall Hne Htotal. destruct ranges as [|range ranges]; [done|].
    change (length (range :: ranges) =? 0)%nat with false. cbv iota.
    rewrite PdfSplittingProofs.splitLoop_omap by done. rewrite app_nil_l.
    destruct (studentsOfResults_total
                (omap (PdfSplittingService.entryOf doc) (range :: ranges))
                0%nat now random [] Htotal)
      as (created & Hcreated & Hnames & Hfiles).
    rewrite Hcreated. simpl app. exists created. split; [done|]. split; [done|].
    apply Forall_forall. intros s Hs.
    split; [|by eapply Forall_forall in Hfiles].
    assert (Hfresh : Forall freshStudent created).
    { eapply (studentsOfResults_fresh blobToBase64); [exact Hcreated|constructor]. }
    by eapply Forall_forall in Hfresh.
Qed.
End BulkSplit.

Lemma finalizeSplit_all_or_nothing_witness :
  StudentSetup.finalizeSplit Examples.loadPages Examples.toBase64 Examples.quiz
    (Some Examples.fourPages) MoreExamples.belowFirstPage Examples.clock
    (fun _ => "0.5")
  = None.
Proof.
  destruct (finalizeSplit_all_or_nothing Examples.loadPages Examples.toBase64
              Examples.quiz Examples.fourPages Examples.fourPages
              MoreExamples.belowFirstPage Examples.clock (fun _ => "0.5") eq_refl)
    as [Hnothing _].
  apply Hnothing. apply Exists_cons_tl, Exists_cons_hd.
  unfold PdfSplittingService.startsInDocument. simpl. lia.
Defined.

(** *** File names *)





(** *** The rubric and the maximum score *)


(** Rubric edits and the maximum score of the results view: a new question
    adds its 1 point to the maximum score; neither adding nor removing a
    question changes any student, so grades given for a removed item stay
    in the students' mappings and totals; and removing the question just
    added restores the assessment, provided no item had its id before. *)
Theorem rubric_edits_and_maxScore a now id :
  Analytics.maxScore (RubricSetup.addQuestion a now) = Analytics.maxScore a + 1
  /\ Assessment.students (RubricSetup.addQuestion a now) = Assessment.students a
  /\ Assessment.students (RubricSetup.removeQuestion a id) = Assessment.students a
  /\ (Forall (fun r => RubricItem.id r <> "q-" +:+ pretty now) (Assessment.rubric a) ->
      RubricSetup.removeQuestion (RubricSetup.addQuestion a now) ("q-" +:+ pretty now)
      = a).
Proof.
  unfold Analytics.maxScore. split; [|split; [done|split; [done|]]].
  - simpl. by rewrite foldl_app.
  - intros Hfresh. unfold RubricSetup.removeQuestion. simpl.
    rewrite filter_app, filter_all by done.
    rewrite filter_cons, decide_False by (intros Hne; by apply Hne). simpl.
    rewrite app_nil_r. by destruct a.
Qed.

Lemma rubric_edits_and_maxScore_witness :
  Analytics.maxScore (RubricSetup.addQuestion Examples.quiz 17) = 16
  /\ RubricSetup.removeQuestion (RubricSetup.addQuestion Examples.quiz 17) "q-17"
     = Examples.quiz.
Proof.
  destruct (rubric_edits_and_maxScore Examples.quiz 17 "q1")
    as (Hadd & _ & _ & Hround).
  split; [rewrite Hadd; reflexivity|].
  apply Hround. repeat constructor; discriminate.
Defined.

(** *** Editing a question *)




End SetupExtras.

(** ** More on the AI gateway and its callers *)

Module GeminiExtras.
Import GeminiService GeminiProofs Reference GeneratedIds.

Section Proofs.
Variable apiKey : string.
Variable remote : nat -> Request -> Result Response.
Variable parseRubric : string -> Result (list GeneratedItem.t).
Variable parseNames : string -> Result (list string).
Variable parseRanges : string -> Result (list StudentRange.t).
Variable parseResults : string -> Result (list AiGradingResult.t).
Variable stringifyRubric : list RubricItem.t -> string.
Variable dateNow : nat -> Z.

(** What an operation writes on the console: nothing when it returns or
    when the credential is missing, and otherwise one line, made of its
    label and the error it throws. *)
Definition logsItsFailure {A : Type} (operation : Gateway (list A)) (label : string)
  : Prop :=
  forall w : World,
    console (operation w).2
    = console w
      ++ match (operation w).1 with
         | Ok _ => []
         | Throw e => if decide (apiKey = "") then [] else [(label, e)]
         end.

Lemma guarded_call_logs {A : Type} (request : Request)
  (decode : string -> Result (list A)) (label : string) :
  logsItsFailure
    (if negb (truthy apiKey) then throw (Error "API Key not found")
     else
       tryCatch
         (response ← generateContent remote request;
          match responseText response with
          | None => mret []
          | Some text => if negb (truthy text) then mret [] else lift (decode text)
          end)
         (fun error => consoleError label error;; throw error))
    label.
Proof.
  intros w. destruct (decide (apiKey = "")) as [->|Hkey].
  - simpl. by rewrite app_nil_r.
  - rewrite (truthy_apiKey apiKey Hkey). simpl.
    unfold tryCatch, mbind, gateway_bind, generateContent. simpl.
    destruct (remote (length (requests w)) request) as [response|e]; simpl; [|done].
    destruct (responseText response) as [text|]; simpl; [|by rewrite app_nil_r].
    destruct (truthy text); simpl; [|by rewrite app_nil_r].
    unfold lift. destruct (decode text); simpl; [by rewrite app_nil_r|done].
Qed.

(** Each of the four operations writes one console line when it fails with
    a credential, carrying its own label and the error it throws again, and
    writes nothing otherwise. *)
Theorem gateway_operations_log :
  (forall base64Data mimeType,
      logsItsFailure
        (generateRubricFromPDF apiKey remote parseRubric dateNow base64Data mimeType)
        "Gemini Rubric Generation Error:")
  /\ (forall base64Data mimeType,
        logsItsFailure
          (parseStudentRoster apiKey remote parseNames base64Data mimeType)
          "Gemini Roster Parsing Error:")
  /\ (forall base64Data mimeType,
        logsItsFailure
          (identifyStudentRanges apiKey remote parseRanges base64Data mimeType)
          "Gemini Split Analysis Error:")
  /\ (forall rubric studentBase64 mimeType,
        logsItsFailure
          (gradeStudentSubmission apiKey remote parseResults stringifyRubric
             rubric studentBase64 mimeType)
          "Gemini Grading Error:").
Proof.
  split; [|split; [|split]]; intros; try apply guarded_call_logs.
  intros w. unfold generateRubricFromPDF.
  destruct (decide (apiKey = "")) as [->|Hkey].
  - simpl. by rewrite app_nil_r.
  - rewrite (truthy_apiKey apiKey Hkey). simpl.
    unfold tryCatch, mbind, gateway_bind, generateContent. simpl.
    destruct (remote (length (requests w)) _) as [response|e]; simpl; [|done].
    destruct (responseText response) as [text|]; simpl; [|by rewrite app_nil_r].
    destruct (truthy text); simpl; [|by rewrite app_nil_r].
    unfold lift. destruct (parseRubric text); simpl; [by rewrite app_nil_r|done].
Qed.

(** What the callers make of an operation that has a credential and gets a
    response without text: the rubric upload replaces the rubric by the
    empty list, the roster import emits nothing. Without a credential
    neither emits anything. *)
Theorem callers_on_empty_response a w base64Data mimeType now :
  (apiKey <> "" ->
   (forall response,
       remote (length (requests w)) (rubricRequest base64Data mimeType) = Ok response ->
       truthyOpt (responseText response) = false ->
       RubricSetup.handleFileUpload a
         (generateRubricFromPDF apiKey remote parseRubric dateNow base64Data mimeType w).1
       = Some (Assessment.withRubric a []))
   /\ (forall response,
         remote (length (requests w)) (rosterRequest base64Data mimeType) = Ok response ->
         truthyOpt (responseText response) = false ->
         StudentSetup.handleRosterImport a
           (parseStudentRoster apiKey remote parseNames base64Data mimeType w).1 now
         = None))
  /\ (apiKey = "" ->
      RubricSetup.handleFileUpload a
        (generateRubricFromPDF apiKey remote parseRubric dateNow base64Data mimeType w).1
      = None
      /\ StudentSetup.handleRosterImport a
           (parseStudentRoster apiKey remote parseNames base64Data mimeType w).1 now
         = None).
Proof.
  split.
  - intros Hkey. split; intros response Hremote Hempty.
    + unfold generateRubricFromPDF. rewrite (truthy_apiKey apiKey Hkey). simpl.
      unfold tryCatch, mbind, gateway_bind, generateContent. simpl. rewrite Hremote.
      simpl. destruct (responseText response) as [text|]; simpl; [|done].
      simpl in Hempty. by rewrite Hempty.
    + unfold parseStudentRoster. rewrite (truthy_apiKey apiKey Hkey). simpl.
      unfold tryCatch, mbind, gateway_bind, generateContent. simpl. rewrite Hremote.
      simpl. destruct (responseText response) as [text|]; simpl; [|done].
      simpl in Hempty. by rewrite Hempty.
  - intros ->. done.
Qed.

(** The rubric made from a response: one item per parsed item, in order,
    with the parsed question, points, criteria, type and key; and when the
    model supplied no id and the clock readings are not negative, the ids
    given are pairwise distinct. *)
Theorem generated_rubric_ids w base64Data mimeType response text data :
  apiKey <> "" ->
  remote (length (requests w)) (rubricRequest base64Data mimeType) = Ok response ->
  responseText response = Some text ->
  text <> "" ->
  parseRubric text = Ok data ->
  exists rubric,
    (generateRubricFromPDF apiKey remote parseRubric dateNow base64Data mimeType w).1
    = Ok rubric
    /\ RubricItem.question <$> rubric = GeneratedItem.question <$> data
    /\ RubricItem.maxPoints <$> rubric = GeneratedItem.maxPoints <$> data
    /\ RubricItem.type <$> rubric = GeneratedItem.type <$> data
    /\ RubricItem.correctAnswer <$> rubric = GeneratedItem.correctAnswer <$> data
    /\ (Forall (fun item => GeneratedItem.id item = None) data ->
        (forall index, 0 <= dateNow index) ->
        NoDup (RubricItem.id <$> rubric)).
Proof.
  intros Hkey Hremote Htext Hne Hparse.
  unfold generateRubricFromPDF. rewrite (truthy_apiKey apiKey Hkey). simpl.
  unfold tryCatch, mbind, gateway_bind, generateContent. simpl. rewrite Hremote.
  simpl. rewrite Htext. rewrite (proj2 (GradingProofs.truthy_true text) Hne). simpl.
  unfold lift. rewrite Hparse. simpl. eexists. split; [reflexivity|].
  repeat split.
  - apply list_eq. intros i. rewrite !list_lookup_fmap, list_lookup_imap.
    by destruct (data !! i).
  - apply list_eq. intros i. rewrite !list_lookup_fmap, list_lookup_imap.
    by destruct (data !! i).
  - apply list_eq. intros i. rewrite !list_lookup_fmap, list_lookup_imap.
    by destruct (data !! i).
  - apply list_eq. intros i. rewrite !list_lookup_fmap, list_lookup_imap.
    by destruct (data !! i).
  - intros Hnoid Hclock. rewrite fmap_imap. apply NoDup_alt. intros i j y Hi Hj.
    rewrite list_lookup_imap in Hi, Hj.
    destruct (data !! i) as [x|] eqn:Hx; [|done].
    destruct (data !! j) as [x'|] eqn:Hx'; [|done].
    simpl in *.
    rewrite (proj1 (Forall_lookup _ _) Hnoid i x Hx) in Hi.
    rewrite (proj1 (Forall_lookup _ _) Hnoid j x' Hx') in Hj.
    simpl in *. injection Hi as <-. injection Hj as Hj. symmetry in Hj.
    apply (generated_id_inj "" (dateNow i) (dateNow j));
      [apply Hclock | apply Hclock | exact Hj].
Qed.
End Proofs.

Lemma gateway_operations_log_witness :
  console (parseStudentRoster "key" Examples.unreachable Examples.noParse
             "JVBERi0=" "application/pdf" Examples.quiet).2
  = [("Gemini Roster Parsing Error:", Rejection "503 Service Unavailable")].
Proof.
  destruct (gateway_operations_log "key" Examples.unreachable
              Examples.noParse Examples.noParse Examples.noParse Examples.noParse
              Examples.printRubric Examples.clock) as (_ & Hroster & _).
  rewrite (Hroster "JVBERi0=" "application/pdf" Examples.quiet). reflexivity.
Defined.

Lemma callers_on_empty_response_witness :
  RubricSetup.handleFileUpload Examples.quiz
    (generateRubricFromPDF "key" MoreExamples.silent Examples.noParse Examples.clock
       "JVBERi0=" "application/pdf" Examples.quiet).1
  = Some (Assessment.withRubric Examples.quiz []).
Proof.
  destruct (callers_on_empty_response "key" MoreExamples.silent Examples.noParse
              Examples.noParse Examples.clock Examples.quiz Examples.quiet
              "JVBERi0=" "application/pdf" Examples.clock) as [Hkey _].
  destruct Hkey as [Hrubric _]; [discriminate|].
  apply (Hrubric (mkResponse (Some ""))); reflexivity.
Defined.

Lemma generated_rubric_ids_witness :
  exists rubric,
    (generateRubricFromPDF "key" MoreExamples.answering MoreExamples.twoItems
       Examples.clock "JVBERi0=" "application/pdf" Examples.quiet).1 = Ok rubric
    /\ NoDup (RubricItem.id <$> rubric).
Proof.
  destruct (generated_rubric_ids "key" MoreExamples.answering MoreExamples.twoItems
              Examples.clock Examples.quiet "JVBERi0=" "application/pdf"
              (mkResponse (Some "[...]")) "[...]" MoreExamples.twoGenerated)
    as (rubric & Hrubric & _ & _ & _ & _ & Hnodup);
    [discriminate | reflexivity | reflexivity | discriminate | reflexivity |].
  exists rubric. split; [exact Hrubric|]. apply Hnodup.
  - repeat constructor.
  - intros index. unfold Examples.clock. lia.
Defined.
End GeminiExtras.

(** ** The results view *)

Module AnalyticsProofs.
Import Analytics Reference.

Lemma increment_names i data : name <$> increment i data = name <$> data.
Proof.
  unfold increment. apply list_eq. intros j. rewrite !list_lookup_fmap.
  destruct (decide (i = j)) as [->|Hne].
  - rewrite list_lookup_alter_eq. by destruct (data !! j).
  - by rewrite list_lookup_alter_ne.
Qed.

Lemma increment_counts i data :
  (i < length data)%nat ->
  sum_list (count <$> increment i data) = S (sum_list (count <$> data)).
Proof.
  unfold increment. revert i. induction data as [|bar data IH]; intros i Hi;
    [simpl in Hi; lia|].
  destruct i as [|i]; [done|].
  specialize (IH i ltac:(simpl in Hi; lia)).
  change (count bar + sum_list (count <$> alter
            (fun bar => mkBar (name bar) (S (count bar))) i data)
          = S (count bar + sum_list (count <$> data)))%nat.
  rewrite IH. lia.
Qed.

Section Distribution.
Variable percentAtMost : Z -> Z -> Z -> bool.

Lemma barOf_bound maxScore s : (barOf percentAtMost maxScore s < 5)%nat.
Proof. unfold barOf. repeat case_match; lia. Qed.

Lemma distribution_fold maxScore students data :
  length data = 5%nat ->
  length (foldl (fun data s => increment (barOf percentAtMost maxScore s) data)
                data students) = 5%nat
  /\ name <$> foldl (fun data s => increment (barOf percentAtMost maxScore s) data)
                    data students
     = name <$> data
  /\ sum_list
       (count <$> foldl (fun data s => increment (barOf percentAtMost maxScore s) data)
                        data students)
     = (sum_list (count <$> data) + length students)%nat.
Proof.
  revert data. induction students as [|s students IH]; intros data Hlen; simpl.
  - repeat split; [done|lia].
  - destruct (IH (increment (barOf percentAtMost maxScore s) data)) as (Hl & Hn & Hc).
    { unfold increment. by rewrite length_alter. }
    split; [done|]. split; [by rewrite Hn, increment_names|].
    rewrite Hc, increment_counts; [lia|].
    rewrite Hlen. apply barOf_bound.
Qed.

Lemma barOf_without_points maxScore s :
  maxScore <= 0 -> barOf percentAtMost maxScore s = 0%nat.
Proof. intros Hmax. unfold barOf. destruct (Z.ltb_spec 0 maxScore); [lia|done]. Qed.

Lemma distribution_first_bar maxScore (students : list StudentSubmission.t)
  (data : list Bar) :
  maxScore <= 0 ->
  foldl (fun data s => increment (barOf percentAtMost maxScore s) data) data students
  = match data with
    | [] => []
    | bar :: bars => mkBar (name bar) (count bar + length students) :: bars
    end.
Proof.
  intros Hmax. revert data.
  induction students as [|s students IH]; intros [|bar bars]; simpl.
  - done.
  - destruct bar. simpl. by rewrite Nat.add_0_r.
  - by rewrite IH.
  - rewrite IH, barOf_without_points by done. simpl. do 2 f_equal. lia.
Qed.

(** The score distribution has the five bars in their fixed order; every
    graded student is counted in exactly one bar and no one else is: the
    counts add up to the number of graded students; and when the rubric's
    maximum score is not positive, all of them are counted in the first
    bar. This holds whatever the floating-point comparisons give. *)
Theorem distribution_counts_graded_students a :
  name <$> distributionData percentAtMost a
  = ["0-20%"; "21-40%"; "41-60%"; "61-80%"; "81-100%"]
  /\ sum_list (count <$> distributionData percentAtMost a)
     = length (gradedStudents a)
  /\ (maxScore a <= 0 ->
      count <$> distributionData percentAtMost a
      = [length (gradedStudents a); 0; 0; 0; 0]%nat).
Proof.
  unfold distributionData.
  destruct (distribution_fold (maxScore a) (gradedStudents a) emptyDistribution eq_refl)
    as (_ & Hnames & Hcounts).
  split; [by rewrite Hnames|]. split; [by rewrite Hcounts|].
  intros Hmax. by rewrite distribution_first_bar.
Qed.
End Distribution.

Lemma distribution_counts_graded_students_witness :
  count <$> distributionData (fun t m th => t * 100 <=? th * m)
              (Assessment.withRubric Examples.keyChanged [])
  = [2; 0; 0; 0; 0]%nat.
Proof.
  destruct (distribution_counts_graded_students (fun t m th => t * 100 <=? th * m)
              (Assessment.withRubric Examples.keyChanged []))
    as (_ & _ & Hfirst).
  rewrite Hfirst; [reflexivity|]. vm_compute. discriminate.
Defined.

(** The top score shown is never negative and never below a graded
    student's total; it is the total of some graded student, or 0 (as it is
    when no student is graded or no graded total is positive). *)
Theorem topScore_bounds a :
  0 <= topScore a
  /\ (forall s, s ∈ gradedStudents a -> StudentSubmission.totalScore s <= topScore a)
  /\ (topScore a = 0
      \/ exists s, s ∈ gradedStudents a /\ StudentSubmission.totalScore s = topScore a)
  /\ (gradedStudents a = [] -> topScore a = 0).
Proof.
  unfold topScore. induction (gradedStudents a) as [|s l (Hpos & Hmax & Hattained & _)].
  - simpl. repeat split; [done| |by left].
    intros s Hs. by apply elem_of_nil in Hs.
  - rewrite fmap_cons. cbn [foldr]. repeat split.
    + lia.
    + intros s' [->|Hs']%elem_of_cons; [lia|]. specialize (Hmax s' Hs'). lia.
    + destruct (Z.max_spec (StudentSubmission.totalScore s)
                  (foldr Z.max 0 (StudentSubmission.totalScore <$> l)))
        as [[_ ->]|[_ ->]].
      * destruct Hattained as [?|(s' & Hs' & Hs'top)]; [by left|].
        right. exists s'. split; [by apply elem_of_cons; right|done].
      * right. exists s. split; [apply list_elem_of_here|done].
    + done.
Qed.

Lemma topScore_bounds_witness :
  0 <= topScore Examples.keyChanged
  /\ (topScore Examples.keyChanged = 0
      \/ exists s, s ∈ gradedStudents Examples.keyChanged
                   /\ StudentSubmission.totalScore s = topScore Examples.keyChanged).
Proof.
  destruct (topScore_bounds Examples.keyChanged) as (Hpos & _ & Hattained & _).
  split; [exact Hpos | exact Hattained].
Defined.

(** *** The CSV export *)

Lemma quote_eqb_false c : Ascii.eqb c quote = false -> c <> quote.
Proof. intros Hc ->. by rewrite Ascii.eqb_refl in Hc. Qed.

(** Doubling the double quotes of a comment loses nothing: a reader that
    takes two double quotes in a row for one gets the comment back, so two
    comments are written the same way only if they are the same. *)
Theorem doubleQuotes_round_trip s :
  undoubleQuotes (doubleQuotes s) = s
  /\ forall s', doubleQuotes s = doubleQuotes s' -> s = s'.
Proof.
  assert (Hround : forall t, undoubleQuotes (doubleQuotes t) = t).
  { intros t. induction t as [|c t IH]; simpl; [done|].
    destruct (Ascii.eqb c quote) eqn:Hc.
    - apply Ascii.eqb_eq in Hc as ->. simpl. by rewrite IH.
    - simpl. rewrite Hc. by rewrite IH. }
  split; [apply Hround|].
  intros s' Heq. by rewrite <- (Hround s), Heq, Hround.
Qed.
Lemma doubleQuotes_round_trip_witness :
  undoubleQuotes (doubleQuotes (String quote "ok")) = String quote "ok"
  /\ (doubleQuotes (String quote "ok") = doubleQuotes (String quote "ok") ->
      String quote "ok" = String quote "ok").
Proof.
  destruct (doubleQuotes_round_trip (String quote "ok")) as [Hround Hinj].
  split; [exact Hround | apply Hinj].
Defined.

End AnalyticsProofs.
